(** * Weather Companion backend: TTL cache, key normalisation and
      response normalisation

    A shallow embedding of [src/api/clients/weather_client.py],
    [src/api/clients/geocoding_client.py], [src/api/routers/weather.py],
    [src/api/routers/location.py], [src/api/models.py] and
    [src/api/config.py], and the properties of the design document that
    can be settled on it.

    Conventions of the embedding:
    - Python values that come out of [resp.json()] are the type [json];
      Python [float] is the kernel's binary64 [float], Python [int] is [Z],
      [str] is [string] (characters restricted to one byte each), a [dict]
      is an association list in insertion order.
    - A Python function that may raise returns [res A = exn + A].
    - [time.time()] readings are exact rationals ([Q]); a TTL is a [Z]
      number of seconds.
    - The process-wide [_cache] dictionaries are [gmap]s threaded through
      a state-and-exception monad together with the clock and the log of
      requests sent upstream. *)

From Stdlib Require Import ZArith QArith Floats Ascii String Lia Lqa.
From stdpp Require Import gmap strings list sorting pretty.

Local Open Scope Z_scope.
Set Warnings "-register-all,-inexact-float".

(** ** Python values and exceptions *)

Inductive json :=
| JNone
| JBool (b : bool)
| JInt (z : Z)
| JFloat (f : float)
| JStr (s : string)
| JList (items : list json)
| JDict (fields : list (string * json)).

(** The exceptions the modelled code can raise.  [UpstreamError] stands for
    whatever [httpx] raises inside the [async with] block (connection
    error, timeout, [raise_for_status] on a non-2xx answer, a body that is
    not JSON).  The [detail] of an [HTTPException] is either a literal or
    the f-string [f"{prefix}{ex}"], kept as the prefix and the exception
    that was formatted. *)
Inductive exn :=
| TypeError
| ValueError
| OverflowError
| AttributeError
| KeyError
| IndexError
| ValidationError
| UpstreamError (info : string)
| HTTPException (status_code : Z) (detail : detail)
with detail :=
| Detail (text : string)
| Failed (prefix : string) (cause : exn).

Definition res (A : Type) : Type := exn + A.

Definition ok {A} (a : A) : res A := inr a.
Definition raise {A} (e : exn) : res A := inl e.

#[global] Instance res_ret : MRet res := fun A a => inr a.
#[global] Instance res_bind : MBind res := fun A B f m =>
  match m with
  | inl e => inl e
  | inr a => f a
  end.

(** ** Floats *)

(** The integer a float stands for, when it stands for one
    ([x == n] in Python for exactly one [n], or for none). *)
Definition SF_to_Z (x : spec_float) : option Z :=
  match x with
  | S754_zero _ => Some 0
  | S754_finite s m e =>
      let mag :=
        if 0 <=? e then Some (Z.pos m * 2 ^ e)
        else if (Z.pos m mod 2 ^ (- e)) =? 0 then Some (Z.pos m / 2 ^ (- e))
        else None in
      (fun v : Z => if s then - v else v) <$> mag
  | _ => None
  end.

Definition float_to_Z (f : float) : option Z := SF_to_Z (Prim2SF f).

(** [float(n)] for an [int]: correctly rounded (to nearest, ties to even),
    [OverflowError] when the result does not fit. *)
Definition float_of_Z (z : Z) : res float :=
  match binary_normalize prec emax z 0 false with
  | S754_infinity _ => raise OverflowError
  | x => ok (SF2Prim x)
  end.

Definition one : float := 1%float.

(** ** Built-in operations on dynamic values *)

(** Truth value testing: [None], [False], zero of any numeric type, and
    empty strings, lists and dicts are false. *)
Definition truthy (v : json) : bool :=
  match v with
  | JNone => false
  | JBool b => b
  | JInt z => negb (z =? 0)
  | JFloat f => negb (PrimFloat.eqb f 0)
  | JStr s => negb (String.eqb s "")
  | JList l => negb (bool_decide (length l = 0%nat))
  | JDict d => negb (bool_decide (length d = 0%nat))
  end.

(** [a or b] *)
Definition py_or (a b : json) : json := if truthy a then a else b.

(** First binding of a name in the items of a dict. *)
Fixpoint assoc {A} (k : string) (d : list (string * A)) : option A :=
  match d with
  | [] => None
  | (k', v) :: d' => if String.eqb k' k then Some v else assoc k d'
  end.

(** [v.get(k)]: only a dict has the method. *)
Definition py_get (v : json) (k : string) : res json :=
  match v with
  | JDict d => ok (default JNone (assoc k d))
  | _ => raise AttributeError
  end.

(** [len(v)] *)
Definition py_len (v : json) : res nat :=
  match v with
  | JList l => ok (length l)
  | JStr s => ok (String.length s)
  | JDict d => ok (length d)
  | _ => raise TypeError
  end.

(** [v[i]] for a non-negative index [i]; the keys of a dict that came out
    of JSON are strings, so an integer index is never one of them. *)
Definition py_getitem (v : json) (i : nat) : res json :=
  match v with
  | JList l => match l !! i with Some x => ok x | None => raise IndexError end
  | JStr s =>
      match String.get i s with
      | Some c => ok (JStr (String c EmptyString))
      | None => raise IndexError
      end
  | JDict _ => raise KeyError
  | _ => raise TypeError
  end.

(** What iterating over [v] yields ([for r in v]). *)
Definition py_iter (v : json) : res (list json) :=
  match v with
  | JList l => ok l
  | JStr s => ok ((fun c => JStr (String c EmptyString)) <$> String.list_ascii_of_string s)
  | JDict d => ok ((fun kv => JStr kv.1) <$> d)
  | _ => raise TypeError
  end.

(** Built-ins whose results are texts produced or read by the interpreter:
    [float(s)] on a string, [str(x)] on a float, a list or a dict, and the
    [.4f] format.  They are parameters of the development. *)
Class PyBuiltins := {
  float_of_str : string -> option float;
  str_of_float : float -> string;
  repr_of_container : json -> string;
  format_4f : float -> string;
}.

Section builtins.
  Context {builtins : PyBuiltins}.

  (** [float(v)] *)
Definition py_float (v : json) : res float :=
    match v with
    | JFloat f => ok f
    | JInt z => float_of_Z z
    | JBool b => ok (if b then 1 else 0)%float
    | JStr s => match float_of_str s with Some f => ok f | None => raise ValueError end
    | JNone | JList _ | JDict _ => raise TypeError
    end.

  (** [str(v)] *)
Definition py_str (v : json) : string :=
    match v with
    | JNone => "None"
    | JBool b => if b then "True" else "False"
    | JInt z => pretty z
    | JFloat f => str_of_float f
    | JStr s => s
    | JList _ | JDict _ => repr_of_container v
    end.

  (** [v * 1.0] and, in general, [v * f] for a float [f]. *)
Definition py_mul_float (v : json) (f : float) : res json :=
    match v with
    | JFloat x => ok (JFloat (x * f))
    | JInt z => x ← float_of_Z z; ok (JFloat (x * f))
    | JBool b => ok (JFloat ((if b then 1 else 0) * f))
    | JNone | JStr _ | JList _ | JDict _ => raise TypeError
    end.
End builtins.

(** ** [src/api/config.py]

    The description is kept in ASCII (the source writes the hyphen of
    Open-Meteo as U+2011). *)

Record Settings := {
  app_title : string;
  app_description : string;
  app_version : string;
  http_timeout_seconds : float;
  cache_ttl_seconds : Z;
}.

Definition settings : Settings := {|
  app_title := "Weather Companion Backend";
  app_description :=
    "Backend service providing weather and geocoding endpoints, powered by Open-Meteo.";
  app_version := "0.1.0";
  http_timeout_seconds := 8%float;
  cache_ttl_seconds := 45;
|}.

(** ** Cache keys

    A request parameter is a scalar: [str], [int], [float] or [bool]. *)
Inductive param :=
| PStr (s : string)
| PInt (z : Z)
| PFloat (f : float)
| PBool (b : bool).

#[global] Instance spec_float_eq_dec : EqDecision spec_float.
Proof. solve_decision. Defined.

#[global] Instance spec_float_countable : Countable spec_float :=
  inj_countable'
    (fun x => match x with
              | S754_zero s => inl (inl s)
              | S754_infinity s => inl (inr s)
              | S754_nan => inr (inl tt)
              | S754_finite s m e => inr (inr (s, m, e))
              end)
    (fun y => match y with
              | inl (inl s) => S754_zero s
              | inl (inr s) => S754_infinity s
              | inr (inl _) => S754_nan
              | inr (inr (s, m, e)) => S754_finite s m e
              end)
    (fun x => match x with
              | S754_zero _ | S754_infinity _ | S754_nan | S754_finite _ _ _ => eq_refl
              end).

#[global] Instance float_eq_dec : EqDecision float.
Proof.
  intros x y. destruct (decide (Prim2SF x = Prim2SF y)) as [E|N].
  - left. by apply Prim2SF_inj.
  - right. congruence.
Defined.

#[global] Instance float_countable : Countable float :=
  inj_countable' Prim2SF SF2Prim SF2Prim_Prim2SF.

#[global] Instance param_eq_dec : EqDecision param.
Proof. solve_decision. Defined.

#[global] Instance param_countable : Countable param :=
  inj_countable'
    (fun p => match p with
              | PStr s => inl (inl s)
              | PInt z => inl (inr z)
              | PFloat f => inr (inl f)
              | PBool b => inr (inr b)
              end)
    (fun y => match y with
              | inl (inl s) => PStr s
              | inl (inr z) => PInt z
              | inr (inl f) => PFloat f
              | inr (inr b) => PBool b
              end)
    (fun p => match p with
              | PStr _ | PInt _ | PFloat _ | PBool _ => eq_refl
              end).

(** A parameter mapping is a Python [dict]: its items in insertion order,
    no name bound twice. *)
Abbreviation params := (list (string * param)).

Definition is_dict {A} (d : list (string * A)) : Prop := NoDup (d.*1).

(** [Tuple[str, Tuple[Tuple[str, Any], ...]]] *)
Abbreviation cache_key := (string * params)%type.

(** [sorted(items, key=...)]: a stable sort that compares keys with [<];
    here as a stable insertion sort. *)
Section sorted.
  Context {A : Type} (key : A -> string).

Fixpoint insert_sorted (x : A) (l : list A) : list A :=
    match l with
    | [] => [x]
    | y :: l' =>
        if String.ltb (key y) (key x) then y :: insert_sorted x l'
        else x :: y :: l'
    end.

Definition sorted (l : list A) : list A := foldr insert_sorted [] l.
End sorted.

(** [weather_client.py] l.40-43 and [geocoding_client.py] l.40-42
    (the same text). *)
Definition _params_to_key (endpoint : string) (ps : params) : cache_key :=
  let sorted_items := sorted fst ps in
  (endpoint, sorted_items).

(** ** The TTL cache

    [_cache: Dict[key, Tuple[float, Any]]], one per client module. *)
Abbreviation cache := (gmap cache_key (Q * json)).

(** The two cache functions, with the dictionary and the clock reading
    passed explicitly; each client module below binds them to its own
    [_cache]. *)
Module store.

(** [weather_client.py] l.15-30 and [geocoding_client.py] l.16-30
    (the same text).  [now] is the reading of [time.time()]; the result is
    the returned value ([JNone] is Python's [None]) and the dictionary
    afterwards. *)
Definition _cache_get (cfg : Settings) (now : Q) (key : cache_key) (_cache : cache)
  : json * cache :=
  let ttl := cache_ttl_seconds cfg in
  if ttl <=? 0 then (JNone, _cache) else
  match _cache !! key with
  | None => (JNone, _cache)
  | Some (ts, data) =>
      if Qle_bool (now - ts) (inject_Z ttl) then (data, _cache)
      else (JNone, delete key _cache)
  end.

(** [weather_client.py] l.33-37 and [geocoding_client.py] l.33-37. *)
Definition _cache_set (cfg : Settings) (now : Q) (key : cache_key) (data : json)
    (_cache : cache) : cache :=
  let ttl := cache_ttl_seconds cfg in
  if ttl <=? 0 then _cache else <[key := (now, data)]> _cache.

End store.

(** ** The process: both caches, the clock, and the requests sent upstream

    A handler runs from its first statement to its last with no other
    request interleaved at the [await]. *)

Record Request := { url : string; query : params }.

(** The upstream provider: how long the [n]-th GET of the process, sent at
    a given time, takes, and what it yields: the body [resp.json()], or the
    text of the exception raised inside the [async with] block. *)
Class Upstream := { respond : nat -> Request -> Q -> Q * (string + json) }.

Record World := {
  weather_cache : cache;
  geocoding_cache : cache;
  clock : Q;
  sent : list Request;
}.

Definition M (A : Type) : Type := World -> res A * World.

#[global] Instance M_ret : MRet M := fun A a w => (ok a, w).
#[global] Instance M_bind : MBind M := fun A B f m w =>
  match m w with
  | (inl e, w') => (inl e, w')
  | (inr a, w') => f a w'
  end.

Definition lift {A} (r : res A) : M A := fun w => (r, w).
Definition throw {A} (e : exn) : M A := lift (raise e).

(** [try: m except Exception as e: h e] *)
Definition try_except {A} (m : M A) (h : exn -> M A) : M A := fun w =>
  match m w with
  | (inl e, w') => h e w'
  | (inr a, w') => (inr a, w')
  end.

(** [await client.get(u, params=ps); resp.raise_for_status(); resp.json()] *)
Definition http_get {upstream : Upstream} (u : string) (ps : params) : M json := fun w =>
  let rq := {| url := u; query := ps |} in
  let '(elapsed, answer) := respond (length (sent w)) rq (clock w) in
  (match answer with inl info => raise (UpstreamError info) | inr data => ok data end,
   {| weather_cache := weather_cache w; geocoding_cache := geocoding_cache w;
      clock := (clock w + elapsed)%Q; sent := sent w ++ [rq] |}).

(** [x is not None] *)
Definition is_not_none (v : json) : bool :=
  match v with JNone => false | _ => true end.

(** ** [src/api/clients/weather_client.py] *)
Module weather_client.
Section client.
  Context {upstream : Upstream} (cfg : Settings).

Definition WEATHER_BASE : string := "https://api.open-meteo.com/v1/forecast".

Definition _cache_get (key : cache_key) : M json := fun w =>
    let '(v, c) := store._cache_get cfg (clock w) key (weather_cache w) in
    (ok v,
     {| weather_cache := c; geocoding_cache := geocoding_cache w;
        clock := clock w; sent := sent w |}).

Definition _cache_set (key : cache_key) (data : json) : M unit := fun w =>
    (ok tt,
     {| weather_cache := store._cache_set cfg (clock w) key data (weather_cache w);
        geocoding_cache := geocoding_cache w; clock := clock w; sent := sent w |}).

Definition current_params (lat lon : float) : params :=
    [("latitude", PFloat lat);
     ("longitude", PFloat lon);
     ("current_weather", PBool true);
     ("hourly", PStr "weathercode,temperature_2m");
     ("timezone", PStr "auto")].

  (** l.47-68 *)
Definition get_current_weather (lat lon : float) : M json :=
    let ps := current_params lat lon in
    let key := _params_to_key "current" ps in
    cached ← _cache_get key;
    if is_not_none cached then mret cached else
    data ← http_get WEATHER_BASE ps;
    _ ← _cache_set key data;
    mret data.

  (** The dict literal of l.77-84, after [days = max(1, min(days, 10))]
      of l.75. *)
Definition forecast_params (lat lon : float) (days : Z) : params :=
    let days := Z.max 1 (Z.min days 10) in
    [("latitude", PFloat lat);
     ("longitude", PFloat lon);
     ("daily", PStr "weathercode,temperature_2m_max,temperature_2m_min");
     ("hourly", PStr "weathercode,temperature_2m");
     ("forecast_days", PInt days);
     ("timezone", PStr "auto")].

  (** l.72-97 *)
Definition get_forecast (lat lon : float) (days : Z) : M json :=
    let ps := forecast_params lat lon days in
    let key := _params_to_key "forecast" ps in
    cached ← _cache_get key;
    if is_not_none cached then mret cached else
    data ← http_get WEATHER_BASE ps;
    _ ← _cache_set key data;
    mret data.
End client.

Section classifier.
  Context {builtins : PyBuiltins}.

  (** The dict literal of l.102-116. *)
Definition mapping : gmap Z (string * string) :=
    list_to_map
      [(0, ("Clear sky", "clear"));
       (1, ("Mainly clear", "clear"));
       (2, ("Partly cloudy", "partly_cloudy"));
       (3, ("Overcast", "cloudy"));
       (45, ("Fog", "fog"));
       (48, ("Depositing rime fog", "fog"));
       (51, ("Light drizzle", "drizzle"));
       (61, ("Slight rain", "rain"));
       (63, ("Moderate rain", "rain"));
       (65, ("Heavy rain", "rain"));
       (71, ("Slight snow", "snow"));
       (80, ("Rain showers", "showers"));
       (95, ("Thunderstorm", "thunder"))].

  (** [mapping.get(code)] for a [code] that is hashable: [True == 1] and
      [3.0 == 3] find the integer keys, a string finds none. *)
Definition mapping_get (code : json) : option (string * string) :=
    match code with
    | JInt z => mapping !! z
    | JBool b => mapping !! (if b then 1 else 0)
    | JFloat f => z ← float_to_Z f; mapping !! z
    | _ => None
    end.

  (** l.100-119.  The annotation is [Optional[int]]; the routers pass
      whatever the upstream array holds, so the argument is a [json]: a list
      or a dict is unhashable. *)
Definition _weathercode_to_text_icon (code : json)
    : res (option string * option string) :=
    match code with
    | JNone => ok (None, None)
    | JList _ | JDict _ => raise TypeError
    | _ =>
        let '(text, icon) :=
          default ("Code " +:+ py_str code, "unknown") (mapping_get code) in
        ok (Some text, Some icon)
    end.
End classifier.
End weather_client.

(** ** [src/api/clients/geocoding_client.py] *)
Module geocoding_client.
Section client.
  Context {upstream : Upstream} (cfg : Settings).

Definition GEOCODE_SEARCH_BASE : string :=
    "https://geocoding-api.open-meteo.com/v1/search".
Definition GEOCODE_REVERSE_BASE : string :=
    "https://geocoding-api.open-meteo.com/v1/reverse".

Definition _cache_get (key : cache_key) : M json := fun w =>
    let '(v, c) := store._cache_get cfg (clock w) key (geocoding_cache w) in
    (ok v,
     {| weather_cache := weather_cache w; geocoding_cache := c;
        clock := clock w; sent := sent w |}).

Definition _cache_set (key : cache_key) (data : json) : M unit := fun w =>
    (ok tt,
     {| weather_cache := weather_cache w;
        geocoding_cache := store._cache_set cfg (clock w) key data (geocoding_cache w);
        clock := clock w; sent := sent w |}).

  (** The dict literal of l.48. *)
Definition search_params (query : string) (count : Z) : params :=
    [("name", PStr query); ("count", PInt (Z.max 1 (Z.min count 20)))].

  (** l.46-61 *)
Definition geocode_search (query : string) (count : Z) : M json :=
    let ps := search_params query count in
    let key := _params_to_key "search" ps in
    cached ← _cache_get key;
    if is_not_none cached then mret cached else
    data ← http_get GEOCODE_SEARCH_BASE ps;
    _ ← _cache_set key data;
    mret data.

Definition reverse_params (lat lon : float) : params :=
    [("latitude", PFloat lat); ("longitude", PFloat lon)].

  (** l.65-80 *)
Definition reverse_geocode (lat lon : float) : M json :=
    let ps := reverse_params lat lon in
    let key := _params_to_key "reverse" ps in
    cached ← _cache_get key;
    if is_not_none cached then mret cached else
    data ← http_get GEOCODE_REVERSE_BASE ps;
    _ ← _cache_set key data;
    mret data.
End client.
End geocoding_client.

(** ** [src/api/models.py]

    The models are pydantic models: constructing one validates every
    field against its annotation.  Validation of a value that already has
    the annotated type returns it unchanged, [None] is accepted exactly by
    [Optional] fields, and an [int] is accepted by a [float] field as
    [float(n)].  How other values are coerced or refused differs between
    pydantic versions and modes; the validators are therefore an interface,
    constrained by these laws only. *)
Class Pydantic := {
  validate_str : json -> option string;
  validate_float : json -> option float;
  validate_int : json -> option Z;
  validate_str_str : forall s, validate_str (JStr s) = Some s;
  validate_str_none : validate_str JNone = None;
  validate_float_float : forall f, validate_float (JFloat f) = Some f;
  validate_float_int : forall z f,
    float_of_Z z = ok f -> validate_float (JInt z) = Some f;
  validate_float_none : validate_float JNone = None;
  validate_int_int : forall z, validate_int (JInt z) = Some z;
  validate_int_none : validate_int JNone = None;
}.

(** [Optional[T]] *)
Definition validate_optional {A} (validate : json -> option A) (v : json)
  : option (option A) :=
  match v with
  | JNone => Some None
  | _ => Some <$> validate v
  end.

(** A failed validation raises. *)
Definition validated {A} (o : option A) : res A :=
  match o with
  | Some a => ok a
  | None => raise ValidationError
  end.

Module Coordinates.
Record t := { lat : float; lon : float }.
End Coordinates.

Module Location.
Record t := {
    name : string;
    country : option string;
    state : option string;
    coordinates : Coordinates.t;
  }.
Definition init {pydantic : Pydantic} (name country state : json)
      (coordinates : Coordinates.t) : res t :=
    validated (
      n ← validate_str name;
      c ← validate_optional validate_str country;
      s ← validate_optional validate_str state;
      Some {| name := n; country := c; state := s; coordinates := coordinates |}).
End Location.

Module CurrentWeather.
Record t := {
    temperature_c : float;
    wind_speed_kph : option float;
    wind_direction_deg : option float;
    weather_code : option Z;
    condition_text : option string;
    condition_icon : option string;
    observation_time_iso : option string;
  }.
Definition init {pydantic : Pydantic}
      (temperature_c wind_speed_kph wind_direction_deg weather_code : json)
      (condition_text condition_icon : option string)
      (observation_time_iso : json) : res t :=
    validated (
      a ← validate_float temperature_c;
      b ← validate_optional validate_float wind_speed_kph;
      c ← validate_optional validate_float wind_direction_deg;
      d ← validate_optional validate_int weather_code;
      e ← validate_optional validate_str observation_time_iso;
      Some {| temperature_c := a; wind_speed_kph := b; wind_direction_deg := c;
              weather_code := d; condition_text := condition_text;
              condition_icon := condition_icon; observation_time_iso := e |}).
End CurrentWeather.

Module CurrentWeatherResponse.
Record t := { location : Location.t; current : CurrentWeather.t }.
End CurrentWeatherResponse.

Module DailyForecastItem.
Record t := {
    date : string;
    min_temp_c : option float;
    max_temp_c : option float;
    weather_code : option Z;
    condition_text : option string;
    condition_icon : option string;
  }.
Definition init {pydantic : Pydantic} (date min_temp_c max_temp_c weather_code : json)
      (condition_text condition_icon : option string) : res t :=
    validated (
      a ← validate_str date;
      b ← validate_optional validate_float min_temp_c;
      c ← validate_optional validate_float max_temp_c;
      d ← validate_optional validate_int weather_code;
      Some {| date := a; min_temp_c := b; max_temp_c := c; weather_code := d;
              condition_text := condition_text; condition_icon := condition_icon |}).
End DailyForecastItem.

Module HourlyForecastItem.
Record t := {
    time_iso : string;
    temp_c : option float;
    weather_code : option Z;
    condition_text : option string;
    condition_icon : option string;
  }.
Definition init {pydantic : Pydantic} (time_iso temp_c weather_code : json)
      (condition_text condition_icon : option string) : res t :=
    validated (
      a ← validate_str time_iso;
      b ← validate_optional validate_float temp_c;
      c ← validate_optional validate_int weather_code;
      Some {| time_iso := a; temp_c := b; weather_code := c;
              condition_text := condition_text; condition_icon := condition_icon |}).
End HourlyForecastItem.

Module ForecastResponse.
Record t := {
    location : Location.t;
    daily : list DailyForecastItem.t;
    hourly : list HourlyForecastItem.t;
  }.
End ForecastResponse.

Module LocationSearchItem.
Record t := {
    id : option string;
    name : string;
    country : option string;
    state : option string;
    coordinates : Coordinates.t;
  }.
Definition init {pydantic : Pydantic} (id : option string) (name country state : json)
      (coordinates : Coordinates.t) : res t :=
    validated (
      n ← validate_str name;
      c ← validate_optional validate_str country;
      s ← validate_optional validate_str state;
      Some {| id := id; name := n; country := c; state := s;
              coordinates := coordinates |}).
End LocationSearchItem.

Module LocationSearchResponse.
Record t := { results : list LocationSearchItem.t }.
End LocationSearchResponse.

Module ReverseGeocodeResponse.
Record t := { result : option LocationSearchItem.t }.
End ReverseGeocodeResponse.

(** ** Helpers shared by the routers *)

(** [for x in xs: out.append(f(x))], stopping at the first exception. *)
Fixpoint for_each {A B} (f : A -> res B) (xs : list A) : res (list B) :=
  match xs with
  | [] => ok []
  | x :: xs' => y ← f x; ys ← for_each f xs'; ok (y :: ys)
  end.

(** [(data or {}).get(k) or dflt] *)
Definition get_or (data : json) (k : string) (dflt : json) : res json :=
  v ← py_get (py_or data (JDict [])) k;
  ok (py_or v dflt).

(** [str.isspace] on one character, and [s.strip()]. *)
Definition py_isspace (c : ascii) : bool :=
  let n := N_of_ascii c in
  ((9 <=? n) && (n <=? 13) || (28 <=? n) && (n <=? 32)
   || (n =? 133) || (n =? 160))%N.

Fixpoint lstrip (cs : list ascii) : list ascii :=
  match cs with
  | c :: cs' => if py_isspace c then lstrip cs' else cs
  | [] => []
  end.

Definition py_strip (s : string) : string :=
  String.string_of_list_ascii
    (rev (lstrip (rev (lstrip (String.list_ascii_of_string s))))).

(** ** [src/api/routers/weather.py] *)
Module weather.
Section router.
  Context {builtins : PyBuiltins} {upstream : Upstream} {pydantic : Pydantic} (cfg : Settings).

  (** l.25-30 *)
Definition _resolve_location_from_query
      (q : option string) (lat lon : option float)
    : res (option string * option float * option float) :=
    match q with
    | Some (String _ _) => ok (q, None, None)
    | _ =>
        match lat, lon with
        | Some _, Some _ => ok (None, lat, lon)
        | _, _ =>
            raise (HTTPException 400
                     (Detail "Provide either 'q' or both 'lat' and 'lon' parameters."))
        end
    end.

  (** l.43-52: the first search result as coordinates and a [Location]. *)
Definition location_of_result (name_q : string) (r0 : json)
    : res (float * float * Location.t) :=
    la ← py_get r0 "latitude";
    lat_v ← py_float la;
    lo ← py_get r0 "longitude";
    lon_v ← py_float lo;
    nm ← py_get r0 "name";
    co ← py_get r0 "country";
    a1 ← py_get r0 "admin1";
    a2 ← py_get r0 "admin2";
    loc ← Location.init (py_or nm (JStr name_q)) co (py_or a1 a2)
            {| Coordinates.lat := lat_v; Coordinates.lon := lon_v |};
    ok (lat_v, lon_v, loc).

  (** l.33-63 *)
Definition _resolve_coordinates_and_location
      (q : option string) (lat lon : option float)
    : M (float * float * Location.t) :=
    '(name_q, lat_in, lon_in) ← lift (_resolve_location_from_query q lat lon);
    match name_q, lat_in, lon_in with
    | Some (String c s as name_q), _, _ =>
        geo ← geocoding_client.geocode_search cfg name_q 1;
        lift (
          results ← get_or geo "results" (JList []);
          if negb (truthy results)
          then raise (HTTPException 404 (Detail "Location not found for query."))
          else
            r0 ← py_getitem results 0;
            location_of_result name_q r0)
    | _, Some lat_v, Some lon_v =>
        lift (
          loc ← Location.init
                  (JStr (format_4f lat_v +:+ "," +:+ format_4f lon_v)) JNone JNone
                  {| Coordinates.lat := lat_v; Coordinates.lon := lon_v |};
          ok (lat_v, lon_v, loc))
    | _, _, _ => throw TypeError
    end.

  (** [except HTTPException: raise
       except Exception as ex: raise HTTPException(502, f"{prefix}{ex}")] *)
Definition reraise_502 {A} (prefix : string) (ex : exn) : M A :=
    match ex with
    | HTTPException _ _ => throw ex
    | _ => throw (HTTPException 502 (Failed prefix ex))
    end.

  (** l.92-103: the [CurrentWeather] record of an upstream body. *)
Definition current_of_data (data : json) : res CurrentWeather.t :=
    cw ← get_or data "current_weather" (JDict []);
    weather_code ← py_get cw "weathercode";
    '(text, icon) ← weather_client._weathercode_to_text_icon weather_code;
    temperature ← py_get cw "temperature";
    windspeed ← py_get cw "windspeed";
    wind ← (if is_not_none windspeed then py_mul_float windspeed 1%float else ok JNone);
    winddirection ← py_get cw "winddirection";
    time ← py_get cw "time";
    CurrentWeather.init temperature wind winddirection weather_code text icon time.

  (** l.78-104 *)
Definition current_weather (q : option string) (lat lon : option float)
    : M CurrentWeatherResponse.t :=
    '(loc, data) ← try_except
      ('(lat_v, lon_v, loc) ← _resolve_coordinates_and_location q lat lon;
       data ← weather_client.get_current_weather cfg lat_v lon_v;
       mret (loc, data))
      (reraise_502 "Failed to fetch current weather: ");
    lift (
      current ← current_of_data data;
      ok {| CurrentWeatherResponse.location := loc;
            CurrentWeatherResponse.current := current |}).

  (** l.137-155: the daily items of [daily_raw]. *)
Definition daily_item (dates tmax tmin wcodes : json) (i : nat)
    : res DailyForecastItem.t :=
    code ← py_getitem wcodes i;
    '(text, icon) ← weather_client._weathercode_to_text_icon code;
    d ← py_getitem dates i;
    mn ← py_getitem tmin i;
    mx ← py_getitem tmax i;
    DailyForecastItem.init d mn mx code text icon.

Definition daily_items_of (daily_raw : json) : res (list DailyForecastItem.t) :=
    dates ← get_or daily_raw "time" (JList []);
    tmax ← get_or daily_raw "temperature_2m_max" (JList []);
    tmin ← get_or daily_raw "temperature_2m_min" (JList []);
    wcodes ← get_or daily_raw "weathercode" (JList []);
    n1 ← py_len dates;
    n2 ← py_len tmax;
    n3 ← py_len tmin;
    n4 ← py_len wcodes;
    for_each (daily_item dates tmax tmin wcodes)
      (seq 0 (n1 `min` (n2 `min` (n3 `min` n4)))).

  (** l.157-172: the hourly items of [hourly_raw]. *)
Definition hourly_item (times temps hwcodes : json) (i : nat)
    : res HourlyForecastItem.t :=
    code ← py_getitem hwcodes i;
    '(text, icon) ← weather_client._weathercode_to_text_icon code;
    t ← py_getitem times i;
    tc ← py_getitem temps i;
    HourlyForecastItem.init t tc code text icon.

Definition hourly_items_of (hourly_raw : json) : res (list HourlyForecastItem.t) :=
    times ← get_or hourly_raw "time" (JList []);
    temps ← get_or hourly_raw "temperature_2m" (JList []);
    hwcodes ← get_or hourly_raw "weathercode" (JList []);
    n1 ← py_len times;
    n2 ← py_len temps;
    n3 ← py_len hwcodes;
    for_each (hourly_item times temps hwcodes) (seq 0 (n1 `min` (n2 `min` n3))).

  (** l.119-174 *)
Definition forecast (q : option string) (lat lon : option float) (days : Z)
    : M ForecastResponse.t :=
    '(loc, data) ← try_except
      ('(lat_v, lon_v, loc) ← _resolve_coordinates_and_location q lat lon;
       data ← weather_client.get_forecast cfg lat_v lon_v days;
       mret (loc, data))
      (reraise_502 "Failed to fetch forecast: ");
    lift (
      daily_raw ← get_or data "daily" (JDict []);
      hourly_raw ← get_or data "hourly" (JDict []);
      daily_items ← daily_items_of daily_raw;
      hourly_items ← hourly_items_of hourly_raw;
      ok {| ForecastResponse.location := loc;
            ForecastResponse.daily := daily_items;
            ForecastResponse.hourly := hourly_items |}).
End router.
End weather.

(** ** [src/api/routers/location.py] *)
Module location.
Section router.
  Context {builtins : PyBuiltins} {upstream : Upstream} {pydantic : Pydantic} (cfg : Settings).

  (** l.44-51 and l.80-86: one result as a [LocationSearchItem]. *)
Definition item_of_result (r : json) : res LocationSearchItem.t :=
    i ← py_get r "id";
    nm ← py_get r "name";
    co ← py_get r "country";
    a1 ← py_get r "admin1";
    a2 ← py_get r "admin2";
    la ← py_get r "latitude";
    lat_v ← py_float la;
    lo ← py_get r "longitude";
    lon_v ← py_float lo;
    LocationSearchItem.init
      (if is_not_none i then Some (py_str i) else None)
      (py_or nm (JStr "")) co (py_or a1 a2)
      {| Coordinates.lat := lat_v; Coordinates.lon := lon_v |}.

  (** l.41-52: the items of a search body. *)
Definition items_of_data (data : json) : res (list LocationSearchItem.t) :=
    results ← get_or data "results" (JList []);
    rs ← py_iter results;
    for_each item_of_result rs.

  (** [except Exception as ex: raise HTTPException(502, f"{prefix}{ex}")] *)
Definition raise_502 {A} (prefix : string) (ex : exn) : M A :=
    throw (HTTPException 502 (Failed prefix ex)).

  (** l.32-52 *)
Definition search (q : string) : M LocationSearchResponse.t :=
    if String.eqb q "" || String.eqb (py_strip q) ""
    then throw (HTTPException 400 (Detail "Query parameter 'q' is required."))
    else
      data ← try_except (geocoding_client.geocode_search cfg q 10)
                        (raise_502 "Failed to search locations: ");
      lift (
        items ← items_of_data data;
        ok {| LocationSearchResponse.results := items |}).

  (** l.67-87 *)
Definition reverse (lat lon : float) : M ReverseGeocodeResponse.t :=
    data ← try_except (geocoding_client.reverse_geocode cfg lat lon)
                      (raise_502 "Failed to reverse geocode: ");
    lift (
      results ← get_or data "results" (JList []);
      if negb (truthy results)
      then ok {| ReverseGeocodeResponse.result := None |}
      else
        r0 ← py_getitem results 0;
        item ← item_of_result r0;
        ok {| ReverseGeocodeResponse.result := Some item |}).
End router.
End location.

(** ** Notions used by the statements *)

(** The dictionaries a client's [_cache] can hold under a configuration:
    it starts empty and is only ever touched by [_cache_set] and
    [_cache_get]. *)
Inductive reachable (cfg : Settings) : cache -> Prop :=
| reachable_empty : reachable cfg ∅
| reachable_set now key data c :
    reachable cfg c -> reachable cfg (store._cache_set cfg now key data c)
| reachable_get now key c :
    reachable cfg c -> reachable cfg (store._cache_get cfg now key c).2.

(** The world a process starts in. *)
Definition initial_world : World :=
  {| weather_cache := ∅; geocoding_cache := ∅; clock := 0; sent := [] |}.

(** A configuration with caching switched off. *)
Definition settings_no_cache : Settings := {|
  app_title := app_title settings;
  app_description := app_description settings;
  app_version := app_version settings;
  http_timeout_seconds := http_timeout_seconds settings;
  cache_ttl_seconds := 0;
|}.


(** What the [async with] block yields. *)
Definition answer (a : string + json) : res json :=
  match a with
  | inl info => raise (UpstreamError info)
  | inr data => ok data
  end.

(** The four fetchers have one shape; this is what it does to a world,
    spelled out, for a fetcher of [weather_client] and for one of
    [geocoding_client]. *)
Definition weather_fetch {upstream : Upstream} (cfg : Settings) (endpoint u : string)
    (ps : params) (w : World) : res json * World :=
  let key := _params_to_key endpoint ps in
  let '(v, c) := store._cache_get cfg (clock w) key (weather_cache w) in
  if is_not_none v then
    (ok v, {| weather_cache := c; geocoding_cache := geocoding_cache w;
              clock := clock w; sent := sent w |})
  else
    let rq := {| url := u; query := ps |} in
    let '(elapsed, a) := respond (length (sent w)) rq (clock w) in
    let now := (clock w + elapsed)%Q in
    (answer a,
     {| weather_cache :=
          match a with
          | inl _ => c
          | inr data => store._cache_set cfg now key data c
          end;
        geocoding_cache := geocoding_cache w; clock := now;
        sent := sent w ++ [rq] |}).

Definition geocoding_fetch {upstream : Upstream} (cfg : Settings) (endpoint u : string)
    (ps : params) (w : World) : res json * World :=
  let key := _params_to_key endpoint ps in
  let '(v, c) := store._cache_get cfg (clock w) key (geocoding_cache w) in
  if is_not_none v then
    (ok v, {| weather_cache := weather_cache w; geocoding_cache := c;
              clock := clock w; sent := sent w |})
  else
    let rq := {| url := u; query := ps |} in
    let '(elapsed, a) := respond (length (sent w)) rq (clock w) in
    let now := (clock w + elapsed)%Q in
    (answer a,
     {| weather_cache := weather_cache w;
        geocoding_cache :=
          match a with
          | inl _ => c
          | inr data => store._cache_set cfg now key data c
          end;
        clock := now; sent := sent w ++ [rq] |}).

(** A fetch that finds [None] stored under its key inside the TTL window:
    the request goes out, the caller gets what the upstream yields, and a
    body that arrives is stored under the key with the time of arrival. *)
Definition null_entry_refetched {upstream : Upstream} (cfg : Settings) (fetch : M json)
    (cache_of : World -> cache) (key : cache_key) (rq : Request) : Prop :=
  forall (w : World) (ts : Q),
    0 < cache_ttl_seconds cfg ->
    cache_of w !! key = Some (ts, JNone) ->
    (clock w - ts <= inject_Z (cache_ttl_seconds cfg))%Q ->
    exists w',
      fetch w = (answer (respond (length (sent w)) rq (clock w)).2, w')
      /\ sent w' = sent w ++ [rq]
      /\ forall data, (respond (length (sent w)) rq (clock w)).2 = inr data ->
           cache_of w' !! key = Some (clock w', data).

(** A fetch that returns without sending a request (a hit) does not return
    [None]. *)
Definition hit_is_not_none (fetch : M json) : Prop :=
  forall (w w' : World) (v : json),
    fetch w = (ok v, w') -> sent w' = sent w -> v <> JNone.

(** A fetch sends nothing, or exactly the request [rq]. *)
Definition sends_at_most (fetch : M json) (rq : Request) : Prop :=
  forall w : World,
    sent (fetch w).2 = sent w \/ sent (fetch w).2 = sent w ++ [rq].

(** An upstream whose every answer is the JSON body [null], after one
    second. *)
Definition null_upstream : Upstream :=
  {| respond := fun _ _ _ => (1%Q, inr JNone) |}.


(** The array bound to [name] in a section of a forecast body, and what the
    statements assume of it: it is an array, [null], or missing. *)
Definition array_of (fields : list (string * json)) (name : string) : list json :=
  match assoc name fields with
  | Some (JList l) => l
  | _ => []
  end.

Definition array_or_absent (fields : list (string * json)) (name : string) : Prop :=
  match assoc name fields with
  | None | Some JNone | Some (JList _) => True
  | Some _ => False
  end.

(** A JSON number: a float, or an integer that [float()] can hold. *)
Definition plain_number (v : json) : Prop :=
  match v with
  | JFloat _ => True
  | JInt z => exists f, float_of_Z z = ok f
  | _ => False
  end.

(** A body with zero matches: no [results] key, or an empty array. *)
Definition no_results (data : json) : Prop :=
  exists fields, data = JDict fields
    /\ (assoc "results" fields = None \/ assoc "results" fields = Some (JList [])).

(** A result item (a JSON object) whose latitude or longitude is missing
    or is not read as a number by [float()]. *)
Definition bad_coordinates {builtins : PyBuiltins} (r : json) : Prop :=
  exists fields, r = JDict fields
    /\ ((exists e, py_float (default JNone (assoc "latitude" fields)) = inl e)
        \/ (exists e, py_float (default JNone (assoc "longitude" fields)) = inl e)).

Definition is_object (r : json) : Prop := exists fields, r = JDict fields.

(** The exceptions [float()] raises. *)
Definition float_error (e : exn) : Prop :=
  e = TypeError \/ e = ValueError \/ e = OverflowError.

(** The failures of normalisation: [float()] refusing a coordinate, or a
    model refusing a field. *)
Definition format_error (e : exn) : Prop :=
  float_error e \/ e = ValidationError.

(** The failure of the upstream call as the fetchers raise it, and as the
    location routes report it. *)
Definition transport_error (e : exn) : Prop :=
  (exists info, e = UpstreamError info)
  \/ (exists prefix info, e = HTTPException 502 (Failed prefix (UpstreamError info))).

(** The text is not empty and not only white space. *)
Definition not_blank (q : string) : Prop :=
  String.eqb q "" || String.eqb (py_strip q) "" = false.

(** Validators that accept a value of the annotated type (and an [int] for
    a [float]) and refuse everything else. *)
Definition strict_str (v : json) : option string :=
  match v with JStr s => Some s | _ => None end.
Definition strict_float (v : json) : option float :=
  match v with
  | JFloat f => Some f
  | JInt z => match float_of_Z z with inr f => Some f | inl _ => None end
  | _ => None
  end.
Definition strict_int (v : json) : option Z :=
  match v with JInt z => Some z | _ => None end.

#[global, refine] Instance strict_pydantic : Pydantic := {|
  validate_str := strict_str;
  validate_float := strict_float;
  validate_int := strict_int;
|}.
Proof.
  all: try reflexivity.
  intros z f Hf. simpl. by rewrite Hf.
Defined.

(** Interpreter built-ins for examples that neither parse nor print a
    float: every text is refused by [float()], and the printed forms are
    placeholders. *)
Definition example_builtins : PyBuiltins := {|
  float_of_str := fun _ => None;
  str_of_float := fun _ => "<float>";
  repr_of_container := fun _ => "<container>";
  format_4f := fun _ => "<.4f>";
|}.

(** The upstream of the scenarios of the design document: the forecast
    endpoint answers the current-weather body, the search endpoint a body
    with an empty [results] array, the reverse endpoint a body with no
    [results] key. *)
Definition scenario_current_body : json :=
  JDict [("current_weather",
          JDict [("temperature", JFloat 18.3);
                 ("windspeed", JFloat 10.0);
                 ("winddirection", JInt 200);
                 ("weathercode", JInt 3);
                 ("time", JStr "2024-05-01T12:00")])].

Definition scenario_upstream : Upstream := {|
  respond := fun _ rq _ =>
    (1%Q,
     if String.eqb (url rq) weather_client.WEATHER_BASE
     then inr scenario_current_body
     else if String.eqb (url rq) geocoding_client.GEOCODE_SEARCH_BASE
     then inr (JDict [("results", JList [])])
     else inr (JDict [("generationtime_ms", JFloat 0.5)]))
|}.


(** The four daily arrays and the three hourly arrays of a forecast body. *)
Definition daily_names : list string :=
  ["time"; "temperature_2m_max"; "temperature_2m_min"; "weathercode"].
Definition hourly_names : list string :=
  ["time"; "temperature_2m"; "weathercode"].

(** A value an [Optional[float]] field takes: [null] or a number; a value
    an [Optional[int]] field takes: [null] or an integer. *)
Definition number_or_null (v : json) : Prop := v = JNone \/ plain_number v.
Definition integer_or_null (v : json) : Prop := v = JNone \/ exists z, v = JInt z.

Section forecast_statements.
Context {builtins : PyBuiltins} {pydantic : Pydantic}.

(** Item [i] of the daily series is built from index [i] of each array. *)
Definition daily_positional (fields : list (string * json))
    (items : list DailyForecastItem.t) : Prop :=
  forall (i : nat) (it : DailyForecastItem.t),
    items !! i = Some it ->
    exists d mx mn code text icon,
      array_of fields "time" !! i = Some d
      /\ array_of fields "temperature_2m_max" !! i = Some mx
      /\ array_of fields "temperature_2m_min" !! i = Some mn
      /\ array_of fields "weathercode" !! i = Some code
      /\ weather_client._weathercode_to_text_icon code = ok (text, icon)
      /\ DailyForecastItem.init d mn mx code text icon = ok it.

Definition hourly_positional (fields : list (string * json))
    (items : list HourlyForecastItem.t) : Prop :=
  forall (i : nat) (it : HourlyForecastItem.t),
    items !! i = Some it ->
    exists t tc code text icon,
      array_of fields "time" !! i = Some t
      /\ array_of fields "temperature_2m" !! i = Some tc
      /\ array_of fields "weathercode" !! i = Some code
      /\ weather_client._weathercode_to_text_icon code = ok (text, icon)
      /\ HourlyForecastItem.init t tc code text icon = ok it.

(** Every sample has the type its field is annotated with. *)
Definition daily_well_typed (fields : list (string * json)) : Prop :=
  Forall (fun d => exists s, d = JStr s) (array_of fields "time")
  /\ Forall number_or_null (array_of fields "temperature_2m_max")
  /\ Forall number_or_null (array_of fields "temperature_2m_min")
  /\ Forall integer_or_null (array_of fields "weathercode").

Definition hourly_well_typed (fields : list (string * json)) : Prop :=
  Forall (fun d => exists s, d = JStr s) (array_of fields "time")
  /\ Forall number_or_null (array_of fields "temperature_2m")
  /\ Forall integer_or_null (array_of fields "weathercode").

End forecast_statements.

(** A daily section with five dates and maxima, three minima and codes. *)
Definition uneven_daily : list (string * json) :=
  [("time", JList [JStr "2024-05-01"; JStr "2024-05-02"; JStr "2024-05-03";
                   JStr "2024-05-04"; JStr "2024-05-05"]);
   ("temperature_2m_max",
    JList [JFloat 20.5; JFloat 21.5; JFloat 22.5; JFloat 23.5; JFloat 24.5]);
   ("temperature_2m_min", JList [JFloat 10.5; JFloat 11.5; JFloat 12.5]);
   ("weathercode", JList [JInt 0; JInt 3; JInt 61])].


(** An upstream whose search endpoint answers one match without usable
    coordinates, and one whose every request fails. *)
Definition malformed_body : json :=
  JDict [("results",
          JList [JDict [("id", JInt 1); ("name", JStr "Nowhere");
                        ("latitude", JNone); ("longitude", JStr "east")]])].

Definition malformed_upstream : Upstream :=
  {| respond := fun _ _ _ => (1%Q, inr malformed_body) |}.

Definition failing_upstream : Upstream :=
  {| respond := fun _ _ _ => (8%Q, inl "timed out") |}.


(** A key and a dictionary for the examples: one entry stored at time 0
    under the default configuration. *)
Definition example_key : cache_key :=
  _params_to_key "search" [("name", PStr "Berlin"); ("count", PInt 10)].

Definition example_cache : cache :=
  store._cache_set settings 0 example_key (JDict []) ∅.


(** The world after one current-weather fetch against [null_upstream]. *)
Definition world_after_null_fetch : World :=
  (weather_client.get_current_weather (upstream := null_upstream) settings
     52.52 13.405 initial_world).2.


(** ** Notions used by the further properties of the fetchers *)

(** A fetch that finds a value other than [None] under its key inside the
    TTL window returns it and leaves the whole world as it is: no request,
    no write, no clock reading kept. *)
Definition hit_is_offline (cfg : Settings) (fetch : M json)
    (cache_of : World -> cache) (key : cache_key) : Prop :=
  forall (w : World) (ts : Q) (data : json),
    0 < cache_ttl_seconds cfg ->
    cache_of w !! key = Some (ts, data) -> data <> JNone ->
    (clock w - ts <= inject_Z (cache_ttl_seconds cfg))%Q ->
    fetch w = (ok data, w).

(** A fetch that returned a body other than [None], repeated at once,
    returns the same body and changes nothing. *)
Definition refetch_is_offline (cfg : Settings) (fetch : M json) : Prop :=
  forall (w w1 : World) (data : json),
    0 < cache_ttl_seconds cfg ->
    fetch w = (ok data, w1) -> data <> JNone ->
    fetch w1 = (ok data, w1).

(** A fetch that raises: it raises the failure of its one request, and it
    has stored nothing (its cache can only have lost the expired entry). *)
Definition failure_stores_nothing {upstream : Upstream} (fetch : M json)
    (cache_of other_cache : World -> cache) (rq : Request) : Prop :=
  forall (w w1 : World) (e : exn),
    fetch w = (inl e, w1) ->
    (exists info,
       e = UpstreamError info
       /\ (respond (length (sent w)) rq (clock w)).2 = inl info)
    /\ sent w1 = sent w ++ [rq]
    /\ cache_of w1 ⊆ cache_of w
    /\ other_cache w1 = other_cache w.

(** With caching switched off, a fetch always sends its request, returns
    what the upstream yields and leaves both caches as they are. *)
Definition uncached_fetch {upstream : Upstream} (cfg : Settings) (fetch : M json)
    (rq : Request) : Prop :=
  forall w : World,
    cache_ttl_seconds cfg <= 0 ->
    (fetch w).1 = answer (respond (length (sent w)) rq (clock w)).2
    /\ sent (fetch w).2 = sent w ++ [rq]
    /\ weather_cache (fetch w).2 = weather_cache w
    /\ geocoding_cache (fetch w).2 = geocoding_cache w.



(** The dictionary after a [_cache_get] of [key] at each of the times
    [reads], in turn. *)
Definition after_reads (cfg : Settings) (key : cache_key) (reads : list Q)
    (c : cache) : cache :=
  foldl (fun c' t => (store._cache_get cfg t key c').2) c reads.

(** ** Notions used by the further properties of the routes *)

(** What the [except] clauses of the weather routes make of an exception
    raised inside the [try]: an [HTTPException] is raised again as it is,
    anything else becomes a 502 whose detail is the prefix followed by the
    exception. *)
Definition as_502 (prefix : string) (e : exn) : exn :=
  match e with
  | HTTPException _ _ => e
  | _ => HTTPException 502 (Failed prefix e)
  end.

(** No text was given: the parameter is absent or empty. *)
Definition no_text (q : option string) : Prop := q = None \/ q = Some "".

(** The [Location] the weather routes make of bare coordinates. *)
Definition coordinates_location {builtins : PyBuiltins} (la lo : float) : Location.t :=
  {| Location.name := format_4f la +:+ "," +:+ format_4f lo;
     Location.country := None;
     Location.state := None;
     Location.coordinates := {| Coordinates.lat := la; Coordinates.lon := lo |} |}.

(** The 400 of [_resolve_location_from_query] and the 404 of
    [_resolve_coordinates_and_location]. *)
Definition missing_input : exn :=
  HTTPException 400
    (Detail "Provide either 'q' or both 'lat' and 'lon' parameters.").

(** The body has no section [k]: the key is missing, or bound to [null] or
    to an empty object (or the whole body is [null]). *)
Definition no_section (data : json) (k : string) : Prop :=
  data = JNone
  \/ exists fields, data = JDict fields
       /\ (assoc k fields = None \/ assoc k fields = Some JNone
           \/ assoc k fields = Some (JDict [])).

(** A JSON value that is a string or [null], and the text it carries. *)
Definition text_or_null (v : json) : Prop := v = JNone \/ exists s, v = JStr s.

Definition text_of (v : json) : option string :=
  match v with
  | JStr s => Some s
  | _ => None
  end.

(** The characters of a text. *)
Definition chars (s : string) : list ascii := String.list_ascii_of_string s.

(** The 400 of the route [search]. *)
Definition query_required : exn :=
  HTTPException 400 (Detail "Query parameter 'q' is required.").

(** A result item of the geocoding endpoints as the provider documents it:
    an object whose coordinates are floats, whose identifier is an integer,
    a string or absent, and whose name, country and administrative areas
    are strings or absent. *)
Definition well_formed_result (r : json) : Prop :=
  exists fields, r = JDict fields
    /\ (exists la, assoc "latitude" fields = Some (JFloat la))
    /\ (exists lo, assoc "longitude" fields = Some (JFloat lo))
    /\ (default JNone (assoc "id" fields) = JNone
        \/ (exists z, assoc "id" fields = Some (JInt z))
        \/ (exists s, assoc "id" fields = Some (JStr s)))
    /\ text_or_null (default JNone (assoc "name" fields))
    /\ text_or_null (default JNone (assoc "country" fields))
    /\ text_or_null (default JNone (assoc "admin1" fields))
    /\ text_or_null (default JNone (assoc "admin2" fields)).

(** A result item as the geocoding provider returns it, for the examples. *)
Definition example_result : json :=
  JDict [("id", JInt 2950159); ("name", JStr "Berlin");
         ("latitude", JFloat 52.52); ("longitude", JFloat 13.41);
         ("country", JStr "Germany"); ("admin1", JStr "Berlin")].

(** The name the weather routes give a resolved location: the name of the
    result, or the text of the query when the result has none. *)
Definition name_or_query (nm : json) (name_q : string) : string :=
  match text_of nm with
  | Some (String c s) => String c s
  | _ => name_q
  end.

(** The requests the four fetchers send. *)
Definition current_request (la lo : float) : Request :=
  {| url := weather_client.WEATHER_BASE;
     query := weather_client.current_params la lo |}.
Definition forecast_request (la lo : float) (days : Z) : Request :=
  {| url := weather_client.WEATHER_BASE;
     query := weather_client.forecast_params la lo days |}.
Definition search_request (q : string) (count : Z) : Request :=
  {| url := geocoding_client.GEOCODE_SEARCH_BASE;
     query := geocoding_client.search_params q count |}.
Definition reverse_request (la lo : float) : Request :=
  {| url := geocoding_client.GEOCODE_REVERSE_BASE;
     query := geocoding_client.reverse_params la lo |}.

(** Run from [w], the route sends some of the requests [rqs], each at most
    once and in that order, and nothing else. *)
Definition sends_within {A} (route : M A) (w : World) (rqs : list Request) : Prop :=
  exists l, sent (route w).2 = sent w ++ l /\ sublist l rqs.

(** An upstream that answers every request, after one second, with a body
    listing the example result twice. *)
Definition listing_upstream : Upstream :=
  {| respond := fun _ _ _ =>
       (1%Q, inr (JDict [("results", JList [example_result; example_result])])) |}.

(** * Properties *)

(** ** Floats: multiplying by [1.0] changes nothing *)

Lemma SFmul_one_r (x : spec_float) :
  valid_binary x = true -> SF64mul x (Prim2SF 1) = x.
Proof.
  intros Hv.
  change (Prim2SF 1) with (S754_finite false 4503599627370496 (-52)).
  destruct x as [[]|[]| |s m e]; try reflexivity.
  unfold valid_binary, bounded, canonical_mantissa in Hv.
  apply andb_prop in Hv as [Hc He].
  apply Z.eqb_eq in Hc.
  unfold SF64mul, SFmul.
  rewrite Pos.mul_comm, xorb_false_r.
  change (4503599627370496 * m)%positive with (Pos.iter xO m 52).
  unfold binary_round_aux, shr_fexp.
  assert (Hd : Zdigits2 (Z.pos (Pos.iter xO m 52)) = Z.pos (digits2_pos m) + 52)
    by (simpl; lia).
  rewrite Hd.
  replace (Z.pos (digits2_pos m) + 52 + (e + -52))
    with (Z.pos (digits2_pos m) + e) by lia.
  rewrite Hc.
  replace (e - (e + -52)) with 52 by lia.
  cbn [shr shr_record_of_loc].
  change (SpecFloat.iter_pos shr_1 52
            {| shr_m := Z.pos (Pos.iter xO m 52); shr_r := false; shr_s := false |})
    with {| shr_m := Z.pos m; shr_r := false; shr_s := false |}.
  cbn [shr_m loc_of_shr_record round_nearest_even Zdigits2].
  replace (e + -52 + 52) with e by lia.
  rewrite Hc, Z.sub_diag. cbn [shr shr_m].
  by rewrite He.
Qed.

Lemma float_mul_one_r (x : float) : (x * 1)%float = x.
Proof.
  apply Prim2SF_inj. rewrite mul_spec. apply SFmul_one_r, Prim2SF_valid.
Qed.

(** ** The result monads *)

Lemma res_bind_ok {A B} (f : A -> res B) (m : res A) (b : B) :
  m ≫= f = inr b -> exists a, m = inr a /\ f a = inr b.
Proof. destruct m as [e|a]; [done|]. intros H. by exists a. Qed.

Lemma for_each_length {A B} (f : A -> res B) xs ys :
  for_each f xs = inr ys -> length ys = length xs.
Proof.
  revert ys. induction xs as [|x xs IH]; intros ys; simpl.
  - by intros [= <-].
  - intros (y & _ & H)%res_bind_ok. apply res_bind_ok in H as (ys' & Hys & [= <-]).
    simpl. f_equal. by apply IH.
Qed.

Lemma for_each_lookup {A B} (f : A -> res B) xs ys i y :
  for_each f xs = inr ys -> ys !! i = Some y ->
  exists x, xs !! i = Some x /\ f x = inr y.
Proof.
  revert ys i. induction xs as [|x xs IH]; intros ys i; simpl.
  - by intros [= <-].
  - intros (y0 & Hy0 & H)%res_bind_ok.
    apply res_bind_ok in H as (ys' & Hys & [= <-]).
    destruct i as [|i]; simpl.
    + intros [= ->]. by exists x.
    + intros Hi. by apply (IH ys' i).
Qed.

Lemma for_each_ok {A B} (f : A -> res B) (g : A -> B) xs :
  (forall x, x ∈ xs -> f x = inr (g x)) -> for_each f xs = inr (g <$> xs).
Proof.
  induction xs as [|x xs IH]; intros H; simpl; [done|].
  rewrite H by left. simpl. rewrite IH; [done|].
  intros ??. apply H. by right.
Qed.

(** ** Key normalisation *)

Section sorted_facts.
  Context {A : Type} (key : A -> string).

  (** The order of the keys: lexicographic on character codes. *)
Definition key_le (x y : A) : Prop := String.le (key x) (key y).

#[global] Instance key_le_trans : Transitive key_le.
  Proof. intros x y z. unfold key_le. apply transitivity. Qed.

Lemma ltb_true_le (a b : string) : String.ltb a b = true -> String.le a b.
  Proof.
    unfold String.ltb, String.le, String.leb.
    by destruct (a ?= b)%string.
  Qed.

Lemma ltb_false_le (a b : string) : String.ltb a b = false -> String.le b a.
  Proof.
    unfold String.ltb, String.le, String.leb.
    rewrite (String.compare_antisym a b).
    by destruct (b ?= a)%string.
  Qed.

Lemma insert_sorted_perm x l : insert_sorted key x l ≡ₚ x :: l.
  Proof.
    induction l as [|y l IH]; simpl; [done|].
    destruct (String.ltb (key y) (key x)); [|done].
    rewrite IH. apply Permutation_swap.
  Qed.

Lemma sorted_perm l : sorted key l ≡ₚ l.
  Proof.
    induction l as [|x l IH]; simpl; [done|].
    by rewrite insert_sorted_perm, IH.
  Qed.

Lemma insert_sorted_Sorted x l :
    Sorted key_le l -> Sorted key_le (insert_sorted key x l).
  Proof.
    induction l as [|y l IH]; simpl; intros Hs.
    - by repeat constructor.
    - destruct (String.ltb (key y) (key x)) eqn:E.
      + apply Sorted_inv in Hs as [Hs Hy]. constructor; [by apply IH|].
        destruct l as [|z l]; simpl.
        * constructor. by apply ltb_true_le.
        * destruct (String.ltb (key z) (key x)).
          -- constructor. by apply HdRel_inv in Hy.
          -- constructor. by apply ltb_true_le.
      + constructor; [done|]. constructor. by apply ltb_false_le.
  Qed.

Lemma sorted_Sorted l : Sorted key_le (sorted key l).
  Proof.
    induction l as [|x l IH]; simpl; [constructor|].
    by apply insert_sorted_Sorted.
  Qed.
End sorted_facts.

Lemma is_dict_item_eq {A} (d : list (string * A)) x y :
  is_dict d -> x ∈ d -> y ∈ d -> x.1 = y.1 -> x = y.
Proof.
  unfold is_dict. induction d as [|z d IH]; simpl; [by intros _ ?%elem_of_nil|].
  intros [Hz Hd]%NoDup_cons Hx Hy E.
  apply elem_of_cons in Hx as [->|Hx]; apply elem_of_cons in Hy as [->|Hy]; auto.
  - destruct Hz. rewrite E. by apply list_elem_of_fmap_2.
  - destruct Hz. rewrite <-E. by apply list_elem_of_fmap_2.
Qed.

(** C1.  [_params_to_key] returns the endpoint paired with the items of the
    mapping sorted by name (a permutation of the items, in lexicographic
    order of the names), and two mappings with the same items give the
    same key whatever their insertion orders. *)
Theorem params_to_key_canonical (endpoint : string) (ps ps' : params) :
  is_dict ps -> is_dict ps' -> (forall item, item ∈ ps <-> item ∈ ps') ->
  (_params_to_key endpoint ps).1 = endpoint
  /\ (_params_to_key endpoint ps).2 ≡ₚ ps
  /\ Sorted (key_le fst) (_params_to_key endpoint ps).2
  /\ _params_to_key endpoint ps = _params_to_key endpoint ps'.
Proof.
  intros Hd Hd' Hitems. unfold _params_to_key; simpl.
  split_and!; [done|apply sorted_perm|apply sorted_Sorted|].
  f_equal.
  assert (Hp : ps ≡ₚ ps').
  { apply NoDup_Permutation; [by eapply NoDup_fmap_1..|done]. }
  apply (Sorted_unique_strong (key_le fst)); [|apply sorted_Sorted..|].
  - intros x1 x2 H1 H2 L1 L2.
    apply (is_dict_item_eq ps); [done| | |].
    + by rewrite <-(sorted_perm fst ps).
    + by rewrite Hp, <-(sorted_perm fst ps').
    + by apply (anti_symm String.le).
  - by rewrite !sorted_perm.
Qed.

Lemma params_to_key_canonical_witness :
  is_dict [("name", PStr "Berlin"); ("count", PInt 10)]
  /\ is_dict [("count", PInt 10); ("name", PStr "Berlin")]
  /\ _params_to_key "search" [("name", PStr "Berlin"); ("count", PInt 10)]
     = ("search", [("count", PInt 10); ("name", PStr "Berlin")])
  /\ _params_to_key "search" [("name", PStr "Berlin"); ("count", PInt 10)]
     = _params_to_key "search" [("count", PInt 10); ("name", PStr "Berlin")].
Proof.
  assert (H1 : is_dict [("name", PStr "Berlin"); ("count", PInt 10)])
    by (apply (bool_decide_unpack _); vm_compute; exact I).
  assert (H2 : is_dict [("count", PInt 10); ("name", PStr "Berlin")])
    by (apply (bool_decide_unpack _); vm_compute; exact I).
  split_and!; [exact H1|exact H2|reflexivity|].
  apply (params_to_key_canonical "search" _ _ H1 H2).
  intros item. by rewrite Permutation_swap.
Defined.

(** ** The TTL cache *)

Lemma cache_get_disabled (cfg : Settings) (now : Q) (key : cache_key) (c : cache) :
  cache_ttl_seconds cfg <= 0 -> store._cache_get cfg now key c = (JNone, c).
Proof.
  intros H. unfold store._cache_get.
  by rewrite (proj2 (Z.leb_le _ _) H).
Qed.

Lemma cache_set_disabled (cfg : Settings) (now : Q) (key : cache_key)
    (data : json) (c : cache) :
  cache_ttl_seconds cfg <= 0 -> store._cache_set cfg now key data c = c.
Proof.
  intros H. unfold store._cache_set.
  by rewrite (proj2 (Z.leb_le _ _) H).
Qed.

Lemma cache_set_enabled (cfg : Settings) (now : Q) (key : cache_key)
    (data : json) (c : cache) :
  0 < cache_ttl_seconds cfg ->
  store._cache_set cfg now key data c = <[key := (now, data)]> c.
Proof.
  intros H. unfold store._cache_set.
  by rewrite (proj2 (Z.leb_gt _ _) H).
Qed.

Lemma cache_get_fresh (cfg : Settings) (now ts : Q) (key : cache_key)
    (data : json) (c : cache) :
  0 < cache_ttl_seconds cfg -> c !! key = Some (ts, data) ->
  (now - ts <= inject_Z (cache_ttl_seconds cfg))%Q ->
  store._cache_get cfg now key c = (data, c).
Proof.
  intros Httl Hk Hle. unfold store._cache_get.
  rewrite (proj2 (Z.leb_gt _ _) Httl), Hk.
  by rewrite (proj2 (Qle_bool_iff _ _) Hle).
Qed.

Lemma cache_get_stale (cfg : Settings) (now ts : Q) (key : cache_key)
    (data : json) (c : cache) :
  0 < cache_ttl_seconds cfg -> c !! key = Some (ts, data) ->
  (inject_Z (cache_ttl_seconds cfg) < now - ts)%Q ->
  store._cache_get cfg now key c = (JNone, delete key c).
Proof.
  intros Httl Hk Hlt. unfold store._cache_get.
  rewrite (proj2 (Z.leb_gt _ _) Httl), Hk.
  destruct (Qle_bool (now - ts) (inject_Z (cache_ttl_seconds cfg))) eqn:E; [|done].
  apply Qle_bool_iff in E. by apply Qlt_not_le in Hlt.
Qed.

Lemma cache_get_missing (cfg : Settings) (now : Q) (key : cache_key) (c : cache) :
  c !! key = None -> store._cache_get cfg now key c = (JNone, c).
Proof.
  intros Hk. unfold store._cache_get. rewrite Hk.
  by destruct (cache_ttl_seconds cfg <=? 0).
Qed.

(** Under a configuration that disables caching nothing is ever stored. *)
Lemma reachable_entry_enabled (cfg : Settings) (c : cache) (key : cache_key)
    (e : Q * json) :
  reachable cfg c -> c !! key = Some e -> 0 < cache_ttl_seconds cfg.
Proof.
  intros Hr. destruct (Z.lt_ge_cases 0 (cache_ttl_seconds cfg)) as [|Hoff]; [done|].
  assert (c = ∅) as ->; [|by rewrite lookup_empty].
  induction Hr as [|now k d c _ IH|now k c _ IH].
  - done.
  - by rewrite cache_set_disabled.
  - by rewrite cache_get_disabled.
Qed.

(** C2.  With a positive TTL, [_cache_set] followed by [_cache_get] on the
    same key, no more than the TTL later, returns the stored value and
    leaves the entry in place; in particular in each client, where the get
    follows the set at once.  With a TTL of zero or less, [_cache_get]
    reports [None] whatever the dictionary holds and [_cache_set] leaves
    the dictionary as it is. *)
Theorem cache_roundtrip (cfg : Settings) (t_set t_get : Q)
    (key : cache_key) (value : json) (c : cache) (w : World) :
  (0 < cache_ttl_seconds cfg ->
     ((t_get - t_set <= inject_Z (cache_ttl_seconds cfg))%Q ->
      store._cache_get cfg t_get key (store._cache_set cfg t_set key value c)
      = (value, <[key := (t_set, value)]> c))
     /\ (exists w', (weather_client._cache_set cfg key value
                       ≫= fun _ => weather_client._cache_get cfg key) w
                    = (ok value, w'))
     /\ (exists w', (geocoding_client._cache_set cfg key value
                       ≫= fun _ => geocoding_client._cache_get cfg key) w
                    = (ok value, w')))
  /\ (cache_ttl_seconds cfg <= 0 ->
        store._cache_get cfg t_get key c = (JNone, c)
        /\ store._cache_set cfg t_set key value c = c).
Proof.
  split.
  - intros Httl.
    assert (Hnow : forall t : Q, (t - t <= inject_Z (cache_ttl_seconds cfg))%Q).
    { intros t.
      assert (inject_Z 0 <= inject_Z (cache_ttl_seconds cfg))%Q
        by (rewrite <-Zle_Qle; lia).
      change (inject_Z 0) with 0%Q in *. lra. }
    split_and!.
    + intros Hle. rewrite cache_set_enabled by done.
      apply (cache_get_fresh _ _ t_set); [done|by rewrite lookup_insert_eq|done].
    + eexists. unfold mbind, M_bind, weather_client._cache_set,
        weather_client._cache_get. simpl.
      rewrite cache_set_enabled by done.
      erewrite cache_get_fresh; [done|done|by rewrite lookup_insert_eq|apply Hnow].
    + eexists. unfold mbind, M_bind, geocoding_client._cache_set,
        geocoding_client._cache_get. simpl.
      rewrite cache_set_enabled by done.
      erewrite cache_get_fresh; [done|done|by rewrite lookup_insert_eq|apply Hnow].
  - intros Hoff. split; [by apply cache_get_disabled|by apply cache_set_disabled].
Qed.

(** C3.  In a dictionary built by the cache functions, a [_cache_get] made
    more than TTL seconds after the timestamp of the entry reports [None]
    and leaves the dictionary without the entry (every other entry is
    kept); the removal cannot fail: a further get on the key, now absent,
    reports [None] again and changes nothing. *)
Theorem cache_get_expired (cfg : Settings) (now ts : Q) (key : cache_key)
    (data : json) (c : cache) :
  reachable cfg c -> c !! key = Some (ts, data) ->
  (inject_Z (cache_ttl_seconds cfg) < now - ts)%Q ->
  store._cache_get cfg now key c = (JNone, delete key c)
  /\ (store._cache_get cfg now key c).2 !! key = None
  /\ (forall key', key' ≠ key ->
        (store._cache_get cfg now key c).2 !! key' = c !! key')
  /\ (forall now', store._cache_get cfg now' key (delete key c)
                   = (JNone, delete key c)).
Proof.
  intros Hr Hk Hlt.
  pose proof (reachable_entry_enabled _ _ _ _ Hr Hk) as Httl.
  rewrite (cache_get_stale _ _ _ _ _ _ Httl Hk Hlt). simpl.
  split_and!; [done|apply lookup_delete_eq| |].
  - intros key' Hne. by apply lookup_delete_ne.
  - intros now'. apply cache_get_missing, lookup_delete_eq.
Qed.

(** ** The fetchers *)

Section fetchers.
Context {upstream : Upstream} (cfg : Settings).

Ltac fetch_run :=
  intros;
  unfold weather_client.get_current_weather, weather_client.get_forecast,
    geocoding_client.geocode_search, geocoding_client.reverse_geocode,
    weather_fetch, geocoding_fetch;
  unfold mbind, M_bind, weather_client._cache_get, http_get,
    weather_client._cache_set, geocoding_client._cache_get,
    geocoding_client._cache_set;
  destruct (store._cache_get _ _ _ _) as [v c];
  cbv [ok mret M_ret]; destruct (is_not_none v); [done|];
  cbn; destruct (respond _ _ _) as [elapsed [info|data]]; done.

Lemma get_current_weather_run (lat lon : float) (w : World) :
  weather_client.get_current_weather cfg lat lon w
  = weather_fetch cfg "current" weather_client.WEATHER_BASE
      (weather_client.current_params lat lon) w.
Proof. fetch_run. Qed.

Lemma get_forecast_run (lat lon : float) (days : Z) (w : World) :
  weather_client.get_forecast cfg lat lon days w
  = weather_fetch cfg "forecast" weather_client.WEATHER_BASE
      (weather_client.forecast_params lat lon days) w.
Proof. fetch_run. Qed.

Lemma geocode_search_run (query : string) (count : Z) (w : World) :
  geocoding_client.geocode_search cfg query count w
  = geocoding_fetch cfg "search" geocoding_client.GEOCODE_SEARCH_BASE
      (geocoding_client.search_params query count) w.
Proof. fetch_run. Qed.

Lemma reverse_geocode_run (lat lon : float) (w : World) :
  geocoding_client.reverse_geocode cfg lat lon w
  = geocoding_fetch cfg "reverse" geocoding_client.GEOCODE_REVERSE_BASE
      (geocoding_client.reverse_params lat lon) w.
Proof. fetch_run. Qed.

Lemma weather_fetch_sends (endpoint u : string) (ps : params) :
  sends_at_most (weather_fetch cfg endpoint u ps) {| url := u; query := ps |}.
Proof.
  intros w. unfold weather_fetch.
  destruct (store._cache_get _ _ _ _) as [v c].
  destruct (is_not_none v); [by left|].
  destruct (respond _ _ _) as [elapsed a]. by right.
Qed.

Lemma geocoding_fetch_sends (endpoint u : string) (ps : params) :
  sends_at_most (geocoding_fetch cfg endpoint u ps) {| url := u; query := ps |}.
Proof.
  intros w. unfold geocoding_fetch.
  destruct (store._cache_get _ _ _ _) as [v c].
  destruct (is_not_none v); [by left|].
  destruct (respond _ _ _) as [elapsed a]. by right.
Qed.

Lemma weather_fetch_null (endpoint u : string) (ps : params) :
  null_entry_refetched cfg (weather_fetch cfg endpoint u ps) weather_cache
    (_params_to_key endpoint ps) {| url := u; query := ps |}.
Proof.
  intros w ts Httl Hk Hle. unfold weather_fetch.
  rewrite (cache_get_fresh _ _ _ _ _ _ Httl Hk Hle). simpl.
  destruct (respond _ _ _) as [elapsed a]. eexists. split_and!; [done..|].
  simpl. intros data ->. rewrite cache_set_enabled by done.
  apply lookup_insert_eq.
Qed.

Lemma geocoding_fetch_null (endpoint u : string) (ps : params) :
  null_entry_refetched cfg (geocoding_fetch cfg endpoint u ps) geocoding_cache
    (_params_to_key endpoint ps) {| url := u; query := ps |}.
Proof.
  intros w ts Httl Hk Hle. unfold geocoding_fetch.
  rewrite (cache_get_fresh _ _ _ _ _ _ Httl Hk Hle). simpl.
  destruct (respond _ _ _) as [elapsed a]. eexists. split_and!; [done..|].
  simpl. intros data ->. rewrite cache_set_enabled by done.
  apply lookup_insert_eq.
Qed.

Lemma weather_fetch_hit (endpoint u : string) (ps : params) :
  hit_is_not_none (weather_fetch cfg endpoint u ps).
Proof.
  intros w w' v. unfold weather_fetch.
  destruct (store._cache_get _ _ _ _) as [v0 c].
  destruct (is_not_none v0) eqn:E.
  - intros [= <- <-] _ ->. done.
  - destruct (respond _ _ _) as [elapsed a]. intros [= _ <-]. simpl.
    intros Hs. apply (f_equal length) in Hs. rewrite length_app in Hs.
    simpl in Hs. lia.
Qed.

Lemma geocoding_fetch_hit (endpoint u : string) (ps : params) :
  hit_is_not_none (geocoding_fetch cfg endpoint u ps).
Proof.
  intros w w' v. unfold geocoding_fetch.
  destruct (store._cache_get _ _ _ _) as [v0 c].
  destruct (is_not_none v0) eqn:E.
  - intros [= <- <-] _ ->. done.
  - destruct (respond _ _ _) as [elapsed a]. intros [= _ <-]. simpl.
    intros Hs. apply (f_equal length) in Hs. rewrite length_app in Hs.
    simpl in Hs. lia.
Qed.

End fetchers.

(** C9.  The parameter mapping of the forecast fetcher binds
    [forecast_days] to [max(1, min(days, 10))], a value between 1 and 10,
    and that of the search fetcher binds [count] to
    [max(1, min(count, 20))], a value between 1 and 20; the cache key is
    built from that mapping and the only request the fetcher can send
    carries it. *)
Theorem fetchers_clamp {upstream : Upstream} (cfg : Settings) (lat lon : float)
    (days : Z) (query : string) (count : Z) :
  (1 <= Z.max 1 (Z.min days 10) <= 10
   /\ assoc "forecast_days" (weather_client.forecast_params lat lon days)
      = Some (PInt (Z.max 1 (Z.min days 10)))
   /\ ("forecast_days", PInt (Z.max 1 (Z.min days 10)))
      ∈ (_params_to_key "forecast" (weather_client.forecast_params lat lon days)).2
   /\ sends_at_most (weather_client.get_forecast cfg lat lon days)
        {| url := weather_client.WEATHER_BASE;
           query := weather_client.forecast_params lat lon days |})
  /\ (1 <= Z.max 1 (Z.min count 20) <= 20
      /\ assoc "count" (geocoding_client.search_params query count)
         = Some (PInt (Z.max 1 (Z.min count 20)))
      /\ ("count", PInt (Z.max 1 (Z.min count 20)))
         ∈ (_params_to_key "search" (geocoding_client.search_params query count)).2
      /\ sends_at_most (geocoding_client.geocode_search cfg query count)
           {| url := geocoding_client.GEOCODE_SEARCH_BASE;
              query := geocoding_client.search_params query count |}).
Proof.
  split; split_and!; try lia; try reflexivity.
  - unfold _params_to_key. cbn [snd]. rewrite sorted_perm.
    unfold weather_client.forecast_params. set_solver.
  - intros w. rewrite get_forecast_run. apply weather_fetch_sends.
  - unfold _params_to_key. cbn [snd]. rewrite sorted_perm.
    unfold geocoding_client.search_params. set_solver.
  - intros w. rewrite geocode_search_run. apply geocoding_fetch_sends.
Qed.

(** C10.  Each of the four fetchers, finding [None] stored under its key
    inside the TTL window, sends its request all the same, returns what the
    upstream yields and stores a body that arrives; and a fetcher that
    returns without having sent a request never returns [None]. *)
Theorem cached_null_is_a_miss {upstream : Upstream} (cfg : Settings) (lat lon : float)
    (days : Z) (query : string) (count : Z) :
  (null_entry_refetched cfg (weather_client.get_current_weather cfg lat lon)
     weather_cache
     (_params_to_key "current" (weather_client.current_params lat lon))
     {| url := weather_client.WEATHER_BASE;
        query := weather_client.current_params lat lon |}
   /\ hit_is_not_none (weather_client.get_current_weather cfg lat lon))
  /\ (null_entry_refetched cfg (weather_client.get_forecast cfg lat lon days)
        weather_cache
        (_params_to_key "forecast" (weather_client.forecast_params lat lon days))
        {| url := weather_client.WEATHER_BASE;
           query := weather_client.forecast_params lat lon days |}
      /\ hit_is_not_none (weather_client.get_forecast cfg lat lon days))
  /\ (null_entry_refetched cfg (geocoding_client.geocode_search cfg query count)
        geocoding_cache
        (_params_to_key "search" (geocoding_client.search_params query count))
        {| url := geocoding_client.GEOCODE_SEARCH_BASE;
           query := geocoding_client.search_params query count |}
      /\ hit_is_not_none (geocoding_client.geocode_search cfg query count))
  /\ (null_entry_refetched cfg (geocoding_client.reverse_geocode cfg lat lon)
        geocoding_cache
        (_params_to_key "reverse" (geocoding_client.reverse_params lat lon))
        {| url := geocoding_client.GEOCODE_REVERSE_BASE;
           query := geocoding_client.reverse_params lat lon |}
      /\ hit_is_not_none (geocoding_client.reverse_geocode cfg lat lon)).
Proof.
  split_and!.
  - intros w ts. rewrite get_current_weather_run. apply weather_fetch_null.
  - intros w w' v. rewrite get_current_weather_run. apply weather_fetch_hit.
  - intros w ts. rewrite get_forecast_run. apply weather_fetch_null.
  - intros w w' v. rewrite get_forecast_run. apply weather_fetch_hit.
  - intros w ts. rewrite geocode_search_run. apply geocoding_fetch_null.
  - intros w w' v. rewrite geocode_search_run. apply geocoding_fetch_hit.
  - intros w ts. rewrite reverse_geocode_run. apply geocoding_fetch_null.
  - intros w w' v. rewrite reverse_geocode_run. apply geocoding_fetch_hit.
Qed.

(** ** The condition classifier *)

Lemma mapping_dom :
  dom weather_client.mapping
  = list_to_set [0; 1; 2; 3; 45; 48; 51; 61; 63; 65; 71; 80; 95].
Proof. by vm_compute. Qed.

Lemma mapping_keys (c : Z) :
  weather_client.mapping !! c = None
  <-> c ∉ [0; 1; 2; 3; 45; 48; 51; 61; 63; 65; 71; 80; 95].
Proof. rewrite <-not_elem_of_dom, mapping_dom. set_solver. Qed.

(** C5.  On [None] the classifier returns [(None, None)]; on an integer
    that is a key of the table it returns the pair of the table; on any
    other integer it returns the text ["Code "] followed by the decimal
    numeral of the code, and the icon ["unknown"]; it returns on every
    input that is an integer or [None].  The keys of the table are the
    thirteen codes of the source, with the pairs of the source. *)
Theorem classifier_total {builtins : PyBuiltins} :
  weather_client._weathercode_to_text_icon JNone = ok (None, None)
  /\ (forall (c : Z) (text icon : string),
        weather_client.mapping !! c = Some (text, icon) ->
        weather_client._weathercode_to_text_icon (JInt c)
        = ok (Some text, Some icon))
  /\ (forall c : Z,
        weather_client.mapping !! c = None ->
        weather_client._weathercode_to_text_icon (JInt c)
        = ok (Some ("Code " +:+ pretty c), Some "unknown"))
  /\ (forall c : Z,
        weather_client.mapping !! c = None
        <-> c ∉ [0; 1; 2; 3; 45; 48; 51; 61; 63; 65; 71; 80; 95])
  /\ (forall code : option Z,
        exists text icon,
          weather_client._weathercode_to_text_icon (from_option JInt JNone code)
          = ok (text, icon))
  /\ weather_client._weathercode_to_text_icon
       <$> (JInt <$> [0; 1; 2; 3; 45; 48; 51; 61; 63; 65; 71; 80; 95; 4; -1])
     = ok <$> [(Some "Clear sky", Some "clear");
               (Some "Mainly clear", Some "clear");
               (Some "Partly cloudy", Some "partly_cloudy");
               (Some "Overcast", Some "cloudy");
               (Some "Fog", Some "fog");
               (Some "Depositing rime fog", Some "fog");
               (Some "Light drizzle", Some "drizzle");
               (Some "Slight rain", Some "rain");
               (Some "Moderate rain", Some "rain");
               (Some "Heavy rain", Some "rain");
               (Some "Slight snow", Some "snow");
               (Some "Rain showers", Some "showers");
               (Some "Thunderstorm", Some "thunder");
               (Some "Code 4", Some "unknown");
               (Some "Code -1", Some "unknown")].
Proof.
  assert (Hrun : forall c : Z,
    weather_client._weathercode_to_text_icon (JInt c)
    = let '(text, icon) :=
        default ("Code " +:+ pretty c, "unknown") (weather_client.mapping !! c) in
      ok (Some text, Some icon)) by done.
  split_and!.
  - done.
  - intros c text icon E. by rewrite Hrun, E.
  - intros c E. by rewrite Hrun, E.
  - apply mapping_keys.
  - intros [c|]; cbn [from_option]; [|by eexists _, _].
    rewrite Hrun. destruct (default _ _). by eexists _, _.
  - by vm_compute.
Qed.

(** ** Response normalisation *)

Section normalisation.
Context {builtins : PyBuiltins} {pydantic : Pydantic}.

Lemma py_or_dict (fields : list (string * json)) :
  py_or (JDict fields) (JDict []) = JDict fields.
Proof. by destruct fields. Qed.

Lemma py_or_list (l : list json) : py_or (JList l) (JList []) = JList l.
Proof. by destruct l. Qed.

Lemma get_or_array (fields : list (string * json)) (name : string) :
  array_or_absent fields name ->
  get_or (JDict fields) name (JList []) = ok (JList (array_of fields name)).
Proof.
  unfold array_or_absent, array_of, get_or. rewrite py_or_dict. simpl.
  destruct (assoc name fields) as [[]|]; try done. simpl.
  intros _. by rewrite py_or_list.
Qed.

Lemma for_each_total {A B} (f : A -> res B) (xs : list A) :
  Forall (fun x => exists y, f x = ok y) xs -> exists ys, for_each f xs = ok ys.
Proof.
  induction 1 as [|x xs [y Hy] _ [ys IH]]; simpl; [by eexists|].
  rewrite Hy. simpl. rewrite IH. by eexists.
Qed.

Lemma validate_number_or_null (v : json) :
  number_or_null v -> exists o, validate_optional validate_float v = Some o.
Proof.
  intros [->|Hn]; [by eexists|].
  destruct v as [| |z|f| | |]; try done; simpl.
  - destruct Hn as [f Hf]. rewrite (validate_float_int _ _ Hf). by eexists.
  - rewrite validate_float_float. by eexists.
Qed.

Lemma validate_integer_or_null (v : json) :
  integer_or_null v -> exists o, validate_optional validate_int v = Some o.
Proof.
  intros [->|[z ->]]; [by eexists|]. simpl. rewrite validate_int_int. by eexists.
Qed.

Lemma classify_integer_or_null (v : json) :
  integer_or_null v ->
  exists text icon, weather_client._weathercode_to_text_icon v = ok (text, icon).
Proof.
  intros [->|[z ->]]; [by eexists _, _|].
  unfold weather_client._weathercode_to_text_icon.
  destruct (default _ _). by eexists _, _.
Qed.

(** *** The daily series *)

Lemma daily_items_of_run (fields : list (string * json)) :
  (forall name, name ∈ daily_names -> array_or_absent fields name) ->
  weather.daily_items_of (JDict fields)
  = for_each
      (weather.daily_item (JList (array_of fields "time"))
         (JList (array_of fields "temperature_2m_max"))
         (JList (array_of fields "temperature_2m_min"))
         (JList (array_of fields "weathercode")))
      (seq 0 (length (array_of fields "time")
              `min` (length (array_of fields "temperature_2m_max")
              `min` (length (array_of fields "temperature_2m_min")
              `min` length (array_of fields "weathercode"))))).
Proof.
  intros Ha. unfold weather.daily_items_of.
  rewrite !get_or_array by (apply Ha; unfold daily_names; set_solver).
  done.
Qed.

Lemma daily_item_inv (dates tmax tmin wcodes : list json) (i : nat)
    (it : DailyForecastItem.t) :
  weather.daily_item (JList dates) (JList tmax) (JList tmin) (JList wcodes) i = ok it ->
  exists d mx mn code text icon,
    dates !! i = Some d /\ tmax !! i = Some mx /\ tmin !! i = Some mn
    /\ wcodes !! i = Some code
    /\ weather_client._weathercode_to_text_icon code = ok (text, icon)
    /\ DailyForecastItem.init d mn mx code text icon = ok it.
Proof.
  unfold weather.daily_item. simpl.
  destruct (wcodes !! i) as [code|]; [|done]. simpl.
  destruct (weather_client._weathercode_to_text_icon code) as [|[text icon]] eqn:Ec;
    [done|].
  simpl.
  destruct (dates !! i) as [d|]; [|done]. simpl.
  destruct (tmin !! i) as [mn|]; [|done]. simpl.
  destruct (tmax !! i) as [mx|]; [|done]. simpl.
  intros Hit. by exists d, mx, mn, code, text, icon.
Qed.

Lemma daily_item_total (dates tmax tmin wcodes : list json) (i : nat) :
  Forall (fun d => exists s, d = JStr s) dates -> Forall number_or_null tmax ->
  Forall number_or_null tmin -> Forall integer_or_null wcodes ->
  (i < length dates `min` (length tmax `min` (length tmin `min` length wcodes)))%nat ->
  exists it,
    weather.daily_item (JList dates) (JList tmax) (JList tmin) (JList wcodes) i = ok it.
Proof.
  intros Hd Hx Hn Hc Hi. unfold weather.daily_item. simpl.
  destruct (lookup_lt_is_Some_2 wcodes i) as [code Ecode]; [lia|].
  destruct (lookup_lt_is_Some_2 dates i) as [d Ed]; [lia|].
  destruct (lookup_lt_is_Some_2 tmin i) as [mn Emn]; [lia|].
  destruct (lookup_lt_is_Some_2 tmax i) as [mx Emx]; [lia|].
  rewrite Ecode, Ed, Emn, Emx. simpl.
  rewrite Forall_lookup in Hd, Hx, Hn, Hc.
  destruct (classify_integer_or_null code) as (text & icon & ->); [by eapply Hc|].
  simpl. unfold DailyForecastItem.init.
  destruct (Hd _ _ Ed) as [s ->]. rewrite validate_str_str. simpl.
  destruct (validate_number_or_null mn) as [o1 ->]; [by eapply Hn|]. simpl.
  destruct (validate_number_or_null mx) as [o2 ->]; [by eapply Hx|]. simpl.
  destruct (validate_integer_or_null code) as [o3 ->]; [by eapply Hc|]. simpl.
  by eexists.
Qed.

Lemma daily_item_typed (dates tmax tmin wcodes : list json) (i : nat)
    (s : string) (a b : float) (c : Z) (text icon : option string) :
  dates !! i = Some (JStr s) -> tmax !! i = Some (JFloat b) ->
  tmin !! i = Some (JFloat a) -> wcodes !! i = Some (JInt c) ->
  weather_client._weathercode_to_text_icon (JInt c) = ok (text, icon) ->
  weather.daily_item (JList dates) (JList tmax) (JList tmin) (JList wcodes) i
  = ok {| DailyForecastItem.date := s;
          DailyForecastItem.min_temp_c := Some a;
          DailyForecastItem.max_temp_c := Some b;
          DailyForecastItem.weather_code := Some c;
          DailyForecastItem.condition_text := text;
          DailyForecastItem.condition_icon := icon |}.
Proof.
  intros Hd Hx Hn Hc Hcls. unfold weather.daily_item.
  cbn [py_getitem]. rewrite Hc. cbn [mbind res_bind ok]. rewrite Hcls.
  cbn [mbind res_bind ok]. rewrite Hd, Hn, Hx. cbn [mbind res_bind ok].
  unfold DailyForecastItem.init, validate_optional.
  rewrite validate_str_str, !validate_float_float, validate_int_int.
  reflexivity.
Qed.

Lemma daily_truncation (fields : list (string * json)) :
  (forall name, name ∈ daily_names -> array_or_absent fields name) ->
  (forall items,
     weather.daily_items_of (JDict fields) = ok items ->
     length items
     = (length (array_of fields "time")
        `min` (length (array_of fields "temperature_2m_max")
        `min` (length (array_of fields "temperature_2m_min")
        `min` length (array_of fields "weathercode"))))%nat
     /\ daily_positional fields items)
  /\ (daily_well_typed fields ->
        exists items, weather.daily_items_of (JDict fields) = ok items)
  /\ ((exists name, name ∈ daily_names /\ array_of fields name = []) ->
        weather.daily_items_of (JDict fields) = ok []).
Proof.
  intros Ha. rewrite (daily_items_of_run _ Ha). split_and!.
  - intros items Hitems. split.
    + rewrite (for_each_length _ _ _ Hitems). by rewrite length_seq.
    + intros i it Hi.
      destruct (for_each_lookup _ _ _ _ _ Hitems Hi) as (x & Hx & Hit).
      apply lookup_seq in Hx as [-> _]. by apply daily_item_inv in Hit.
  - intros (Hd & Hx & Hn & Hc). apply for_each_total.
    apply Forall_forall. intros i [_ Hi]%elem_of_seq.
    by apply daily_item_total.
  - intros (name & Hin & Hempty).
    assert (length (array_of fields "time")
            `min` (length (array_of fields "temperature_2m_max")
            `min` (length (array_of fields "temperature_2m_min")
            `min` length (array_of fields "weathercode"))) = 0)%nat as ->; [|done].
    unfold daily_names in Hin.
    repeat (apply elem_of_cons in Hin as [->|Hin]; [rewrite Hempty; simpl; lia|]).
    by apply elem_of_nil in Hin.
Qed.

(** *** The hourly series *)

Lemma hourly_items_of_run (fields : list (string * json)) :
  (forall name, name ∈ hourly_names -> array_or_absent fields name) ->
  weather.hourly_items_of (JDict fields)
  = for_each
      (weather.hourly_item (JList (array_of fields "time"))
         (JList (array_of fields "temperature_2m"))
         (JList (array_of fields "weathercode")))
      (seq 0 (length (array_of fields "time")
              `min` (length (array_of fields "temperature_2m")
              `min` length (array_of fields "weathercode")))).
Proof.
  intros Ha. unfold weather.hourly_items_of.
  rewrite !get_or_array by (apply Ha; unfold hourly_names; set_solver).
  done.
Qed.

Lemma hourly_item_inv (times temps hwcodes : list json) (i : nat)
    (it : HourlyForecastItem.t) :
  weather.hourly_item (JList times) (JList temps) (JList hwcodes) i = ok it ->
  exists t tc code text icon,
    times !! i = Some t /\ temps !! i = Some tc /\ hwcodes !! i = Some code
    /\ weather_client._weathercode_to_text_icon code = ok (text, icon)
    /\ HourlyForecastItem.init t tc code text icon = ok it.
Proof.
  unfold weather.hourly_item. simpl.
  destruct (hwcodes !! i) as [code|]; [|done]. simpl.
  destruct (weather_client._weathercode_to_text_icon code) as [|[text icon]] eqn:Ec;
    [done|].
  simpl.
  destruct (times !! i) as [t|]; [|done]. simpl.
  destruct (temps !! i) as [tc|]; [|done]. simpl.
  intros Hit. by exists t, tc, code, text, icon.
Qed.

Lemma hourly_item_total (times temps hwcodes : list json) (i : nat) :
  Forall (fun d => exists s, d = JStr s) times -> Forall number_or_null temps ->
  Forall integer_or_null hwcodes ->
  (i < length times `min` (length temps `min` length hwcodes))%nat ->
  exists it,
    weather.hourly_item (JList times) (JList temps) (JList hwcodes) i = ok it.
Proof.
  intros Hd Hx Hc Hi. unfold weather.hourly_item. simpl.
  destruct (lookup_lt_is_Some_2 hwcodes i) as [code Ecode]; [lia|].
  destruct (lookup_lt_is_Some_2 times i) as [t Et]; [lia|].
  destruct (lookup_lt_is_Some_2 temps i) as [tc Etc]; [lia|].
  rewrite Ecode, Et, Etc. simpl.
  rewrite Forall_lookup in Hd, Hx, Hc.
  destruct (classify_integer_or_null code) as (text & icon & ->); [by eapply Hc|].
  simpl. unfold HourlyForecastItem.init.
  destruct (Hd _ _ Et) as [s ->]. rewrite validate_str_str. simpl.
  destruct (validate_number_or_null tc) as [o1 ->]; [by eapply Hx|]. simpl.
  destruct (validate_integer_or_null code) as [o3 ->]; [by eapply Hc|]. simpl.
  by eexists.
Qed.

Lemma hourly_truncation (fields : list (string * json)) :
  (forall name, name ∈ hourly_names -> array_or_absent fields name) ->
  (forall items,
     weather.hourly_items_of (JDict fields) = ok items ->
     length items
     = (length (array_of fields "time")
        `min` (length (array_of fields "temperature_2m")
        `min` length (array_of fields "weathercode")))%nat
     /\ hourly_positional fields items)
  /\ (hourly_well_typed fields ->
        exists items, weather.hourly_items_of (JDict fields) = ok items)
  /\ ((exists name, name ∈ hourly_names /\ array_of fields name = []) ->
        weather.hourly_items_of (JDict fields) = ok []).
Proof.
  intros Ha. rewrite (hourly_items_of_run _ Ha). split_and!.
  - intros items Hitems. split.
    + rewrite (for_each_length _ _ _ Hitems). by rewrite length_seq.
    + intros i it Hi.
      destruct (for_each_lookup _ _ _ _ _ Hitems Hi) as (x & Hx & Hit).
      apply lookup_seq in Hx as [-> _]. by apply hourly_item_inv in Hit.
  - intros (Hd & Hx & Hc). apply for_each_total.
    apply Forall_forall. intros i [_ Hi]%elem_of_seq.
    by apply hourly_item_total.
  - intros (name & Hin & Hempty).
    assert (length (array_of fields "time")
            `min` (length (array_of fields "temperature_2m")
            `min` length (array_of fields "weathercode")) = 0)%nat as ->; [|done].
    unfold hourly_names in Hin.
    repeat (apply elem_of_cons in Hin as [->|Hin]; [rewrite Hempty; simpl; lia|]).
    by apply elem_of_nil in Hin.
Qed.

End normalisation.

(** C4.  For a daily section whose four arrays are arrays, [null] or
    missing: whenever the items are produced there are as many as the
    shortest array has entries and item [i] is built from index [i] of
    each array; they are produced whenever the samples have the types of
    their fields; and an array that is empty, [null] or missing gives zero
    items and no error.  The same for the three arrays of an hourly
    section.  With five dates, five maxima, three minima and three codes
    there are exactly three daily items, from indices 0 to 2. *)
Theorem forecast_truncation {builtins : PyBuiltins} {pydantic : Pydantic} :
  (forall fields : list (string * json),
     (forall name, name ∈ daily_names -> array_or_absent fields name) ->
     (forall items,
        weather.daily_items_of (JDict fields) = ok items ->
        length items
        = (length (array_of fields "time")
           `min` (length (array_of fields "temperature_2m_max")
           `min` (length (array_of fields "temperature_2m_min")
           `min` length (array_of fields "weathercode"))))%nat
        /\ daily_positional fields items)
     /\ (daily_well_typed fields ->
           exists items, weather.daily_items_of (JDict fields) = ok items)
     /\ ((exists name, name ∈ daily_names /\ array_of fields name = []) ->
           weather.daily_items_of (JDict fields) = ok []))
  /\ (forall fields : list (string * json),
        (forall name, name ∈ hourly_names -> array_or_absent fields name) ->
        (forall items,
           weather.hourly_items_of (JDict fields) = ok items ->
           length items
           = (length (array_of fields "time")
              `min` (length (array_of fields "temperature_2m")
              `min` length (array_of fields "weathercode")))%nat
           /\ hourly_positional fields items)
        /\ (hourly_well_typed fields ->
              exists items, weather.hourly_items_of (JDict fields) = ok items)
        /\ ((exists name, name ∈ hourly_names /\ array_of fields name = []) ->
              weather.hourly_items_of (JDict fields) = ok []))
  /\ (forall (fields : list (string * json)) (items : list DailyForecastItem.t),
        (forall name, name ∈ daily_names -> array_or_absent fields name) ->
        length (array_of fields "time") = 5%nat ->
        length (array_of fields "temperature_2m_max") = 5%nat ->
        length (array_of fields "temperature_2m_min") = 3%nat ->
        length (array_of fields "weathercode") = 3%nat ->
        weather.daily_items_of (JDict fields) = ok items ->
        length items = 3%nat /\ daily_positional fields items)
  /\ weather.daily_items_of (JDict uneven_daily)
     = ok [ {| DailyForecastItem.date := "2024-05-01";
               DailyForecastItem.min_temp_c := Some 10.5%float;
               DailyForecastItem.max_temp_c := Some 20.5%float;
               DailyForecastItem.weather_code := Some 0;
               DailyForecastItem.condition_text := Some "Clear sky";
               DailyForecastItem.condition_icon := Some "clear" |};
            {| DailyForecastItem.date := "2024-05-02";
               DailyForecastItem.min_temp_c := Some 11.5%float;
               DailyForecastItem.max_temp_c := Some 21.5%float;
               DailyForecastItem.weather_code := Some 3;
               DailyForecastItem.condition_text := Some "Overcast";
               DailyForecastItem.condition_icon := Some "cloudy" |};
            {| DailyForecastItem.date := "2024-05-03";
               DailyForecastItem.min_temp_c := Some 12.5%float;
               DailyForecastItem.max_temp_c := Some 22.5%float;
               DailyForecastItem.weather_code := Some 61;
               DailyForecastItem.condition_text := Some "Slight rain";
               DailyForecastItem.condition_icon := Some "rain" |} ].
Proof.
  split_and!.
  - apply daily_truncation.
  - apply hourly_truncation.
  - intros fields items Ha H1 H2 H3 H4 Hitems.
    destruct (daily_truncation fields Ha) as (Hlen & _ & _).
    destruct (Hlen items Hitems) as [-> Hpos]. by rewrite H1, H2, H3, H4.
  - assert (Hrun :
      weather.daily_items_of (JDict uneven_daily)
      = for_each
          (weather.daily_item (JList (array_of uneven_daily "time"))
             (JList (array_of uneven_daily "temperature_2m_max"))
             (JList (array_of uneven_daily "temperature_2m_min"))
             (JList (array_of uneven_daily "weathercode")))
          [0; 1; 2]%nat).
    { apply daily_items_of_run. intros name Hin. unfold daily_names in Hin.
      repeat (apply elem_of_cons in Hin as [->|Hin]; [exact I|]).
      by apply elem_of_nil in Hin. }
    rewrite Hrun. cbn [for_each].
    rewrite (daily_item_typed _ _ _ _ 0 "2024-05-01" 10.5 20.5 0
               (Some "Clear sky") (Some "clear")) by (vm_compute; reflexivity).
    rewrite (daily_item_typed _ _ _ _ 1 "2024-05-02" 11.5 21.5 3
               (Some "Overcast") (Some "cloudy")) by (vm_compute; reflexivity).
    rewrite (daily_item_typed _ _ _ _ 2 "2024-05-03" 12.5 22.5 61
               (Some "Slight rain") (Some "rain")) by (vm_compute; reflexivity).
    reflexivity.
Qed.

(** *** Current weather *)

Lemma wind_unchanged {builtins : PyBuiltins} {pydantic : Pydantic} (ws : json) :
  number_or_null ws ->
  exists wind,
    (if is_not_none ws then py_mul_float ws 1%float else ok JNone) = ok wind
    /\ validate_optional validate_float wind = validate_optional validate_float ws
    /\ exists o, validate_optional validate_float ws = Some o.
Proof.
  intros [->|Hn]; [exists JNone; split_and!; [done..|by eexists]|].
  destruct ws as [| |z|f| | |]; try done; simpl.
  - destruct Hn as [f Hf]. rewrite Hf. simpl. eexists. split_and!; [done|..].
    + simpl. rewrite float_mul_one_r.
      by rewrite validate_float_float, (validate_float_int _ _ Hf).
    + rewrite (validate_float_int _ _ Hf). by eexists.
  - rewrite float_mul_one_r. eexists. split_and!; [done..|].
    rewrite validate_float_float. by eexists.
Qed.

(** C6.  For a body whose [current_weather] object carries a float
    temperature, a windspeed that is a number or absent, a wind direction
    the model accepts, an integer weather code and a time string: the
    record is built, its temperature is the upstream temperature, its wind
    speed is the upstream windspeed as the model reads it (the very float
    when it is a float, absent when it is absent), its weather code and
    its time are the upstream ones, and its text and icon are those of the
    classifier.  The body of the scenario gives 18.3, 10.0, 3, "Overcast"
    and "cloudy". *)
Theorem current_weather_passthrough {builtins : PyBuiltins} {pydantic : Pydantic} :
  (forall (data : json) (fields : list (string * json)) (t : float)
          (code : Z) (time : string) (direction : option float),
     get_or data "current_weather" (JDict []) = ok (JDict fields) ->
     assoc "temperature" fields = Some (JFloat t) ->
     number_or_null (default JNone (assoc "windspeed" fields)) ->
     validate_optional validate_float (default JNone (assoc "winddirection" fields))
       = Some direction ->
     assoc "weathercode" fields = Some (JInt code) ->
     assoc "time" fields = Some (JStr time) ->
     exists c,
       weather.current_of_data data = ok c
       /\ CurrentWeather.temperature_c c = t
       /\ Some (CurrentWeather.wind_speed_kph c)
          = validate_optional validate_float (default JNone (assoc "windspeed" fields))
       /\ (forall w, assoc "windspeed" fields = Some (JFloat w) ->
             CurrentWeather.wind_speed_kph c = Some w)
       /\ (default JNone (assoc "windspeed" fields) = JNone ->
             CurrentWeather.wind_speed_kph c = None)
       /\ CurrentWeather.wind_direction_deg c = direction
       /\ CurrentWeather.weather_code c = Some code
       /\ weather_client._weathercode_to_text_icon (JInt code)
          = ok (CurrentWeather.condition_text c, CurrentWeather.condition_icon c)
       /\ CurrentWeather.observation_time_iso c = Some time)
  /\ weather.current_of_data scenario_current_body
     = ok {| CurrentWeather.temperature_c := 18.3;
             CurrentWeather.wind_speed_kph := Some 10%float;
             CurrentWeather.wind_direction_deg := Some 200%float;
             CurrentWeather.weather_code := Some 3;
             CurrentWeather.condition_text := Some "Overcast";
             CurrentWeather.condition_icon := Some "cloudy";
             CurrentWeather.observation_time_iso := Some "2024-05-01T12:00" |}.
Proof.
  assert (Hgen : forall (data : json) (fields : list (string * json)) (t : float)
          (code : Z) (time : string) (direction : option float),
     get_or data "current_weather" (JDict []) = ok (JDict fields) ->
     assoc "temperature" fields = Some (JFloat t) ->
     number_or_null (default JNone (assoc "windspeed" fields)) ->
     validate_optional validate_float (default JNone (assoc "winddirection" fields))
       = Some direction ->
     assoc "weathercode" fields = Some (JInt code) ->
     assoc "time" fields = Some (JStr time) ->
     exists c,
       weather.current_of_data data = ok c
       /\ CurrentWeather.temperature_c c = t
       /\ Some (CurrentWeather.wind_speed_kph c)
          = validate_optional validate_float (default JNone (assoc "windspeed" fields))
       /\ (forall w, assoc "windspeed" fields = Some (JFloat w) ->
             CurrentWeather.wind_speed_kph c = Some w)
       /\ (default JNone (assoc "windspeed" fields) = JNone ->
             CurrentWeather.wind_speed_kph c = None)
       /\ CurrentWeather.wind_direction_deg c = direction
       /\ CurrentWeather.weather_code c = Some code
       /\ weather_client._weathercode_to_text_icon (JInt code)
          = ok (CurrentWeather.condition_text c, CurrentWeather.condition_icon c)
       /\ CurrentWeather.observation_time_iso c = Some time).
  { intros data fields t code time direction Hcw Ht Hws Hwd Hcode Htime.
    unfold weather.current_of_data. rewrite Hcw.
    cbn [mbind res_bind ok py_get]. rewrite Hcode, Ht, Htime.
    cbn [default from_option id].
    destruct (classify_integer_or_null (JInt code)) as (text & icon & Ec);
      [right; by eexists|].
    rewrite Ec. cbn [mbind res_bind ok].
    destruct (wind_unchanged _ Hws) as (wind & -> & Hv & o & Ho).
    cbn [mbind res_bind ok].
    unfold CurrentWeather.init.
    rewrite validate_float_float, Hv, Ho, Hwd.
    unfold validate_optional at 1 2. rewrite validate_int_int, validate_str_str.
    cbn [mbind option_bind fmap option_fmap option_map validated].
    eexists. split; [reflexivity|]. cbn. split_and!; try done.
    + intros w Hw. rewrite Hw in Ho. cbn in Ho.
      rewrite validate_float_float in Ho. by injection Ho as <-.
    + intros E. rewrite E in Ho. by injection Ho as <-. }
  split; [exact Hgen|].
  destruct (Hgen scenario_current_body
              [("temperature", JFloat 18.3); ("windspeed", JFloat 10.0);
               ("winddirection", JInt 200); ("weathercode", JInt 3);
               ("time", JStr "2024-05-01T12:00")]
              18.3%float 3 "2024-05-01T12:00" (Some 200%float))
    as (c & -> & H1 & _ & H2 & _ & H3 & H4 & H5 & H6).
  - reflexivity.
  - reflexivity.
  - right. exact I.
  - change (validate_optional validate_float (JInt 200) = Some (Some 200%float)).
    unfold validate_optional.
    by rewrite (validate_float_int 200 200%float) by (vm_compute; reflexivity).
  - reflexivity.
  - reflexivity.
  - specialize (H2 10%float eq_refl).
    assert (Hc : weather_client._weathercode_to_text_icon (JInt 3)
                 = ok (Some "Overcast", Some "cloudy")) by (vm_compute; reflexivity).
    rewrite Hc in H5. injection H5 as H5 H5'.
    destruct c. cbn in *. by subst.
Qed.

(** ** The routes *)

Section routes.
Context {builtins : PyBuiltins} {upstream : Upstream} {pydantic : Pydantic} (cfg : Settings).

Lemma search_run (q : string) (w : World) :
  not_blank q ->
  location.search cfg q w
  = match geocoding_client.geocode_search cfg q 10 w with
    | (inl e, w1) =>
        (inl (HTTPException 502 (Failed "Failed to search locations: " e)), w1)
    | (inr data, w1) =>
        (items ← location.items_of_data data;
         ok {| LocationSearchResponse.results := items |}, w1)
    end.
Proof.
  unfold not_blank, location.search. intros ->.
  unfold mbind at 1. unfold M_bind, try_except.
  by destruct (geocoding_client.geocode_search cfg q 10 w) as [[e|data] w1].
Qed.

Lemma reverse_run (lat lon : float) (w : World) :
  location.reverse cfg lat lon w
  = match geocoding_client.reverse_geocode cfg lat lon w with
    | (inl e, w1) =>
        (inl (HTTPException 502 (Failed "Failed to reverse geocode: " e)), w1)
    | (inr data, w1) =>
        (results ← get_or data "results" (JList []);
         if negb (truthy results)
         then ok {| ReverseGeocodeResponse.result := None |}
         else
           r0 ← py_getitem results 0;
           item ← location.item_of_result r0;
           ok {| ReverseGeocodeResponse.result := Some item |}, w1)
    end.
Proof.
  unfold location.reverse.
  unfold mbind at 1. unfold M_bind, try_except.
  by destruct (geocoding_client.reverse_geocode cfg lat lon w) as [[e|data] w1].
Qed.

Lemma resolve_by_name_run (c : ascii) (s : string) (lat lon : option float)
    (w : World) :
  weather._resolve_coordinates_and_location cfg (Some (String c s)) lat lon w
  = match geocoding_client.geocode_search cfg (String c s) 1 w with
    | (inl e, w1) => (inl e, w1)
    | (inr geo, w1) =>
        (results ← get_or geo "results" (JList []);
         if negb (truthy results)
         then raise (HTTPException 404 (Detail "Location not found for query."))
         else
           r0 ← py_getitem results 0;
           weather.location_of_result (String c s) r0, w1)
    end.
Proof.
  unfold weather._resolve_coordinates_and_location.
  unfold mbind at 1. unfold M_bind. simpl.
  unfold mbind at 1. unfold M_bind.
  by destruct (geocoding_client.geocode_search cfg (String c s) 1 w) as [[e|data] w1].
Qed.

(** What the geocoding fetchers raise is the failure of the upstream call. *)
Lemma geocoding_fetch_error (endpoint u : string) (ps : params) (w w1 : World)
    (e : exn) :
  geocoding_fetch cfg endpoint u ps w = (inl e, w1) ->
  exists info, e = UpstreamError info.
Proof.
  unfold geocoding_fetch.
  destruct (store._cache_get _ _ _ _) as [v c].
  destruct (is_not_none v); [done|].
  destruct (respond _ _ _) as [elapsed [info|data]]; simpl; [|done].
  intros [= <- _]. by exists info.
Qed.

(** A miss whose request is answered by a body returns that body. *)
Lemma geocoding_fetch_miss (endpoint u : string) (ps : params) (w : World)
    (elapsed : Q) (data : json) :
  geocoding_cache w !! _params_to_key endpoint ps = None ->
  respond (length (sent w)) {| url := u; query := ps |} (clock w)
    = (elapsed, inr data) ->
  exists w1, geocoding_fetch cfg endpoint u ps w = (ok data, w1).
Proof.
  intros Hk Hr. unfold geocoding_fetch.
  rewrite (cache_get_missing _ _ _ _ Hk). simpl. rewrite Hr. by eexists.
Qed.

Lemma get_or_no_results (data : json) :
  no_results data -> get_or data "results" (JList []) = ok (JList []).
Proof.
  intros (fields & -> & [E|E]); unfold get_or; rewrite py_or_dict; simpl;
    by rewrite E.
Qed.

Lemma py_float_error (v : json) (e : exn) : py_float v = inl e -> float_error e.
Proof.
  unfold float_error. destruct v as [| |z|f|s| |]; simpl; try (intros [= <-]; tauto).
  - unfold float_of_Z. destruct (binary_normalize _ _ _ _ _); try done.
    intros [= <-]. tauto.
  - destruct (float_of_str s); [done|]. intros [= <-]. tauto.
Qed.

Lemma validated_error {A} (o : option A) (e : exn) :
  validated o = inl e -> e = ValidationError.
Proof. destruct o; [done|]. by intros [= <-]. Qed.

(** On a JSON object, normalisation fails only with a format error... *)
Lemma item_of_result_error (r : json) (e : exn) :
  is_object r -> location.item_of_result r = inl e -> format_error e.
Proof.
  intros [fields ->]. unfold location.item_of_result. simpl.
  destruct (py_float (default JNone (assoc "latitude" fields))) eqn:Ela; simpl.
  { intros [= <-]. left. by eapply py_float_error. }
  destruct (py_float (default JNone (assoc "longitude" fields))) eqn:Elo; simpl.
  { intros [= <-]. left. by eapply py_float_error. }
  intros ->%validated_error. by right.
Qed.

(** ... and it does fail, in [float()], when a coordinate is bad. *)
Lemma item_of_result_bad (r : json) :
  bad_coordinates r ->
  exists e, location.item_of_result r = inl e /\ float_error e.
Proof.
  intros (fields & -> & Hbad). unfold location.item_of_result. simpl.
  destruct (py_float (default JNone (assoc "latitude" fields))) as [e|la] eqn:Ela;
    simpl.
  { exists e. split; [done|]. by eapply py_float_error. }
  destruct Hbad as [[e He]|[e He]]; [done|]. rewrite He. simpl.
  exists e. split; [done|]. by eapply py_float_error.
Qed.

Lemma location_of_result_bad (name_q : string) (r : json) :
  bad_coordinates r ->
  exists e, weather.location_of_result name_q r = inl e /\ float_error e.
Proof.
  intros (fields & -> & Hbad). unfold weather.location_of_result. simpl.
  destruct (py_float (default JNone (assoc "latitude" fields))) as [e|la] eqn:Ela;
    simpl.
  { exists e. split; [done|]. by eapply py_float_error. }
  destruct Hbad as [[e He]|[e He]]; [done|]. rewrite He. simpl.
  exists e. split; [done|]. by eapply py_float_error.
Qed.

Lemma for_each_fails {A B} (f : A -> res B) (xs : list A) (P : exn -> Prop) :
  Forall (fun x => forall e, f x = inl e -> P e) xs ->
  Exists (fun x => exists e, f x = inl e) xs ->
  exists e, for_each f xs = inl e /\ P e.
Proof.
  intros Hall Hex. induction Hex as [x xs [e He]|x xs Hex IH]; simpl.
  - rewrite He. simpl. exists e. split; [done|].
    apply Forall_cons in Hall as [Hx _]. by apply Hx.
  - apply Forall_cons in Hall as [Hx Hall].
    destruct (f x) as [e|y] eqn:Ex; simpl.
    + exists e. split; [done|]. by apply Hx.
    + destruct (IH Hall) as (e & -> & He). by exists e.
Qed.

Lemma format_not_transport (e : exn) : format_error e -> ~ transport_error e.
Proof.
  intros [[-> | [-> | ->]] | ->] [[info ?] | (prefix & info & ?)]; done.
Qed.

End routes.


(** The weather routes report a failure of [_resolve_coordinates_and_location]
    that is not an [HTTPException] as a 502 whose detail carries it: the
    failure of the upstream call and a format failure of the geocoding body
    alike. *)
Lemma current_weather_reports_502 {builtins : PyBuiltins} {upstream : Upstream} {pydantic : Pydantic}
    (cfg : Settings) (q : option string) (lat lon : option float)
    (w w1 : World) (e : exn) :
  weather._resolve_coordinates_and_location cfg q lat lon w = (inl e, w1) ->
  format_error e \/ (exists info, e = UpstreamError info) ->
  weather.current_weather cfg q lat lon w
  = (inl (HTTPException 502 (Failed "Failed to fetch current weather: " e)), w1).
Proof.
  intros Hr He. unfold weather.current_weather.
  unfold mbind at 1. unfold M_bind, try_except.
  unfold mbind at 1. unfold M_bind. rewrite Hr.
  destruct He as [[[-> | [-> | ->]] | ->] | [info ->]]; done.
Qed.

(** C7.  In [search], in [reverse] and in
    [_resolve_coordinates_and_location], a result item (for the latter two:
    the first one) whose latitude or longitude is missing or is refused by
    [float()] makes the function raise; what it raises is the exception of
    [float()] (in [search], where earlier items are normalised first, a
    format error), and that is never the failure of the upstream call,
    which the same function reports as a 502 ([search], [reverse]) or
    passes on as it is ([_resolve_coordinates_and_location]). *)
Theorem format_failure_is_distinct {builtins : PyBuiltins} {upstream : Upstream} {pydantic : Pydantic}
    (cfg : Settings) :
  (forall (q : string) (w w1 : World) (fields : list (string * json))
          (rs : list json),
     not_blank q ->
     geocoding_client.geocode_search cfg q 10 w = (ok (JDict fields), w1) ->
     assoc "results" fields = Some (JList rs) ->
     Forall is_object rs -> Exists bad_coordinates rs ->
     exists e, location.search cfg q w = (inl e, w1)
               /\ format_error e /\ ~ transport_error e)
  /\ (forall (q : string) (w w1 : World) (e0 : exn),
        not_blank q ->
        geocoding_client.geocode_search cfg q 10 w = (inl e0, w1) ->
        exists e, location.search cfg q w = (inl e, w1) /\ transport_error e)
  /\ (forall (lat lon : float) (w w1 : World) (fields : list (string * json))
             (r0 : json) (rest : list json),
        geocoding_client.reverse_geocode cfg lat lon w = (ok (JDict fields), w1) ->
        assoc "results" fields = Some (JList (r0 :: rest)) ->
        bad_coordinates r0 ->
        exists e, location.reverse cfg lat lon w = (inl e, w1)
                  /\ float_error e /\ ~ transport_error e)
  /\ (forall (lat lon : float) (w w1 : World) (e0 : exn),
        geocoding_client.reverse_geocode cfg lat lon w = (inl e0, w1) ->
        exists e, location.reverse cfg lat lon w = (inl e, w1) /\ transport_error e)
  /\ (forall (c : ascii) (s : string) (lat lon : option float) (w w1 : World)
             (fields : list (string * json)) (r0 : json) (rest : list json),
        geocoding_client.geocode_search cfg (String c s) 1 w
          = (ok (JDict fields), w1) ->
        assoc "results" fields = Some (JList (r0 :: rest)) ->
        bad_coordinates r0 ->
        exists e,
          weather._resolve_coordinates_and_location cfg (Some (String c s)) lat lon w
            = (inl e, w1)
          /\ float_error e /\ ~ transport_error e)
  /\ (forall (c : ascii) (s : string) (lat lon : option float) (w w1 : World)
             (e0 : exn),
        geocoding_client.geocode_search cfg (String c s) 1 w = (inl e0, w1) ->
        weather._resolve_coordinates_and_location cfg (Some (String c s)) lat lon w
          = (inl e0, w1)
        /\ transport_error e0).
Proof.
  assert (Hres : forall fields rs,
    assoc "results" fields = Some (JList rs) ->
    get_or (JDict fields) "results" (JList []) = ok (JList rs)).
  { intros fields rs E. unfold get_or. rewrite py_or_dict. simpl.
    rewrite E. by destruct rs. }
  split_and!.
  - intros q w w1 fields rs Hq Hfetch Hrs Hobj Hbad.
    rewrite (search_run _ _ _ Hq), Hfetch; cbv [ok].
    unfold location.items_of_data. rewrite (Hres _ _ Hrs). simpl.
    destruct (for_each_fails location.item_of_result rs format_error)
      as (e & -> & He).
    + eapply Forall_impl; [exact Hobj|]. intros r Hr e. by apply item_of_result_error.
    + eapply Exists_impl; [exact Hbad|]. intros r Hr.
      destruct (item_of_result_bad r Hr) as (e & He & _). by exists e.
    + exists e. split_and!; [done..|]. by apply format_not_transport.
  - intros q w w1 e0 Hq Hfetch.
    rewrite (search_run _ _ _ Hq), Hfetch; cbv [ok]. eexists. split; [done|].
    rewrite geocode_search_run in Hfetch.
    apply geocoding_fetch_error in Hfetch as [info ->]. right. by eexists _, _.
  - intros lat lon w w1 fields r0 rest Hfetch Hrs Hbad.
    rewrite reverse_run, Hfetch; cbv [ok]. rewrite (Hres _ _ Hrs). simpl.
    destruct (item_of_result_bad r0 Hbad) as (e & -> & He).
    exists e. split_and!; [done..|]. apply format_not_transport. by left.
  - intros lat lon w w1 e0 Hfetch.
    rewrite reverse_run, Hfetch; cbv [ok]. eexists. split; [done|].
    rewrite reverse_geocode_run in Hfetch.
    apply geocoding_fetch_error in Hfetch as [info ->]. right. by eexists _, _.
  - intros c s lat lon w w1 fields r0 rest Hfetch Hrs Hbad.
    rewrite resolve_by_name_run, Hfetch; cbv [ok]. rewrite (Hres _ _ Hrs). simpl.
    destruct (location_of_result_bad (String c s) r0 Hbad) as (e & -> & He).
    exists e. split_and!; [done..|]. apply format_not_transport. by left.
  - intros c s lat lon w w1 e0 Hfetch.
    rewrite resolve_by_name_run, Hfetch; cbv [ok]. split; [done|].
    rewrite geocode_search_run in Hfetch.
    apply geocoding_fetch_error in Hfetch as [info ->]. left. by eexists.
Qed.

(** C8.  When the body the fetcher returns has no [results] key or an
    empty [results] array, [search] returns the empty list of results and
    [reverse] returns an absent result, neither raising; in particular when
    the fetch misses the cache and the upstream answers with such a body. *)
Theorem empty_result_is_not_an_error {builtins : PyBuiltins} {upstream : Upstream} {pydantic : Pydantic}
    (cfg : Settings) :
  (forall (q : string) (w w1 : World) (data : json),
     not_blank q ->
     geocoding_client.geocode_search cfg q 10 w = (ok data, w1) ->
     no_results data ->
     location.search cfg q w
     = (ok {| LocationSearchResponse.results := [] |}, w1))
  /\ (forall (lat lon : float) (w w1 : World) (data : json),
        geocoding_client.reverse_geocode cfg lat lon w = (ok data, w1) ->
        no_results data ->
        location.reverse cfg lat lon w
        = (ok {| ReverseGeocodeResponse.result := None |}, w1))
  /\ (forall (q : string) (w : World) (elapsed : Q) (data : json),
        not_blank q ->
        geocoding_cache w
          !! _params_to_key "search" (geocoding_client.search_params q 10) = None ->
        respond (length (sent w))
          {| url := geocoding_client.GEOCODE_SEARCH_BASE;
             query := geocoding_client.search_params q 10 |} (clock w)
          = (elapsed, inr data) ->
        no_results data ->
        exists w1,
          location.search cfg q w
          = (ok {| LocationSearchResponse.results := [] |}, w1))
  /\ (forall (lat lon : float) (w : World) (elapsed : Q) (data : json),
        geocoding_cache w
          !! _params_to_key "reverse" (geocoding_client.reverse_params lat lon) = None ->
        respond (length (sent w))
          {| url := geocoding_client.GEOCODE_REVERSE_BASE;
             query := geocoding_client.reverse_params lat lon |} (clock w)
          = (elapsed, inr data) ->
        no_results data ->
        exists w1,
          location.reverse cfg lat lon w
          = (ok {| ReverseGeocodeResponse.result := None |}, w1)).
Proof.
  assert (Hs : forall q w w1 data,
    not_blank q ->
    geocoding_client.geocode_search cfg q 10 w = (ok data, w1) ->
    no_results data ->
    location.search cfg q w = (ok {| LocationSearchResponse.results := [] |}, w1)).
  { intros q w w1 data Hq Hfetch Hno.
    rewrite (search_run _ _ _ Hq), Hfetch; cbv [ok].
    unfold location.items_of_data. by rewrite (get_or_no_results _ Hno). }
  assert (Hr : forall lat lon w w1 data,
    geocoding_client.reverse_geocode cfg lat lon w = (ok data, w1) ->
    no_results data ->
    location.reverse cfg lat lon w
    = (ok {| ReverseGeocodeResponse.result := None |}, w1)).
  { intros lat lon w w1 data Hfetch Hno.
    rewrite reverse_run, Hfetch; cbv [ok].
    by rewrite (get_or_no_results _ Hno). }
  split_and!; [exact Hs|exact Hr|..].
  - intros q w elapsed data Hq Hk Hrsp Hno.
    destruct (geocoding_fetch_miss cfg _ _ _ _ _ _ Hk Hrsp) as [w1 Hw1].
    exists w1. apply (Hs q w w1 data); [done| |done].
    by rewrite geocode_search_run.
  - intros lat lon w elapsed data Hk Hrsp Hno.
    destruct (geocoding_fetch_miss cfg _ _ _ _ _ _ Hk Hrsp) as [w1 Hw1].
    exists w1. apply (Hr lat lon w w1 data); [|done].
    by rewrite reverse_geocode_run.
Qed.


(** ** The statements at concrete inputs *)

(** C3 at the default configuration (TTL 45): an entry stored at time 0 and
    read at time 46 is reported absent and is gone. *)
Lemma cache_get_expired_witness :
  reachable settings example_cache
  /\ example_cache !! example_key = Some (0%Q, JDict [])
  /\ (inject_Z (cache_ttl_seconds settings) < 46 - 0)%Q
  /\ store._cache_get settings 46 example_key example_cache
     = (JNone, delete example_key example_cache)
  /\ (store._cache_get settings 46 example_key example_cache).2 !! example_key
     = None.
Proof.
  assert (H1 : reachable settings example_cache)
    by (apply reachable_set, reachable_empty).
  assert (H2 : example_cache !! example_key = Some (0%Q, JDict []))
    by (unfold example_cache; rewrite cache_set_enabled by done;
        apply lookup_insert_eq).
  assert (H3 : (inject_Z (cache_ttl_seconds settings) < 46 - 0)%Q)
    by (vm_compute; reflexivity).
  split_and!; [exact H1|exact H2|exact H3|..];
    apply (cache_get_expired settings 46 0 example_key (JDict []) example_cache
             H1 H2 H3).
Defined.


(** C2 at the default configuration: a value stored at time 100 is read
    back at time 130; with caching switched off nothing is read or stored. *)
Lemma cache_roundtrip_witness :
  store._cache_get settings 130 example_key
    (store._cache_set settings 100 example_key (JInt 7) ∅)
  = (JInt 7, <[example_key := (100%Q, JInt 7)]> ∅)
  /\ store._cache_get settings_no_cache 130 example_key example_cache
     = (JNone, example_cache)
  /\ store._cache_set settings_no_cache 100 example_key (JInt 7) example_cache
     = example_cache.
Proof.
  split_and!.
  - apply (cache_roundtrip settings 100 130 example_key (JInt 7) ∅ initial_world);
      [done|vm_compute; discriminate].
  - apply (cache_roundtrip settings_no_cache 100 130 example_key (JInt 7)
             example_cache initial_world). done.
  - apply (cache_roundtrip settings_no_cache 100 130 example_key (JInt 7)
             example_cache initial_world). done.
Defined.

(** C9 at [days = 0], [days = 99], [count = -5] and [count = 50]. *)
Lemma fetchers_clamp_witness :
  assoc "forecast_days" (weather_client.forecast_params 52.52 13.405 0)
  = Some (PInt 1)
  /\ assoc "forecast_days" (weather_client.forecast_params 52.52 13.405 99)
     = Some (PInt 10)
  /\ assoc "count" (geocoding_client.search_params "Berlin" (-5)) = Some (PInt 1)
  /\ assoc "count" (geocoding_client.search_params "Berlin" 50) = Some (PInt 20).
Proof.
  split_and!.
  - apply (fetchers_clamp (upstream := null_upstream) settings 52.52 13.405 0 "Berlin" 0).
  - apply (fetchers_clamp (upstream := null_upstream) settings 52.52 13.405 99 "Berlin" 0).
  - apply (fetchers_clamp (upstream := null_upstream) settings 52.52 13.405 0 "Berlin" (-5)).
  - apply (fetchers_clamp (upstream := null_upstream) settings 52.52 13.405 0 "Berlin" 50).
Defined.

(** C10 against an upstream that answers [null]: the first fetch stores
    [None], and the second, one second later, sends a second request. *)
Lemma cached_null_is_a_miss_witness :
  weather_cache world_after_null_fetch
    !! _params_to_key "current" (weather_client.current_params 52.52 13.405)
  = Some (1%Q, JNone)
  /\ length (sent world_after_null_fetch) = 1%nat
  /\ length (sent (weather_client.get_current_weather (upstream := null_upstream) settings
                     52.52 13.405 world_after_null_fetch).2) = 2%nat.
Proof.
  assert (Hk : weather_cache world_after_null_fetch
                 !! _params_to_key "current"
                      (weather_client.current_params 52.52 13.405)
               = Some (1%Q, JNone)) by (vm_compute; reflexivity).
  split_and!; [exact Hk|reflexivity|].
  destruct (cached_null_is_a_miss (upstream := null_upstream) settings 52.52 13.405 3
              "Berlin" 10) as [[Hnull _] _].
  destruct (Hnull world_after_null_fetch 1%Q) as (w' & Hrun & Hsent & _);
    [done|exact Hk|vm_compute; discriminate|].
  rewrite Hrun. cbn [snd]. rewrite Hsent, length_app. reflexivity.
Defined.

(** C4 on a daily section with arrays of lengths 5, 5, 3 and 3. *)
Lemma forecast_truncation_witness :
  exists items,
    weather.daily_items_of (builtins := example_builtins) (JDict uneven_daily) = ok items
    /\ length items = 3%nat
    /\ DailyForecastItem.date <$> items = ["2024-05-01"; "2024-05-02"; "2024-05-03"].
Proof.
  eexists. split; [vm_compute; reflexivity|]. split; [|reflexivity].
  refine (proj1 (proj1 (proj2 (proj2
            (forecast_truncation (builtins := example_builtins) (pydantic := strict_pydantic))))
            uneven_daily _ _ _ _ _ _ _)).
  - intros name Hin. unfold daily_names in Hin.
    repeat (apply elem_of_cons in Hin as [->|Hin]; [exact I|]).
    by apply elem_of_nil in Hin.
  - reflexivity.
  - reflexivity.
  - reflexivity.
  - reflexivity.
  - vm_compute; reflexivity.
Defined.

(** C6, the scenario of the design document run through the route: the
    request by coordinates against an upstream that answers the body of
    the scenario. *)
Lemma current_weather_passthrough_witness :
  (weather.current_weather (builtins := example_builtins) (upstream := scenario_upstream)
     (pydantic := strict_pydantic) settings None (Some 52.52%float) (Some 13.405%float)
     initial_world).1
    ≫= (fun r => ok (CurrentWeatherResponse.current r))
  = ok {| CurrentWeather.temperature_c := 18.3;
          CurrentWeather.wind_speed_kph := Some 10%float;
          CurrentWeather.wind_direction_deg := Some 200%float;
          CurrentWeather.weather_code := Some 3;
          CurrentWeather.condition_text := Some "Overcast";
          CurrentWeather.condition_icon := Some "cloudy";
          CurrentWeather.observation_time_iso := Some "2024-05-01T12:00" |}.
Proof.
  assert (Hrun :
    (weather.current_weather (builtins := example_builtins) (upstream := scenario_upstream)
       (pydantic := strict_pydantic) settings None (Some 52.52%float) (Some 13.405%float)
       initial_world).1
      ≫= (fun r => ok (CurrentWeatherResponse.current r))
    = weather.current_of_data (builtins := example_builtins) (pydantic := strict_pydantic)
        scenario_current_body) by (vm_compute; reflexivity).
  rewrite Hrun.
  apply (current_weather_passthrough (builtins := example_builtins) (pydantic := strict_pydantic)).
Defined.

(** C7 against an upstream whose only match has no latitude: [search]
    raises the [TypeError] of [float(None)]; against an upstream that times
    out it raises the 502. *)
Lemma format_failure_is_distinct_witness :
  (location.search (builtins := example_builtins) (upstream := malformed_upstream)
     (pydantic := strict_pydantic) settings "Nowhere" initial_world).1 = inl TypeError
  /\ (exists e,
        (location.search (builtins := example_builtins) (upstream := malformed_upstream)
           (pydantic := strict_pydantic) settings "Nowhere" initial_world).1 = inl e
        /\ format_error e /\ ~ transport_error e)
  /\ (location.search (builtins := example_builtins) (upstream := failing_upstream)
        (pydantic := strict_pydantic) settings "Nowhere" initial_world).1
     = inl (HTTPException 502
              (Failed "Failed to search locations: " (UpstreamError "timed out"))).
Proof.
  split_and!; [vm_compute; reflexivity| |vm_compute; reflexivity].
  destruct (format_failure_is_distinct (builtins := example_builtins)
              (upstream := malformed_upstream) (pydantic := strict_pydantic) settings)
    as [Hsearch _].
  destruct (geocoding_fetch_miss (upstream := malformed_upstream) settings "search"
              geocoding_client.GEOCODE_SEARCH_BASE
              (geocoding_client.search_params "Nowhere" 10) initial_world 1%Q
              malformed_body) as [w1 Hw1]; [apply lookup_empty|reflexivity|].
  rewrite <-geocode_search_run in Hw1.
  destruct (Hsearch "Nowhere" initial_world w1
              [("results",
                JList [JDict [("id", JInt 1); ("name", JStr "Nowhere");
                              ("latitude", JNone); ("longitude", JStr "east")]])]
              [JDict [("id", JInt 1); ("name", JStr "Nowhere");
                      ("latitude", JNone); ("longitude", JStr "east")]])
    as (e & He & Hf & Ht).
  - reflexivity.
  - exact Hw1.
  - reflexivity.
  - constructor; [by eexists|constructor].
  - constructor. eexists. split; [reflexivity|]. left. by exists TypeError.
  - exists e. rewrite He. by split_and!.
Defined.

(** C8, the two scenarios of the design document: a search that matches
    nothing, and a reverse lookup over open ocean. *)
Lemma empty_result_is_not_an_error_witness :
  (location.search (builtins := example_builtins) (upstream := scenario_upstream)
     (pydantic := strict_pydantic) settings "zzzznotaplace" initial_world).1
  = ok {| LocationSearchResponse.results := [] |}
  /\ (location.reverse (builtins := example_builtins) (upstream := scenario_upstream)
        (pydantic := strict_pydantic) settings 0%float (-30)%float initial_world).1
     = ok {| ReverseGeocodeResponse.result := None |}.
Proof.
  destruct (empty_result_is_not_an_error (builtins := example_builtins)
              (upstream := scenario_upstream) (pydantic := strict_pydantic) settings)
    as (_ & _ & Hs & Hr).
  split.
  - destruct (Hs "zzzznotaplace" initial_world 1%Q (JDict [("results", JList [])]))
      as [w1 ->]; [reflexivity|vm_compute; reflexivity|reflexivity| |reflexivity].
    eexists. split; [reflexivity|]. by right.
  - destruct (Hr 0%float (-30)%float initial_world 1%Q
                (JDict [("generationtime_ms", JFloat 0.5)]))
      as [w1 ->]; [vm_compute; reflexivity|reflexivity| |reflexivity].
    eexists. split; [reflexivity|]. by left.
Defined.


(** ** Further properties of the fetchers *)

Lemma cache_get_submap (cfg : Settings) (now : Q) (key : cache_key) (c : cache) :
  (store._cache_get cfg now key c).2 ⊆ c.
Proof.
  unfold store._cache_get.
  destruct (cache_ttl_seconds cfg <=? 0); [done|].
  destruct (c !! key) as [[ts data]|]; [|done].
  destruct (Qle_bool _ _); [done|]. apply delete_subseteq.
Qed.



Lemma elapsed_none (cfg : Settings) (t : Q) :
  0 < cache_ttl_seconds cfg -> (t - t <= inject_Z (cache_ttl_seconds cfg))%Q.
Proof.
  intros Httl.
  assert (inject_Z 0 <= inject_Z (cache_ttl_seconds cfg))%Q
    by (rewrite <-Zle_Qle; lia).
  change (inject_Z 0) with 0%Q in *. lra.
Qed.

Lemma is_not_none_true (v : json) : v <> JNone -> is_not_none v = true.
Proof. by destruct v. Qed.

Section more_fetchers.
Context {upstream : Upstream} (cfg : Settings).

Lemma weather_fetch_offline (endpoint u : string) (ps : params) :
  hit_is_offline cfg (weather_fetch cfg endpoint u ps) weather_cache
    (_params_to_key endpoint ps).
Proof.
  intros w ts data Httl Hk Hdata Hle. unfold weather_fetch.
  rewrite (cache_get_fresh _ _ _ _ _ _ Httl Hk Hle).
  rewrite (is_not_none_true _ Hdata). by destruct w.
Qed.

Lemma geocoding_fetch_offline (endpoint u : string) (ps : params) :
  hit_is_offline cfg (geocoding_fetch cfg endpoint u ps) geocoding_cache
    (_params_to_key endpoint ps).
Proof.
  intros w ts data Httl Hk Hdata Hle. unfold geocoding_fetch.
  rewrite (cache_get_fresh _ _ _ _ _ _ Httl Hk Hle).
  rewrite (is_not_none_true _ Hdata). by destruct w.
Qed.

Lemma weather_fetch_again (endpoint u : string) (ps : params) :
  refetch_is_offline cfg (weather_fetch cfg endpoint u ps).
Proof.
  intros w w1 data Httl Hrun Hdata. revert Hrun. unfold weather_fetch at 1.
  destruct (store._cache_get cfg (clock w) _ (weather_cache w)) as [v c] eqn:Eget.
  destruct (is_not_none v) eqn:Ev.
  - intros [= -> <-]. unfold weather_fetch. simpl.
    unfold store._cache_get in Eget |- *.
    rewrite (proj2 (Z.leb_gt _ _) Httl) in Eget |- *.
    destruct (weather_cache w !! _) as [[ts d]|] eqn:Ek; [|by injection Eget as <- <-].
    destruct (Qle_bool (clock w - ts) _) eqn:Eq; [|by injection Eget as <- <-].
    injection Eget as <- <-. by rewrite Ek, Eq, Ev.
  - destruct (respond _ _ _) as [elapsed [info|body]]; [done|].
    intros [= -> <-]. unfold weather_fetch. simpl.
    rewrite cache_set_enabled by done.
    erewrite cache_get_fresh;
      [|done|apply lookup_insert_eq|by apply elapsed_none].
    by rewrite (is_not_none_true _ Hdata).
Qed.

Lemma geocoding_fetch_again (endpoint u : string) (ps : params) :
  refetch_is_offline cfg (geocoding_fetch cfg endpoint u ps).
Proof.
  intros w w1 data Httl Hrun Hdata. revert Hrun. unfold geocoding_fetch at 1.
  destruct (store._cache_get cfg (clock w) _ (geocoding_cache w)) as [v c] eqn:Eget.
  destruct (is_not_none v) eqn:Ev.
  - intros [= -> <-]. unfold geocoding_fetch. simpl.
    unfold store._cache_get in Eget |- *.
    rewrite (proj2 (Z.leb_gt _ _) Httl) in Eget |- *.
    destruct (geocoding_cache w !! _) as [[ts d]|] eqn:Ek; [|by injection Eget as <- <-].
    destruct (Qle_bool (clock w - ts) _) eqn:Eq; [|by injection Eget as <- <-].
    injection Eget as <- <-. by rewrite Ek, Eq, Ev.
  - destruct (respond _ _ _) as [elapsed [info|body]]; [done|].
    intros [= -> <-]. unfold geocoding_fetch. simpl.
    rewrite cache_set_enabled by done.
    erewrite cache_get_fresh;
      [|done|apply lookup_insert_eq|by apply elapsed_none].
    by rewrite (is_not_none_true _ Hdata).
Qed.

Lemma weather_fetch_failure (endpoint u : string) (ps : params) :
  failure_stores_nothing (weather_fetch cfg endpoint u ps) weather_cache
    geocoding_cache {| url := u; query := ps |}.
Proof.
  intros w w1 e. unfold weather_fetch.
  pose proof (cache_get_submap cfg (clock w) (_params_to_key endpoint ps)
                (weather_cache w)) as Hsub.
  destruct (store._cache_get _ _ _ _) as [v c].
  destruct (is_not_none v); [done|].
  destruct (respond _ _ _) as [elapsed [info|body]]; [|done].
  intros [= <- <-]. simpl. split_and!; [by exists info|done..].
Qed.

Lemma geocoding_fetch_failure (endpoint u : string) (ps : params) :
  failure_stores_nothing (geocoding_fetch cfg endpoint u ps) geocoding_cache
    weather_cache {| url := u; query := ps |}.
Proof.
  intros w w1 e. unfold geocoding_fetch.
  pose proof (cache_get_submap cfg (clock w) (_params_to_key endpoint ps)
                (geocoding_cache w)) as Hsub.
  destruct (store._cache_get _ _ _ _) as [v c].
  destruct (is_not_none v); [done|].
  destruct (respond _ _ _) as [elapsed [info|body]]; [|done].
  intros [= <- <-]. simpl. split_and!; [by exists info|done..].
Qed.

Lemma weather_fetch_uncached (endpoint u : string) (ps : params) :
  uncached_fetch cfg (weather_fetch cfg endpoint u ps) {| url := u; query := ps |}.
Proof.
  intros w Hoff. unfold weather_fetch.
  rewrite (cache_get_disabled _ _ _ _ Hoff). simpl.
  destruct (respond _ _ _) as [elapsed [info|body]]; simpl; [done|].
  by rewrite (cache_set_disabled _ _ _ _ _ Hoff).
Qed.

Lemma geocoding_fetch_uncached (endpoint u : string) (ps : params) :
  uncached_fetch cfg (geocoding_fetch cfg endpoint u ps) {| url := u; query := ps |}.
Proof.
  intros w Hoff. unfold geocoding_fetch.
  rewrite (cache_get_disabled _ _ _ _ Hoff). simpl.
  destruct (respond _ _ _) as [elapsed [info|body]]; simpl; [done|].
  by rewrite (cache_set_disabled _ _ _ _ _ Hoff).
Qed.



End more_fetchers.

(** X1.  Each fetcher that finds a value other than [None] under its key
    inside the TTL window returns that value and leaves the world exactly
    as it was: nothing is sent and neither cache changes. *)
Theorem fetch_hit_is_offline {upstream : Upstream} (cfg : Settings)
    (lat lon : float) (days : Z) (query : string) (count : Z) :
  hit_is_offline cfg (weather_client.get_current_weather cfg lat lon) weather_cache
    (_params_to_key "current" (weather_client.current_params lat lon))
  /\ hit_is_offline cfg (weather_client.get_forecast cfg lat lon days) weather_cache
       (_params_to_key "forecast" (weather_client.forecast_params lat lon days))
  /\ hit_is_offline cfg (geocoding_client.geocode_search cfg query count)
       geocoding_cache
       (_params_to_key "search" (geocoding_client.search_params query count))
  /\ hit_is_offline cfg (geocoding_client.reverse_geocode cfg lat lon)
       geocoding_cache
       (_params_to_key "reverse" (geocoding_client.reverse_params lat lon)).
Proof.
  split_and!; intros w ts data.
  - rewrite get_current_weather_run. apply weather_fetch_offline.
  - rewrite get_forecast_run. apply weather_fetch_offline.
  - rewrite geocode_search_run. apply geocoding_fetch_offline.
  - rewrite reverse_geocode_run. apply geocoding_fetch_offline.
Qed.

(** X2.  With a positive TTL, a fetcher that has just returned a body other
    than [None] returns the same body when called again at once, and that
    second call changes nothing: no second request is sent. *)
Theorem fetch_again_is_offline {upstream : Upstream} (cfg : Settings)
    (lat lon : float) (days : Z) (query : string) (count : Z) :
  refetch_is_offline cfg (weather_client.get_current_weather cfg lat lon)
  /\ refetch_is_offline cfg (weather_client.get_forecast cfg lat lon days)
  /\ refetch_is_offline cfg (geocoding_client.geocode_search cfg query count)
  /\ refetch_is_offline cfg (geocoding_client.reverse_geocode cfg lat lon).
Proof.
  split_and!; intros w w1 data.
  - rewrite !get_current_weather_run. apply weather_fetch_again.
  - rewrite !get_forecast_run. apply weather_fetch_again.
  - rewrite !geocode_search_run. apply geocoding_fetch_again.
  - rewrite !reverse_geocode_run. apply geocoding_fetch_again.
Qed.

(** X3.  A fetcher that raises has sent its request and raises the failure
    of that request; it has stored nothing (its own cache holds no entry
    it did not hold before) and has not touched the other client's
    cache. *)
Theorem fetch_failure_stores_nothing {upstream : Upstream} (cfg : Settings)
    (lat lon : float) (days : Z) (query : string) (count : Z) :
  failure_stores_nothing (weather_client.get_current_weather cfg lat lon)
    weather_cache geocoding_cache
    {| url := weather_client.WEATHER_BASE;
       query := weather_client.current_params lat lon |}
  /\ failure_stores_nothing (weather_client.get_forecast cfg lat lon days)
       weather_cache geocoding_cache
       {| url := weather_client.WEATHER_BASE;
          query := weather_client.forecast_params lat lon days |}
  /\ failure_stores_nothing (geocoding_client.geocode_search cfg query count)
       geocoding_cache weather_cache
       {| url := geocoding_client.GEOCODE_SEARCH_BASE;
          query := geocoding_client.search_params query count |}
  /\ failure_stores_nothing (geocoding_client.reverse_geocode cfg lat lon)
       geocoding_cache weather_cache
       {| url := geocoding_client.GEOCODE_REVERSE_BASE;
          query := geocoding_client.reverse_params lat lon |}.
Proof.
  split_and!; intros w w1 e.
  - rewrite get_current_weather_run. apply weather_fetch_failure.
  - rewrite get_forecast_run. apply weather_fetch_failure.
  - rewrite geocode_search_run. apply geocoding_fetch_failure.
  - rewrite reverse_geocode_run. apply geocoding_fetch_failure.
Qed.

(** X4.  With a TTL of zero or less every call of a fetcher sends its
    request and returns what the upstream yields, and both caches stay as
    they are. *)
Theorem fetch_without_cache {upstream : Upstream} (cfg : Settings)
    (lat lon : float) (days : Z) (query : string) (count : Z) :
  uncached_fetch cfg (weather_client.get_current_weather cfg lat lon)
    {| url := weather_client.WEATHER_BASE;
       query := weather_client.current_params lat lon |}
  /\ uncached_fetch cfg (weather_client.get_forecast cfg lat lon days)
       {| url := weather_client.WEATHER_BASE;
          query := weather_client.forecast_params lat lon days |}
  /\ uncached_fetch cfg (geocoding_client.geocode_search cfg query count)
       {| url := geocoding_client.GEOCODE_SEARCH_BASE;
          query := geocoding_client.search_params query count |}
  /\ uncached_fetch cfg (geocoding_client.reverse_geocode cfg lat lon)
       {| url := geocoding_client.GEOCODE_REVERSE_BASE;
          query := geocoding_client.reverse_params lat lon |}.
Proof.
  split_and!; intros w.
  - rewrite get_current_weather_run. apply weather_fetch_uncached.
  - rewrite get_forecast_run. apply weather_fetch_uncached.
  - rewrite geocode_search_run. apply geocoding_fetch_uncached.
  - rewrite reverse_geocode_run. apply geocoding_fetch_uncached.
Qed.



(** ** Further properties of the TTL cache and of the keys *)

(** X6.  Expiry is counted from the write: however often an entry is read
    in between, a read made more than TTL seconds after the [_cache_set]
    reports [None] and leaves the dictionary without the entry. *)
Theorem cache_expiry_is_absolute (cfg : Settings) (t_set t_late : Q)
    (reads : list Q) (key : cache_key) (value : json) (c : cache) :
  0 < cache_ttl_seconds cfg ->
  (inject_Z (cache_ttl_seconds cfg) < t_late - t_set)%Q ->
  store._cache_get cfg t_late key
    (after_reads cfg key reads (store._cache_set cfg t_set key value c))
  = (JNone, delete key c).
Proof.
  intros Httl Hlate. rewrite cache_set_enabled by done.
  assert (Hinv : forall c',
    c' = <[key := (t_set, value)]> c \/ c' = delete key c ->
    store._cache_get cfg t_late key (after_reads cfg key reads c')
    = (JNone, delete key c)).
  { induction reads as [|t reads IH]; intros c' Hc'; simpl.
    - destruct Hc' as [-> | ->].
      + rewrite (cache_get_stale _ _ t_set _ value); [|done|apply lookup_insert_eq|done].
        by rewrite delete_insert_eq.
      + rewrite cache_get_missing by apply lookup_delete_eq.
        done.
    - apply IH. destruct Hc' as [-> | ->].
      + unfold store._cache_get. rewrite (proj2 (Z.leb_gt _ _) Httl), lookup_insert_eq.
        destruct (Qle_bool _ _); [by left|right]. simpl. apply delete_insert_eq.
      + right. by rewrite cache_get_missing by apply lookup_delete_eq. }
  apply Hinv. by left.
Qed.

Lemma cache_expiry_is_absolute_witness :
  store._cache_get settings 50 example_key
    (after_reads settings example_key [10; 30; 44]%Q
       (store._cache_set settings 0 example_key (JInt 7) ∅))
  = (JNone, delete example_key ∅).
Proof.
  apply (cache_expiry_is_absolute settings 0 50 [10; 30; 44]%Q example_key
           (JInt 7) ∅); [done|vm_compute; reflexivity].
Defined.


Lemma sorted_eq_perm {A} (key : A -> string) (l l' : list A) :
  sorted key l = sorted key l' -> l ≡ₚ l'.
Proof.
  intros E. by rewrite <-(sorted_perm key l), E, sorted_perm.
Qed.

(** X8.  A key keeps everything the request is made of: two calls of
    [_params_to_key] give the same key only for the same endpoint and the
    same items.  So the key of a current-weather fetch is never that of a
    forecast fetch, and two search fetches share a key exactly when their
    texts and their clamped counts agree; the route [search] (count 10)
    and the resolver of the weather routes (count 1) never share one. *)
Theorem params_to_key_injective :
  (forall (e e' : string) (ps ps' : params),
     _params_to_key e ps = _params_to_key e' ps' -> e = e' /\ ps ≡ₚ ps')
  /\ (forall (lat lon lat' lon' : float) (days : Z),
        _params_to_key "current" (weather_client.current_params lat lon)
        <> _params_to_key "forecast" (weather_client.forecast_params lat' lon' days))
  /\ (forall (q q' : string) (n n' : Z),
        _params_to_key "search" (geocoding_client.search_params q n)
        = _params_to_key "search" (geocoding_client.search_params q' n')
        <-> q = q' /\ Z.max 1 (Z.min n 20) = Z.max 1 (Z.min n' 20))
  /\ (forall q q' : string,
        _params_to_key "search" (geocoding_client.search_params q 10)
        <> _params_to_key "search" (geocoding_client.search_params q' 1)).
Proof.
  assert (Hinj : forall (e e' : string) (ps ps' : params),
    _params_to_key e ps = _params_to_key e' ps' -> e = e' /\ ps ≡ₚ ps').
  { intros e e' ps ps' [= -> Hs]. split; [done|]. by eapply sorted_eq_perm. }
  assert (Hsearch : forall (q q' : string) (n n' : Z),
    _params_to_key "search" (geocoding_client.search_params q n)
    = _params_to_key "search" (geocoding_client.search_params q' n')
    <-> q = q' /\ Z.max 1 (Z.min n 20) = Z.max 1 (Z.min n' 20)).
  { intros q q' n n'. split.
    - intros [_ Hp]%Hinj. unfold geocoding_client.search_params in Hp.
      assert (Hq : ("name", PStr q) ∈ [("name", PStr q'); ("count", PInt (Z.max 1 (Z.min n' 20)))])
        by (rewrite <-Hp; left).
      assert (Hn : ("count", PInt (Z.max 1 (Z.min n 20)))
                   ∈ [("name", PStr q'); ("count", PInt (Z.max 1 (Z.min n' 20)))])
        by (rewrite <-Hp; right; left).
      apply elem_of_cons in Hq as [[= ->]|Hq]; [|by apply list_elem_of_singleton in Hq].
      apply elem_of_cons in Hn as [?|Hn]; [done|].
      apply list_elem_of_singleton in Hn as [= ->]. done.
    - intros [-> E]. unfold geocoding_client.search_params. by rewrite E. }
  split_and!; [exact Hinj| |exact Hsearch|].
  - intros lat lon lat' lon' days [? _]%Hinj. done.
  - intros q q' [_ ?]%Hsearch. done.
Qed.

(** ** Further properties of the classifier and of the weather routes *)

(** X9.  What the classifier does with codes that are not integers, as the
    routers can pass them: a float that equals a key of the table is
    classified as that key, [True] and [False] as 1 and 0, a string gets
    the text ["Code "] followed by itself and the icon ["unknown"], a list
    or a dict raises [TypeError]; and text and icon are absent together,
    exactly on [None]. *)
Theorem classifier_on_other_json {builtins : PyBuiltins} :
  (forall (f : float) (z : Z) (text icon : string),
     float_to_Z f = Some z -> weather_client.mapping !! z = Some (text, icon) ->
     weather_client._weathercode_to_text_icon (JFloat f) = ok (Some text, Some icon))
  /\ weather_client._weathercode_to_text_icon (JFloat 3)
     = ok (Some "Overcast", Some "cloudy")
  /\ weather_client._weathercode_to_text_icon (JBool true)
     = ok (Some "Mainly clear", Some "clear")
  /\ weather_client._weathercode_to_text_icon (JBool false)
     = ok (Some "Clear sky", Some "clear")
  /\ (forall s : string,
        weather_client._weathercode_to_text_icon (JStr s)
        = ok (Some ("Code " +:+ s), Some "unknown"))
  /\ (forall l, weather_client._weathercode_to_text_icon (JList l) = raise TypeError)
  /\ (forall d, weather_client._weathercode_to_text_icon (JDict d) = raise TypeError)
  /\ (forall (code : json) (text icon : option string),
        weather_client._weathercode_to_text_icon code = ok (text, icon) ->
        (text = None <-> code = JNone) /\ (icon = None <-> code = JNone)).
Proof.
  split_and!.
  - intros f z text icon Hz Hm.
    unfold weather_client._weathercode_to_text_icon, weather_client.mapping_get.
    rewrite Hz. cbn [mbind option_bind]. by rewrite Hm.
  - vm_compute. reflexivity.
  - vm_compute. reflexivity.
  - vm_compute. reflexivity.
  - reflexivity.
  - reflexivity.
  - reflexivity.
  - intros code text icon Hc.
    destruct code as [| b | z | f | s | l | d].
    + by injection Hc as <- <-.
    + unfold weather_client._weathercode_to_text_icon in Hc.
      destruct (default _ _) as [t i]. by injection Hc as <- <-.
    + unfold weather_client._weathercode_to_text_icon in Hc.
      destruct (default _ _) as [t i]. by injection Hc as <- <-.
    + unfold weather_client._weathercode_to_text_icon in Hc.
      destruct (default _ _) as [t i]. by injection Hc as <- <-.
    + unfold weather_client._weathercode_to_text_icon in Hc.
      destruct (default _ _) as [t i]. by injection Hc as <- <-.
    + discriminate Hc.
    + discriminate Hc.
Qed.

Section more_routes.
Context {builtins : PyBuiltins} {upstream : Upstream} {pydantic : Pydantic}
  (cfg : Settings).

Lemma current_weather_run (q : option string) (lat lon : option float) (w : World) :
  weather.current_weather cfg q lat lon w
  = match weather._resolve_coordinates_and_location cfg q lat lon w with
    | (inl e, w1) => (inl (as_502 "Failed to fetch current weather: " e), w1)
    | (inr (lat_v, lon_v, loc), w1) =>
        match weather_client.get_current_weather cfg lat_v lon_v w1 with
        | (inl e, w2) => (inl (as_502 "Failed to fetch current weather: " e), w2)
        | (inr data, w2) =>
            (current ← weather.current_of_data data;
             ok {| CurrentWeatherResponse.location := loc;
                   CurrentWeatherResponse.current := current |}, w2)
        end
    end.
Proof.
  unfold weather.current_weather.
  unfold mbind at 1. unfold M_bind, try_except.
  unfold mbind at 1. unfold M_bind.
  destruct (weather._resolve_coordinates_and_location cfg q lat lon w)
    as [[e|[[lat_v lon_v] loc]] w1].
  - by destruct e.
  - unfold mbind at 1. unfold M_bind.
    destruct (weather_client.get_current_weather cfg lat_v lon_v w1) as [[e|data] w2].
    + by destruct e.
    + done.
Qed.

Lemma forecast_run (q : option string) (lat lon : option float) (days : Z)
    (w : World) :
  weather.forecast cfg q lat lon days w
  = match weather._resolve_coordinates_and_location cfg q lat lon w with
    | (inl e, w1) => (inl (as_502 "Failed to fetch forecast: " e), w1)
    | (inr (lat_v, lon_v, loc), w1) =>
        match weather_client.get_forecast cfg lat_v lon_v days w1 with
        | (inl e, w2) => (inl (as_502 "Failed to fetch forecast: " e), w2)
        | (inr data, w2) =>
            (daily_raw ← get_or data "daily" (JDict []);
             hourly_raw ← get_or data "hourly" (JDict []);
             daily_items ← weather.daily_items_of daily_raw;
             hourly_items ← weather.hourly_items_of hourly_raw;
             ok {| ForecastResponse.location := loc;
                   ForecastResponse.daily := daily_items;
                   ForecastResponse.hourly := hourly_items |}, w2)
        end
    end.
Proof.
  unfold weather.forecast.
  unfold mbind at 1. unfold M_bind, try_except.
  unfold mbind at 1. unfold M_bind.
  destruct (weather._resolve_coordinates_and_location cfg q lat lon w)
    as [[e|[[lat_v lon_v] loc]] w1].
  - by destruct e.
  - unfold mbind at 1. unfold M_bind.
    destruct (weather_client.get_forecast cfg lat_v lon_v days w1) as [[e|data] w2].
    + by destruct e.
    + done.
Qed.

Lemma resolve_by_coordinates (q : option string) (la lo : float) (w : World) :
  no_text q ->
  weather._resolve_coordinates_and_location cfg q (Some la) (Some lo) w
  = (ok (la, lo, coordinates_location la lo), w).
Proof.
  intros [-> | ->]; unfold weather._resolve_coordinates_and_location;
    unfold mbind at 1; unfold M_bind; simpl; unfold lift, Location.init;
    rewrite validate_str_str; done.
Qed.

Lemma resolve_missing_input (q : option string) (lat lon : option float) (w : World) :
  no_text q -> lat = None \/ lon = None ->
  weather._resolve_coordinates_and_location cfg q lat lon w
  = (inl missing_input, w).
Proof.
  intros Hq Hc. unfold weather._resolve_coordinates_and_location.
  unfold mbind at 1. unfold M_bind.
  destruct Hq as [-> | ->]; destruct Hc as [-> | ->]; simpl; try done;
    by destruct lat.
Qed.

Lemma weather_fetch_error (endpoint u : string) (ps : params) (w w1 : World)
    (e : exn) :
  weather_fetch cfg endpoint u ps w = (inl e, w1) ->
  exists info, e = UpstreamError info.
Proof.
  unfold weather_fetch.
  destruct (store._cache_get _ _ _ _) as [v c].
  destruct (is_not_none v); [done|].
  destruct (respond _ _ _) as [elapsed [info|data]]; simpl; [|done].
  intros [= <- _]. by exists info.
Qed.

Lemma get_or_no_section (data : json) (k : string) :
  no_section data k -> get_or data k (JDict []) = ok (JDict []).
Proof.
  intros [-> | (fields & -> & [E | [E | E]])]; [done|..];
    unfold get_or; rewrite py_or_dict; cbn [py_get mbind res_bind ok];
    by rewrite E.
Qed.

End more_routes.

(** X10.  Without a text and without both coordinates the two weather
    routes raise the 400 of [_resolve_location_from_query] as it is, and
    the world is untouched: nothing is looked up and nothing is sent. *)
Theorem weather_routes_missing_input {builtins : PyBuiltins} {upstream : Upstream}
    {pydantic : Pydantic} (cfg : Settings) (q : option string)
    (lat lon : option float) (days : Z) (w : World) :
  no_text q -> lat = None \/ lon = None ->
  weather.current_weather cfg q lat lon w = (inl missing_input, w)
  /\ weather.forecast cfg q lat lon days w = (inl missing_input, w).
Proof.
  intros Hq Hc. split.
  - by rewrite current_weather_run, (resolve_missing_input _ _ _ _ _ Hq Hc).
  - by rewrite forecast_run, (resolve_missing_input _ _ _ _ _ Hq Hc).
Qed.

Lemma weather_routes_missing_input_witness :
  weather.current_weather (builtins := example_builtins)
    (upstream := scenario_upstream) (pydantic := strict_pydantic) settings
    (Some "") (Some 52.52%float) None initial_world
  = (inl missing_input, initial_world).
Proof.
  apply (weather_routes_missing_input (builtins := example_builtins)
           (upstream := scenario_upstream) (pydantic := strict_pydantic) settings
           (Some "") (Some 52.52%float) None 3 initial_world).
  - by right.
  - by right.
Defined.



(** X12.  A failure of the upstream call, in the search made by the
    resolver or in the weather fetch that follows it, reaches the caller
    of either weather route as a 502 whose detail is the route's prefix
    followed by that failure. *)
Theorem weather_routes_bad_gateway {builtins : PyBuiltins} {upstream : Upstream}
    {pydantic : Pydantic} (cfg : Settings) (days : Z) :
  (forall (c : ascii) (s : string) (lat lon : option float) (w w1 : World) (e : exn),
     geocoding_client.geocode_search cfg (String c s) 1 w = (inl e, w1) ->
     (exists info, e = UpstreamError info)
     /\ weather.current_weather cfg (Some (String c s)) lat lon w
        = (inl (HTTPException 502 (Failed "Failed to fetch current weather: " e)), w1)
     /\ weather.forecast cfg (Some (String c s)) lat lon days w
        = (inl (HTTPException 502 (Failed "Failed to fetch forecast: " e)), w1))
  /\ (forall (q : option string) (lat lon : option float) (w w1 w2 : World)
             (lat_v lon_v : float) (loc : Location.t) (e : exn),
        weather._resolve_coordinates_and_location cfg q lat lon w
          = (ok (lat_v, lon_v, loc), w1) ->
        weather_client.get_current_weather cfg lat_v lon_v w1 = (inl e, w2) ->
        (exists info, e = UpstreamError info)
        /\ weather.current_weather cfg q lat lon w
           = (inl (HTTPException 502 (Failed "Failed to fetch current weather: " e)),
              w2))
  /\ (forall (q : option string) (lat lon : option float) (w w1 w2 : World)
             (lat_v lon_v : float) (loc : Location.t) (e : exn),
        weather._resolve_coordinates_and_location cfg q lat lon w
          = (ok (lat_v, lon_v, loc), w1) ->
        weather_client.get_forecast cfg lat_v lon_v days w1 = (inl e, w2) ->
        (exists info, e = UpstreamError info)
        /\ weather.forecast cfg q lat lon days w
           = (inl (HTTPException 502 (Failed "Failed to fetch forecast: " e)), w2)).
Proof.
  split_and!.
  - intros c s lat lon w w1 e Hfetch.
    assert (Hres :
      weather._resolve_coordinates_and_location cfg (Some (String c s)) lat lon w
      = (inl e, w1)) by (by rewrite resolve_by_name_run, Hfetch).
    rewrite geocode_search_run in Hfetch.
    apply geocoding_fetch_error in Hfetch as [info ->].
    split_and!; [by eexists|..].
    + by rewrite current_weather_run, Hres.
    + by rewrite forecast_run, Hres.
  - intros q lat lon w w1 w2 lat_v lon_v loc e Hres Hfetch.
    rewrite current_weather_run, Hres. cbv [ok]. rewrite Hfetch.
    rewrite get_current_weather_run in Hfetch.
    apply weather_fetch_error in Hfetch as [info ->]. split; [by eexists|done].
  - intros q lat lon w w1 w2 lat_v lon_v loc e Hres Hfetch.
    rewrite forecast_run, Hres. cbv [ok]. rewrite Hfetch.
    rewrite get_forecast_run in Hfetch.
    apply weather_fetch_error in Hfetch as [info ->]. split; [by eexists|done].
Qed.

(** X13.  Bare coordinates are resolved without the upstream: with no text
    and both coordinates the resolver returns them with a [Location] named
    by their [.4f] renderings, no country and no state, and the world is
    untouched.  A text takes precedence: with a non-empty text the
    coordinates given beside it play no part. *)
Theorem resolve_coordinates_offline {builtins : PyBuiltins} {upstream : Upstream}
    {pydantic : Pydantic} (cfg : Settings) (w : World) :
  (forall (q : option string) (la lo : float),
     no_text q ->
     weather._resolve_coordinates_and_location cfg q (Some la) (Some lo) w
     = (ok (la, lo, coordinates_location la lo), w))
  /\ (forall (c : ascii) (s : string) (lat lon : option float),
        weather._resolve_coordinates_and_location cfg (Some (String c s)) lat lon w
        = weather._resolve_coordinates_and_location cfg (Some (String c s))
            None None w).
Proof.
  split.
  - intros q la lo Hq. by apply resolve_by_coordinates.
  - intros c s lat lon. by rewrite !resolve_by_name_run.
Qed.

(** ** Further properties of normalisation and of the location routes *)

Section more_normalisation.
Context {builtins : PyBuiltins} {upstream : Upstream} {pydantic : Pydantic}
  (cfg : Settings).

Lemma validate_text_or_null (v : json) :
  text_or_null v -> validate_optional validate_str v = Some (text_of v).
Proof.
  intros [-> | [s ->]]; [done|]. simpl. by rewrite validate_str_str.
Qed.

Lemma py_or_text_or_null (a b : json) :
  text_or_null a -> text_or_null b -> text_or_null (py_or a b).
Proof. intros Ha Hb. unfold py_or. by destruct (truthy a). Qed.

(** The record [item_of_result] builds from an object with float
    coordinates, spelled out. *)
Lemma item_of_result_run (fields : list (string * json)) (la lo : float) :
  assoc "latitude" fields = Some (JFloat la) ->
  assoc "longitude" fields = Some (JFloat lo) ->
  location.item_of_result (JDict fields)
  = LocationSearchItem.init
      (if is_not_none (default JNone (assoc "id" fields))
       then Some (py_str (default JNone (assoc "id" fields))) else None)
      (py_or (default JNone (assoc "name" fields)) (JStr ""))
      (default JNone (assoc "country" fields))
      (py_or (default JNone (assoc "admin1" fields))
             (default JNone (assoc "admin2" fields)))
      {| Coordinates.lat := la; Coordinates.lon := lo |}.
Proof.
  intros Hla Hlo. unfold location.item_of_result.
  cbn [py_get mbind res_bind ok]. rewrite Hla, Hlo.
  reflexivity.
Qed.

Lemma location_of_result_run (name_q : string) (fields : list (string * json))
    (la lo : float) :
  assoc "latitude" fields = Some (JFloat la) ->
  assoc "longitude" fields = Some (JFloat lo) ->
  weather.location_of_result name_q (JDict fields)
  = (loc ← Location.init
             (py_or (default JNone (assoc "name" fields)) (JStr name_q))
             (default JNone (assoc "country" fields))
             (py_or (default JNone (assoc "admin1" fields))
                    (default JNone (assoc "admin2" fields)))
             {| Coordinates.lat := la; Coordinates.lon := lo |};
     ok (la, lo, loc)).
Proof.
  intros Hla Hlo. unfold weather.location_of_result.
  cbn [py_get mbind res_bind ok]. rewrite Hla, Hlo.
  reflexivity.
Qed.

Lemma lstrip_nil (cs : list ascii) : lstrip cs = [] <-> Forall py_isspace cs.
Proof.
  induction cs as [|c cs IH]; simpl; [by split; [constructor|]|].
  destruct (py_isspace c) eqn:E.
  - rewrite IH. split; [by constructor; [rewrite E|]|by intros [_ ?]%Forall_cons].
  - split; [done|]. intros [Hc _]%Forall_cons. by rewrite E in Hc.
Qed.

Lemma lstrip_suffix (cs : list ascii) : exists pre, cs = pre ++ lstrip cs.
Proof.
  induction cs as [|c cs [pre IH]]; simpl; [by exists []|].
  destruct (py_isspace c); [|by exists []].
  exists (c :: pre). simpl. by f_equal.
Qed.

Lemma lstrip_head (cs : list ascii) (c : ascii) (cs' : list ascii) :
  lstrip cs = c :: cs' -> py_isspace c = false.
Proof.
  induction cs as [|c0 cs IH]; simpl; [done|].
  destruct (py_isspace c0) eqn:E; [done|]. by intros [= <- _].
Qed.

Lemma string_of_list_nil (cs : list ascii) :
  String.string_of_list_ascii cs = "" -> cs = [].
Proof. by destruct cs. Qed.

Lemma py_strip_empty (q : string) : py_strip q = "" <-> Forall py_isspace (chars q).
Proof.
  unfold py_strip, chars. set (cs := String.list_ascii_of_string q). split.
  - intros H%string_of_list_nil.
    apply (f_equal (@rev ascii)) in H. rewrite rev_involutive in H. simpl in H.
    apply lstrip_nil in H. apply Forall_rev in H. rewrite rev_involutive in H.
    destruct (lstrip cs) as [|c cs'] eqn:E; [by apply lstrip_nil|].
    apply lstrip_head in E. apply Forall_cons in H as [Hc _]. by rewrite E in Hc.
  - intros H. by rewrite (proj2 (lstrip_nil cs) H).
Qed.

End more_normalisation.


(** X15.  A forecast body without a daily and without an hourly section is
    not an error: the route [forecast] returns the resolved location with
    two empty series. *)
Theorem forecast_without_sections {builtins : PyBuiltins} {upstream : Upstream}
    {pydantic : Pydantic} (cfg : Settings) (q : option string)
    (lat lon : option float) (days : Z) (w w1 w2 : World) (lat_v lon_v : float)
    (loc : Location.t) (data : json) :
  weather._resolve_coordinates_and_location cfg q lat lon w
    = (ok (lat_v, lon_v, loc), w1) ->
  weather_client.get_forecast cfg lat_v lon_v days w1 = (ok data, w2) ->
  no_section data "daily" -> no_section data "hourly" ->
  weather.forecast cfg q lat lon days w
  = (ok {| ForecastResponse.location := loc;
           ForecastResponse.daily := [];
           ForecastResponse.hourly := [] |}, w2).
Proof.
  intros Hres Hfetch Hd Hh.
  rewrite forecast_run, Hres. cbv [ok]. rewrite Hfetch. cbv [ok].
  rewrite (get_or_no_section _ _ Hd), (get_or_no_section _ _ Hh).
  reflexivity.
Qed.

Section more_location.
Context {builtins : PyBuiltins} {upstream : Upstream} {pydantic : Pydantic}
  (cfg : Settings).

Lemma weather_fetch_miss (endpoint u : string) (ps : params) (w : World)
    (elapsed : Q) (data : json) :
  weather_cache w !! _params_to_key endpoint ps = None ->
  respond (length (sent w)) {| url := u; query := ps |} (clock w)
    = (elapsed, inr data) ->
  exists w1, weather_fetch cfg endpoint u ps w = (ok data, w1).
Proof.
  intros Hk Hr. unfold weather_fetch.
  rewrite (cache_get_missing _ _ _ _ Hk). simpl. rewrite Hr. by eexists.
Qed.

Lemma py_or_name (nm : json) :
  text_or_null nm -> py_or nm (JStr "") = JStr (default "" (text_of nm)).
Proof. intros [-> | [s ->]]; [done|]. by destruct s. Qed.

Lemma item_of_result_well_formed (r : json) :
  well_formed_result r -> exists item, location.item_of_result r = ok item.
Proof.
  intros (fields & -> & [la Hla] & [lo Hlo] & _ & Hn & Hc & H1 & H2).
  rewrite (item_of_result_run _ _ _ Hla Hlo). unfold LocationSearchItem.init.
  rewrite (py_or_name _ Hn), validate_str_str.
  rewrite (validate_text_or_null _ Hc).
  rewrite (validate_text_or_null (py_or _ _)) by by apply py_or_text_or_null.
  by eexists.
Qed.

Lemma search_results_run (q : string) (w w1 : World)
    (fields : list (string * json)) (rs : list json) :
  not_blank q ->
  geocoding_client.geocode_search cfg q 10 w = (ok (JDict fields), w1) ->
  assoc "results" fields = Some (JList rs) ->
  location.search cfg q w
  = (items ← for_each location.item_of_result rs;
     ok {| LocationSearchResponse.results := items |}, w1).
Proof.
  intros Hq Hfetch Hrs. rewrite (search_run _ _ _ Hq), Hfetch. cbv [ok].
  unfold location.items_of_data, get_or. rewrite py_or_dict.
  cbn [py_get mbind res_bind ok]. rewrite Hrs. by destruct rs.
Qed.

End more_location.

(** X16.  The route [search] refuses a text that is empty or made of white
    space only with its 400, leaving the world untouched (nothing is
    looked up, nothing is sent); every other text passes the test. *)
Theorem search_requires_text {builtins : PyBuiltins} {upstream : Upstream}
    {pydantic : Pydantic} (cfg : Settings) (q : string) (w : World) :
  (Forall py_isspace (chars q) ->
     location.search cfg q w = (inl query_required, w))
  /\ (~ Forall py_isspace (chars q) -> not_blank q).
Proof.
  split.
  - intros Hb. unfold location.search.
    rewrite (proj2 (py_strip_empty q) Hb). by rewrite orb_true_r.
  - intros Hnb. unfold not_blank. apply orb_false_intro.
    + destruct q; [|done]. destruct Hnb. constructor.
    + apply String.eqb_neq. by intros E%py_strip_empty.
Qed.

Lemma search_requires_text_witness :
  location.search (builtins := example_builtins) (upstream := scenario_upstream)
    (pydantic := strict_pydantic) settings "   " initial_world
  = (inl query_required, initial_world).
Proof.
  apply (search_requires_text (builtins := example_builtins)
           (upstream := scenario_upstream) (pydantic := strict_pydantic) settings
           "   " initial_world).
  repeat constructor.
Defined.

(** X17.  What [item_of_result] makes of an object with float coordinates
    and texts (or nothing) for its name, country and areas: the
    coordinates as they are, the name or the empty text, the country, as
    state the first administrative area unless it is absent or empty and
    the second otherwise, and as identifier the text [str(id)] (the decimal
    numeral of an integer) unless the id is absent. *)
Theorem item_of_result_fields {builtins : PyBuiltins} {pydantic : Pydantic}
    (fields : list (string * json)) (la lo : float) :
  assoc "latitude" fields = Some (JFloat la) ->
  assoc "longitude" fields = Some (JFloat lo) ->
  text_or_null (default JNone (assoc "name" fields)) ->
  text_or_null (default JNone (assoc "country" fields)) ->
  text_or_null (default JNone (assoc "admin1" fields)) ->
  text_or_null (default JNone (assoc "admin2" fields)) ->
  exists item,
    location.item_of_result (JDict fields) = ok item
    /\ LocationSearchItem.coordinates item
       = {| Coordinates.lat := la; Coordinates.lon := lo |}
    /\ LocationSearchItem.name item
       = default "" (text_of (default JNone (assoc "name" fields)))
    /\ LocationSearchItem.country item
       = text_of (default JNone (assoc "country" fields))
    /\ LocationSearchItem.state item
       = (if truthy (default JNone (assoc "admin1" fields))
          then text_of (default JNone (assoc "admin1" fields))
          else text_of (default JNone (assoc "admin2" fields)))
    /\ (default JNone (assoc "id" fields) = JNone -> LocationSearchItem.id item = None)
    /\ (forall z, assoc "id" fields = Some (JInt z) ->
          LocationSearchItem.id item = Some (pretty z))
    /\ (forall s, assoc "id" fields = Some (JStr s) ->
          LocationSearchItem.id item = Some s).
Proof.
  intros Hla Hlo Hn Hc H1 H2.
  rewrite (item_of_result_run _ _ _ Hla Hlo). unfold LocationSearchItem.init.
  rewrite (py_or_name _ Hn), validate_str_str.
  rewrite (validate_text_or_null _ Hc).
  rewrite (validate_text_or_null (py_or _ _)) by by apply py_or_text_or_null.
  eexists. split; [reflexivity|]. cbn. split_and!.
  - done.
  - done.
  - done.
  - unfold py_or. by destruct (truthy _).
  - by intros ->.
  - by intros z ->.
  - by intros s ->.
Qed.

Lemma forecast_without_sections_witness :
  (weather.forecast (builtins := example_builtins) (upstream := scenario_upstream)
     (pydantic := strict_pydantic) settings None (Some 52.52%float)
     (Some 13.405%float) 3 initial_world).1
  = ok {| ForecastResponse.location :=
            coordinates_location (builtins := example_builtins) 52.52 13.405;
          ForecastResponse.daily := [];
          ForecastResponse.hourly := [] |}.
Proof.
  destruct (weather_fetch_miss (upstream := scenario_upstream) settings "forecast"
              weather_client.WEATHER_BASE
              (weather_client.forecast_params 52.52 13.405 3) initial_world 1%Q
              scenario_current_body) as [w2 Hw2];
    [apply lookup_empty|reflexivity|].
  rewrite <-get_forecast_run in Hw2.
  rewrite (forecast_without_sections (builtins := example_builtins)
             (upstream := scenario_upstream) (pydantic := strict_pydantic) settings
             None (Some 52.52%float) (Some 13.405%float) 3 initial_world
             initial_world w2 52.52 13.405
             (coordinates_location (builtins := example_builtins) 52.52 13.405)
             scenario_current_body).
  - reflexivity.
  - apply resolve_by_coordinates. by left.
  - exact Hw2.
  - right. eexists. split; [reflexivity|]. by left.
  - right. eexists. split; [reflexivity|]. by left.
Defined.

Lemma item_of_result_fields_witness :
  exists item,
    location.item_of_result (builtins := example_builtins)
      (pydantic := strict_pydantic) example_result = ok item
    /\ LocationSearchItem.name item = "Berlin"
    /\ LocationSearchItem.state item = Some "Berlin"
    /\ LocationSearchItem.id item = Some "2950159".
Proof.
  destruct (item_of_result_fields (builtins := example_builtins)
              (pydantic := strict_pydantic)
              [("id", JInt 2950159); ("name", JStr "Berlin");
               ("latitude", JFloat 52.52); ("longitude", JFloat 13.41);
               ("country", JStr "Germany"); ("admin1", JStr "Berlin")]
              52.52 13.41)
    as (item & Hrun & _ & Hname & _ & Hstate & _ & Hid & _).
  - reflexivity.
  - reflexivity.
  - right. by eexists.
  - right. by eexists.
  - right. by eexists.
  - by left.
  - exists item. split; [exact Hrun|]. split; [exact Hname|].
    split; [exact Hstate|]. exact (Hid 2950159 eq_refl).
Defined.

(** X18.  The route [search] keeps every result of the upstream body, in
    its order: when the items are well formed it returns as many items as
    the body has results, the i-th being what [item_of_result] makes of
    the i-th result; nothing is filtered, merged or reordered. *)
Theorem search_keeps_every_result {builtins : PyBuiltins} {upstream : Upstream}
    {pydantic : Pydantic} (cfg : Settings) (q : string) (w w1 : World)
    (fields : list (string * json)) (rs : list json) :
  not_blank q ->
  geocoding_client.geocode_search cfg q 10 w = (ok (JDict fields), w1) ->
  assoc "results" fields = Some (JList rs) ->
  Forall well_formed_result rs ->
  exists items,
    location.search cfg q w = (ok {| LocationSearchResponse.results := items |}, w1)
    /\ length items = length rs
    /\ (forall (i : nat) (r : json), rs !! i = Some r ->
          exists item, items !! i = Some item
                       /\ location.item_of_result r = ok item).
Proof.
  intros Hq Hfetch Hrs Hwf.
  rewrite (search_results_run _ _ _ _ _ _ Hq Hfetch Hrs).
  destruct (for_each_total location.item_of_result rs) as [items Hitems].
  { eapply Forall_impl; [exact Hwf|]. apply item_of_result_well_formed. }
  exists items. rewrite Hitems. split; [done|].
  pose proof (for_each_length _ _ _ Hitems) as Hlen. split; [done|].
  intros i r Hi.
  destruct (lookup_lt_is_Some_2 items i) as [item Hitem].
  { rewrite Hlen. by eapply lookup_lt_Some. }
  destruct (for_each_lookup _ _ _ _ _ Hitems Hitem) as (r' & Hr' & Hrun).
  exists item. split; [done|]. rewrite Hi in Hr'. injection Hr' as <-. exact Hrun.
Qed.

Lemma search_keeps_every_result_witness :
  exists (items : list LocationSearchItem.t) (w1 : World),
    location.search (builtins := example_builtins) (upstream := listing_upstream)
      (pydantic := strict_pydantic) settings "Berlin" initial_world
    = (ok {| LocationSearchResponse.results := items |}, w1)
    /\ length items = 2%nat.
Proof.
  destruct (geocoding_fetch_miss (upstream := listing_upstream) settings "search"
              geocoding_client.GEOCODE_SEARCH_BASE
              (geocoding_client.search_params "Berlin" 10) initial_world 1%Q
              (JDict [("results", JList [example_result; example_result])]))
    as [w1 Hw1]; [apply lookup_empty|reflexivity|].
  rewrite <-geocode_search_run in Hw1.
  destruct (search_keeps_every_result (builtins := example_builtins)
              (upstream := listing_upstream) (pydantic := strict_pydantic)
              settings "Berlin" initial_world w1
              [("results", JList [example_result; example_result])]
              [example_result; example_result])
    as (items & Hrun & Hlen & _).
  - reflexivity.
  - exact Hw1.
  - reflexivity.
  - assert (Hwf : well_formed_result example_result).
    { eexists. split; [reflexivity|].
      split_and!; [by eexists|by eexists|right; left; by eexists
                  |right; by eexists|right; by eexists|right; by eexists|by left]. }
    by repeat constructor.
  - by exists items, w1.
Defined.

(** X19.  Only the first result counts where one place is wanted: on a body
    whose [results] is a non-empty array, the route [reverse] answers what
    [item_of_result] makes of the first element, and the resolver of the
    weather routes what [location_of_result] makes of it; the other
    elements are never looked at, whatever they are. *)
Theorem only_first_result_is_used {builtins : PyBuiltins} {upstream : Upstream}
    {pydantic : Pydantic} (cfg : Settings) (fields : list (string * json))
    (r : json) (rs : list json) :
  assoc "results" fields = Some (JList (r :: rs)) ->
  (forall (lat lon : float) (w w1 : World),
     geocoding_client.reverse_geocode cfg lat lon w = (ok (JDict fields), w1) ->
     location.reverse cfg lat lon w
     = (item ← location.item_of_result r;
        ok {| ReverseGeocodeResponse.result := Some item |}, w1))
  /\ (forall (c : ascii) (s : string) (lat lon : option float) (w w1 : World),
        geocoding_client.geocode_search cfg (String c s) 1 w
          = (ok (JDict fields), w1) ->
        weather._resolve_coordinates_and_location cfg (Some (String c s)) lat lon w
        = (weather.location_of_result (String c s) r, w1)).
Proof.
  intros Hrs.
  assert (Hget : get_or (JDict fields) "results" (JList []) = ok (JList (r :: rs))).
  { unfold get_or. rewrite py_or_dict. cbn [py_get mbind res_bind ok].
    by rewrite Hrs. }
  split.
  - intros lat lon w w1 Hfetch. rewrite reverse_run, Hfetch. cbv [ok].
    by rewrite Hget.
  - intros c s lat lon w w1 Hfetch. rewrite resolve_by_name_run, Hfetch. cbv [ok].
    by rewrite Hget.
Qed.

Lemma only_first_result_is_used_witness :
  (location.reverse (builtins := example_builtins) (upstream := listing_upstream)
     (pydantic := strict_pydantic) settings 52.52 13.41 initial_world).1
  = (item ← location.item_of_result (builtins := example_builtins)
               (pydantic := strict_pydantic) example_result;
     ok {| ReverseGeocodeResponse.result := Some item |}).
Proof.
  destruct (geocoding_fetch_miss (upstream := listing_upstream) settings "reverse"
              geocoding_client.GEOCODE_REVERSE_BASE
              (geocoding_client.reverse_params 52.52 13.41) initial_world 1%Q
              (JDict [("results", JList [example_result; example_result])]))
    as [w1 Hw1]; [apply lookup_empty|reflexivity|].
  rewrite <-reverse_geocode_run in Hw1.
  destruct (only_first_result_is_used (builtins := example_builtins)
              (upstream := listing_upstream) (pydantic := strict_pydantic) settings
              [("results", JList [example_result; example_result])]
              example_result [example_result] eq_refl) as [Hrev _].
  by rewrite (Hrev 52.52%float 13.41%float initial_world w1 Hw1).
Defined.

(** X20.  What the resolver of the weather routes makes of a result with
    float coordinates and texts (or nothing) for its name, country and
    areas: the coordinates of the result, which are also the ones the
    weather is fetched for, the name of the result or, when it has none,
    the text of the query, the country, and as state the first
    administrative area unless it is absent or empty. *)
Theorem resolved_location_fields {builtins : PyBuiltins} {pydantic : Pydantic}
    (name_q : string) (fields : list (string * json)) (la lo : float) :
  assoc "latitude" fields = Some (JFloat la) ->
  assoc "longitude" fields = Some (JFloat lo) ->
  text_or_null (default JNone (assoc "name" fields)) ->
  text_or_null (default JNone (assoc "country" fields)) ->
  text_or_null (default JNone (assoc "admin1" fields)) ->
  text_or_null (default JNone (assoc "admin2" fields)) ->
  weather.location_of_result name_q (JDict fields)
  = ok (la, lo,
        {| Location.name := name_or_query (default JNone (assoc "name" fields)) name_q;
           Location.country := text_of (default JNone (assoc "country" fields));
           Location.state :=
             (if truthy (default JNone (assoc "admin1" fields))
              then text_of (default JNone (assoc "admin1" fields))
              else text_of (default JNone (assoc "admin2" fields)));
           Location.coordinates :=
             {| Coordinates.lat := la; Coordinates.lon := lo |} |}).
Proof.
  intros Hla Hlo Hn Hc H1 H2.
  rewrite (location_of_result_run _ _ _ _ Hla Hlo). unfold Location.init.
  assert (Hname : py_or (default JNone (assoc "name" fields)) (JStr name_q)
                  = JStr (name_or_query (default JNone (assoc "name" fields)) name_q)).
  { destruct Hn as [-> | [s ->]]; [done|]. by destruct s. }
  rewrite Hname, validate_str_str.
  rewrite (validate_text_or_null _ Hc).
  rewrite (validate_text_or_null (py_or _ _)) by by apply py_or_text_or_null.
  cbn. unfold py_or. by destruct (truthy _).
Qed.

Lemma resolved_location_fields_witness :
  weather.location_of_result (builtins := example_builtins)
    (pydantic := strict_pydantic) "berlin"
    (JDict [("latitude", JFloat 52.52); ("longitude", JFloat 13.41);
            ("name", JStr ""); ("admin2", JStr "Mitte")])
  = ok (52.52%float, 13.41%float,
        {| Location.name := "berlin";
           Location.country := None;
           Location.state := Some "Mitte";
           Location.coordinates :=
             {| Coordinates.lat := 52.52; Coordinates.lon := 13.41 |} |}).
Proof.
  apply (resolved_location_fields (builtins := example_builtins)
           (pydantic := strict_pydantic) "berlin"
           [("latitude", JFloat 52.52); ("longitude", JFloat 13.41);
            ("name", JStr ""); ("admin2", JStr "Mitte")] 52.52 13.41).
  - reflexivity.
  - reflexivity.
  - right. by eexists.
  - by left.
  - by left.
  - right. by eexists.
Defined.

Section more_traffic.
Context {builtins : PyBuiltins} {upstream : Upstream} {pydantic : Pydantic}
  (cfg : Settings).

Lemma current_of_data_none : weather.current_of_data JNone = raise ValidationError.
Proof.
  unfold weather.current_of_data. cbn.
  unfold CurrentWeather.init. by rewrite validate_float_none.
Qed.

Lemma sends_within_none {A} (route : M A) (w : World) (rqs : list Request) :
  sent (route w).2 = sent w -> sends_within route w rqs.
Proof.
  intros E. exists []. rewrite app_nil_r. split; [done|]. apply sublist_nil_l.
Qed.

Lemma sends_within_one {A} (route : M A) (w : World) (rq : Request) :
  sent (route w).2 = sent w \/ sent (route w).2 = sent w ++ [rq] ->
  sends_within route w [rq].
Proof.
  intros [E|E]; [by apply sends_within_none|]. by exists [rq].
Qed.

Lemma search_sent (q : string) (w : World) :
  sent (location.search cfg q w).2 = sent w
  \/ sent (location.search cfg q w).2 = sent w ++ [search_request q 10].
Proof.
  destruct (String.eqb q "" || String.eqb (py_strip q) "") eqn:Eq.
  - left. unfold location.search. by rewrite Eq.
  - rewrite (search_run _ _ _ Eq).
    pose proof (geocoding_fetch_sends cfg "search"
                  geocoding_client.GEOCODE_SEARCH_BASE
                  (geocoding_client.search_params q 10) w) as Hs.
    rewrite <-geocode_search_run in Hs.
    by destruct (geocoding_client.geocode_search cfg q 10 w) as [[e|data] w1].
Qed.

Lemma reverse_sent (la lo : float) (w : World) :
  sent (location.reverse cfg la lo w).2 = sent w
  \/ sent (location.reverse cfg la lo w).2 = sent w ++ [reverse_request la lo].
Proof.
  rewrite reverse_run.
  pose proof (geocoding_fetch_sends cfg "reverse"
                geocoding_client.GEOCODE_REVERSE_BASE
                (geocoding_client.reverse_params la lo) w) as Hs.
  rewrite <-reverse_geocode_run in Hs.
  by destruct (geocoding_client.reverse_geocode cfg la lo w) as [[e|data] w1].
Qed.

Lemma resolve_sent (q : option string) (lat lon : option float) (w : World) :
  sent (weather._resolve_coordinates_and_location cfg q lat lon w).2 = sent w
  \/ sent (weather._resolve_coordinates_and_location cfg q lat lon w).2
     = sent w ++ [search_request (default "" q) 1].
Proof.
  destruct q as [[|c s]|].
  - left. destruct lat as [la|], lon as [lo|];
      [by rewrite resolve_by_coordinates by by right
      |rewrite resolve_missing_input; [done|by right|by right]
      |rewrite resolve_missing_input; [done|by right|by left]
      |rewrite resolve_missing_input; [done|by right|by left]].
  - rewrite resolve_by_name_run.
    pose proof (geocoding_fetch_sends cfg "search"
                  geocoding_client.GEOCODE_SEARCH_BASE
                  (geocoding_client.search_params (String c s) 1) w) as Hs.
    rewrite <-geocode_search_run in Hs.
    by destruct (geocoding_client.geocode_search cfg (String c s) 1 w)
      as [[e|data] w1].
  - left. destruct lat as [la|], lon as [lo|];
      [by rewrite resolve_by_coordinates by by left
      |rewrite resolve_missing_input; [done|by left|by right]
      |rewrite resolve_missing_input; [done|by left|by left]
      |rewrite resolve_missing_input; [done|by left|by left]].
Qed.

(** A weather route sends what its resolver sends and then what its fetcher
    sends. *)
Lemma weather_route_sent {A} (route : M A) (fetch : float -> float -> M json)
    (rq : float -> float -> Request) (q : option string) (lat lon : option float)
    (w : World) :
  (forall la lo w1, sent (fetch la lo w1).2 = sent w1
                    \/ sent (fetch la lo w1).2 = sent w1 ++ [rq la lo]) ->
  match weather._resolve_coordinates_and_location cfg q lat lon w with
  | (inl _, w1) => sent (route w).2 = sent w1
  | (inr (la, lo, _), w1) => sent (route w).2 = sent (fetch la lo w1).2
  end ->
  (exists la lo, sends_within route w [search_request (default "" q) 1; rq la lo])
  /\ (forall la lo, no_text q -> lat = Some la -> lon = Some lo ->
        sends_within route w [rq la lo]).
Proof.
  intros Hfetch Hroute. split.
  - destruct (resolve_sent q lat lon w) as [Hs|Hs];
      destruct (weather._resolve_coordinates_and_location cfg q lat lon w)
        as [[e|[[la lo] loc]] w1]; cbn [snd] in Hs.
    + exists 0%float, 0%float. apply sends_within_none. by rewrite Hroute.
    + exists la, lo. destruct (Hfetch la lo w1) as [E|E].
      * apply sends_within_none. by rewrite Hroute, E, Hs.
      * exists [rq la lo]. rewrite Hroute, E, Hs. split; [done|].
        apply sublist_cons. reflexivity.
    + exists 0%float, 0%float. eexists. rewrite Hroute, Hs. split; [done|].
      apply sublist_skip, sublist_nil_l.
    + exists la, lo. destruct (Hfetch la lo w1) as [E|E].
      * eexists. rewrite Hroute, E, Hs. split; [done|].
        apply sublist_skip, sublist_nil_l.
      * eexists. rewrite Hroute, E, Hs, <-app_assoc. split; [done|]. reflexivity.
  - intros la lo Hq -> ->. rewrite (resolve_by_coordinates _ _ _ _ _ Hq) in Hroute.
    apply sends_within_one.
    destruct (Hfetch la lo w) as [E|E]; [left|right]; by rewrite Hroute, E.
Qed.

Lemma current_weather_sent (q : option string) (lat lon : option float) (w : World) :
  match weather._resolve_coordinates_and_location cfg q lat lon w with
  | (inl _, w1) => sent (weather.current_weather cfg q lat lon w).2 = sent w1
  | (inr (la, lo, _), w1) =>
      sent (weather.current_weather cfg q lat lon w).2
      = sent (weather_client.get_current_weather cfg la lo w1).2
  end.
Proof.
  rewrite current_weather_run.
  destruct (weather._resolve_coordinates_and_location cfg q lat lon w)
    as [[e|[[la lo] loc]] w1]; [done|].
  by destruct (weather_client.get_current_weather cfg la lo w1) as [[e|data] w2].
Qed.

Lemma forecast_sent (q : option string) (lat lon : option float) (days : Z)
    (w : World) :
  match weather._resolve_coordinates_and_location cfg q lat lon w with
  | (inl _, w1) => sent (weather.forecast cfg q lat lon days w).2 = sent w1
  | (inr (la, lo, _), w1) =>
      sent (weather.forecast cfg q lat lon days w).2
      = sent (weather_client.get_forecast cfg la lo days w1).2
  end.
Proof.
  rewrite forecast_run.
  destruct (weather._resolve_coordinates_and_location cfg q lat lon w)
    as [[e|[[la lo] loc]] w1]; [done|].
  by destruct (weather_client.get_forecast cfg la lo days w1) as [[e|data] w2].
Qed.

End more_traffic.

(** X21.  A route run again in the world its first run left answers from
    the cache: a successful [current_weather] by coordinates, repeated,
    returns the same response and changes nothing; so do [forecast],
    [search] and [reverse] whenever the body their fetcher returned was not
    [null] (a [null] body is fetched again). *)
Theorem routes_replay_from_cache {builtins : PyBuiltins} {upstream : Upstream}
    {pydantic : Pydantic} (cfg : Settings) :
  0 < cache_ttl_seconds cfg ->
  (forall (q : option string) (la lo : float) (w w1 : World)
          (r : CurrentWeatherResponse.t),
     no_text q ->
     weather.current_weather cfg q (Some la) (Some lo) w = (ok r, w1) ->
     weather.current_weather cfg q (Some la) (Some lo) w1 = (ok r, w1))
  /\ (forall (q : option string) (la lo : float) (days : Z) (w w1 : World)
             (data : json),
        no_text q ->
        weather_client.get_forecast cfg la lo days w = (ok data, w1) ->
        data <> JNone ->
        weather.forecast cfg q (Some la) (Some lo) days w1
        = weather.forecast cfg q (Some la) (Some lo) days w)
  /\ (forall (q : string) (w w1 : World) (data : json),
        not_blank q ->
        geocoding_client.geocode_search cfg q 10 w = (ok data, w1) ->
        data <> JNone ->
        location.search cfg q w1 = location.search cfg q w)
  /\ (forall (la lo : float) (w w1 : World) (data : json),
        geocoding_client.reverse_geocode cfg la lo w = (ok data, w1) ->
        data <> JNone ->
        location.reverse cfg la lo w1 = location.reverse cfg la lo w).
Proof.
  intros Httl. split_and!.
  - intros q la lo w w1 r Hq.
    rewrite !current_weather_run, !(resolve_by_coordinates _ _ _ _ _ Hq). cbv [ok].
    destruct (weather_client.get_current_weather cfg la lo w) as [[e|data] w2] eqn:E;
      [done|].
    intros Hrun. injection Hrun as Hcur <-.
    assert (Hdata : data <> JNone).
    { intros ->. by rewrite current_of_data_none in Hcur. }
    rewrite get_current_weather_run in E |- *.
    rewrite (weather_fetch_again cfg _ _ _ _ _ _ Httl E Hdata). cbv [ok].
    by rewrite Hcur.
  - intros q la lo days w w1 data Hq Hfetch Hdata.
    rewrite !forecast_run, !(resolve_by_coordinates _ _ _ _ _ Hq). cbv [ok].
    rewrite get_forecast_run in Hfetch. rewrite !get_forecast_run.
    by rewrite (weather_fetch_again cfg _ _ _ _ _ _ Httl Hfetch Hdata), Hfetch.
  - intros q w w1 data Hq Hfetch Hdata.
    rewrite !(search_run _ _ _ Hq).
    rewrite geocode_search_run in Hfetch. rewrite !geocode_search_run.
    by rewrite (geocoding_fetch_again cfg _ _ _ _ _ _ Httl Hfetch Hdata), Hfetch.
  - intros la lo w w1 data Hfetch Hdata.
    rewrite !reverse_run.
    rewrite reverse_geocode_run in Hfetch. rewrite !reverse_geocode_run.
    by rewrite (geocoding_fetch_again cfg _ _ _ _ _ _ Httl Hfetch Hdata), Hfetch.
Qed.

Lemma routes_replay_from_cache_witness :
  exists (r : CurrentWeatherResponse.t) (w1 : World),
    weather.current_weather (builtins := example_builtins)
      (upstream := scenario_upstream) (pydantic := strict_pydantic) settings
      None (Some 52.52%float) (Some 13.405%float) initial_world = (ok r, w1)
    /\ weather.current_weather (builtins := example_builtins)
         (upstream := scenario_upstream) (pydantic := strict_pydantic) settings
         None (Some 52.52%float) (Some 13.405%float) w1 = (ok r, w1).
Proof.
  destruct (weather_fetch_miss (upstream := scenario_upstream) settings "current"
              weather_client.WEATHER_BASE
              (weather_client.current_params 52.52 13.405) initial_world 1%Q
              scenario_current_body) as [w1 Hw1];
    [apply lookup_empty|reflexivity|].
  rewrite <-get_current_weather_run in Hw1.
  destruct (weather.current_of_data (builtins := example_builtins)
              (pydantic := strict_pydantic) scenario_current_body)
    as [e|cur] eqn:Ecur; [by vm_compute in Ecur|].
  assert (Hrun :
    weather.current_weather (builtins := example_builtins)
      (upstream := scenario_upstream) (pydantic := strict_pydantic) settings
      None (Some 52.52%float) (Some 13.405%float) initial_world
    = (ok {| CurrentWeatherResponse.location :=
               coordinates_location (builtins := example_builtins) 52.52 13.405;
             CurrentWeatherResponse.current := cur |}, w1)).
  { rewrite current_weather_run, resolve_by_coordinates by by left. cbv [ok].
    rewrite Hw1. cbv [ok]. by rewrite Ecur. }
  eexists _, w1. split; [exact Hrun|].
  apply (proj1 (routes_replay_from_cache (builtins := example_builtins)
                  (upstream := scenario_upstream) (pydantic := strict_pydantic)
                  settings eq_refl)
           None 52.52%float 13.405%float initial_world w1 _
           (or_introl eq_refl) Hrun).
Defined.

(** X22.  What a route can send.  [search] and [reverse] send nothing or
    their one geocoding request.  A weather route sends at most two
    requests, in this order: the search for one result for the given text,
    then one weather request; called with coordinates and no text it never
    contacts the geocoding provider. *)
Theorem routes_send_at_most {builtins : PyBuiltins} {upstream : Upstream}
    {pydantic : Pydantic} (cfg : Settings) (w : World) :
  (forall q : string, sends_within (location.search cfg q) w [search_request q 10])
  /\ (forall la lo : float,
        sends_within (location.reverse cfg la lo) w [reverse_request la lo])
  /\ (forall (q : option string) (lat lon : option float),
        exists la lo,
          sends_within (weather.current_weather cfg q lat lon) w
            [search_request (default "" q) 1; current_request la lo])
  /\ (forall (q : option string) (lat lon : option float) (days : Z),
        exists la lo,
          sends_within (weather.forecast cfg q lat lon days) w
            [search_request (default "" q) 1; forecast_request la lo days])
  /\ (forall (q : option string) (la lo : float) (days : Z),
        no_text q ->
        sends_within (weather.current_weather cfg q (Some la) (Some lo)) w
          [current_request la lo]
        /\ sends_within (weather.forecast cfg q (Some la) (Some lo) days) w
             [forecast_request la lo days]).
Proof.
  assert (Hcur : forall la lo w1,
    sent (weather_client.get_current_weather cfg la lo w1).2 = sent w1
    \/ sent (weather_client.get_current_weather cfg la lo w1).2
       = sent w1 ++ [current_request la lo]).
  { intros la lo w1. rewrite get_current_weather_run. apply weather_fetch_sends. }
  assert (Hfor : forall days la lo w1,
    sent (weather_client.get_forecast cfg la lo days w1).2 = sent w1
    \/ sent (weather_client.get_forecast cfg la lo days w1).2
       = sent w1 ++ [forecast_request la lo days]).
  { intros days la lo w1. rewrite get_forecast_run. apply weather_fetch_sends. }
  split_and!.
  - intros q. apply sends_within_one, search_sent.
  - intros la lo. apply sends_within_one, reverse_sent.
  - intros q lat lon.
    apply (weather_route_sent cfg _ _ current_request q lat lon w Hcur
             (current_weather_sent cfg q lat lon w)).
  - intros q lat lon days.
    apply (weather_route_sent cfg _ _ (fun la lo => forecast_request la lo days)
             q lat lon w (Hfor days) (forecast_sent cfg q lat lon days w)).
  - intros q la lo days Hq. split.
    + by apply (weather_route_sent cfg _ _ current_request q (Some la) (Some lo) w
                  Hcur (current_weather_sent cfg q _ _ w)).
    + by apply (weather_route_sent cfg _ _ (fun la lo => forecast_request la lo days)
                  q (Some la) (Some lo) w (Hfor days) (forecast_sent cfg q _ _ days w)).
Qed.
